(** * Real-time multimodal emotion detection: a shallow embedding

    The Python program fuses a face estimate and a heuristic voice estimate
    and announces the fused emotion.  This development embeds

    - [config.py]          as [Config],
    - [emotion_fusion.py]  as [EmotionFusion],
    - [voice_detector.py]  as [VoiceDetector],
    - [audio_capture.py]   as [AudioCapture],
    - [test_to_speech.py]  as [TextToSpeech],
    - [main.py]            as [Main],

    and proves the properties of the specification about them.

    Conventions.  Python floats are read as exact rationals ([Q]); a
    comparison [a > b] is the boolean [Qgtb a b].  A dict that is [None] or
    present is an [option]; the emotion labels, provenance tags and trigger
    reasons are the strings of the source.  Calls into numpy that are not
    rational ([sqrt], the FFT roll-off, the autocorrelation pitch variation),
    the random generator and the wall clock are inputs of the model. *)

From Stdlib Require Import QArith Qminmax Qround Qabs Lqa Lia ZArith.
From Stdlib Require Import List String Bool Arith.
Import ListNotations.

Open Scope Q_scope.

(* ================================================================== *)
(** * Python numerics on rationals *)

Module Py.

(** [a > b] *)
Definition Qgtb (a b : Q) : bool := negb (Qle_bool a b).

(** [a < b] *)
Definition Qltb (a b : Q) : bool := negb (Qle_bool b a).

(** The builtin [min(a, b)]: the first argument unless the second is
    strictly smaller. *)
Definition min (a b : Q) : Q := if Qltb b a then b else a.

(** The builtin [max(a, b)]: the first argument unless the second is
    strictly larger. *)
Definition max (a b : Q) : Q := if Qgtb b a then b else a.

(** [x % m] for a positive modulus [m]: a value in [0, m). *)
Definition fmod (x m : Q) : Q := x - m * inject_Z (Qfloor (x / m)).

(** [a != b] on values that are [None] or a string. *)
Definition opt_str_eqb (a b : option string) : bool :=
  match a, b with
  | None, None => true
  | Some x, Some y => String.eqb x y
  | _, _ => false
  end.

(** [len(lst)] *)
Definition len {A : Type} (l : list A) : Z := Z.of_nat (List.length l).

(** The slice [lst[start:]]: a negative [start] counts from the end, and
    the bound is clamped to the list. *)
Definition slice_from {A : Type} (start : Z) (l : list A) : list A :=
  let lower :=
    if (start <? 0)%Z then Z.max 0 (start + len l) else Z.min start (len l) in
  skipn (Z.to_nat lower) l.

(** Exceptions: [None] is a raised exception; [x <- e ;; k] runs [k] when
    [e] returned normally. *)
Definition bind {A B : Type} (e : option A) (k : A -> option B) : option B :=
  match e with
  | Some x => k x
  | None => None
  end.

End Py.

Notation "x <- e ;; k" := (Py.bind e (fun x => k))
  (at level 61, e at next level, right associativity).

(* ================================================================== *)
(** * config.py *)

Module Config.

Definition FACE_WEIGHT : Q := 0.7.
Definition VOICE_WEIGHT : Q := 0.3.
Definition SAMPLE_RATE : Z := 16000.
Definition CHUNK_SIZE : Z := 1024.
Definition BUFFER_SECONDS : Z := 3.

Definition EMOTIONS : list string :=
  ["angry"; "disgust"; "fear"; "happy"; "neutral"; "sad"; "surprise"]%string.

End Config.

(* ================================================================== *)
(** * Estimates *)

(** The keys of a face or voice result that fusion and the speech
    controller read: ['emotion'] and ['confidence']. *)
Record Estimate : Type := mkEstimate {
  emotion : string;
  confidence : Q
}.

(** The dict returned by [fuse_emotions]. *)
Record Fused : Type := mkFused {
  fused_emotion : string;
  fused_confidence : Q;
  source : string
}.

(* ================================================================== *)
(** * emotion_fusion.py *)

Module EmotionFusion.

Definition face_weight : Q := Config.FACE_WEIGHT.
Definition voice_weight : Q := Config.VOICE_WEIGHT.

(** [fuse_emotions(self, face_result, voice_result)] *)
Definition fuse_emotions (face_result voice_result : option Estimate)
  : option Fused :=
  match face_result, voice_result with
  | None, None => None
  | None, Some v =>
      Some (mkFused (emotion v) (confidence v * 0.8) "voice_only")
  | Some f, None =>
      Some (mkFused (emotion f) (confidence f * 0.8) "face_only")
  | Some f, Some v =>
      let face_emotion := emotion f in
      let voice_emotion := emotion v in
      let face_conf := confidence f in
      let voice_conf := confidence v in
      if String.eqb face_emotion voice_emotion then
        let combined_confidence :=
          Py.min 1.0 (face_conf * face_weight + voice_conf * voice_weight + 0.2) in
        Some (mkFused face_emotion combined_confidence "agreement")
      else
        let face_weighted := face_conf * face_weight in
        let voice_weighted := voice_conf * voice_weight in
        if Py.Qgtb face_weighted voice_weighted then
          Some (mkFused face_emotion face_weighted "face_dominant")
        else
          Some (mkFused voice_emotion voice_weighted "voice_dominant")
  end.

End EmotionFusion.

(* ================================================================== *)
(** * voice_detector.py *)

Module VoiceDetector.

(** A dict from emotion label to score, as its items in insertion order
    (the order [max] and the [for] loops visit). *)
Definition scores : Type := list (string * Q).

Definition keys (d : scores) : list string := map fst d.
Definition values (d : scores) : list Q := map snd d.

(** [d[k]]; a missing key raises [KeyError]. *)
Fixpoint getitem (k : string) (d : scores) : option Q :=
  match d with
  | [] => None
  | (k', v) :: rest => if String.eqb k k' then Some v else getitem k rest
  end.

(** [d[k] = v]: an existing key keeps its position, a new key goes last. *)
Fixpoint setitem (k : string) (v : Q) (d : scores) : scores :=
  match d with
  | [] => [(k, v)]
  | (k', v') :: rest =>
      if String.eqb k k' then (k', v) :: rest else (k', v') :: setitem k v rest
  end.

(** [d[k] += c] *)
Definition iadd (k : string) (c : Q) (d : scores) : option scores :=
  v <- getitem k d ;; Some (setitem k (v + c) d).

(** [d[k] *= c] *)
Definition imul (k : string) (c : Q) (d : scores) : option scores :=
  v <- getitem k d ;; Some (setitem k (v * c) d).

(** [for emotion in d: body], the body seeing the position of the key
    (the number of iterations before it). *)
Fixpoint for_keys (i : nat) (ks : list string)
    (body : nat -> string -> scores -> option scores) (d : scores)
  : option scores :=
  match ks with
  | [] => Some d
  | k :: rest => d' <- body i k d ;; for_keys (S i) rest body d'
  end.

Definition for_each (body : nat -> string -> scores -> option scores)
    (d : scores) : option scores :=
  for_keys O (keys d) body d.

(** [sum(d.values())] *)
Definition sum (l : list Q) : Q := fold_left Qplus l 0.

(** [max(d, key=d.get)]: the first key, in insertion order, whose value
    is not exceeded; an empty dict raises [ValueError]. *)
Fixpoint max_item (best : string * Q) (items : scores) : string * Q :=
  match items with
  | [] => best
  | (k, v) :: rest =>
      if Py.Qgtb v (snd best) then max_item (k, v) rest else max_item best rest
  end.

Definition max_key (d : scores) : option string :=
  match d with
  | [] => None
  | kv :: rest => Some (fst (max_item kv rest))
  end.

(** The result dict of [_analyze_audio_realtime]. *)
Record Result : Type := mkResult {
  res_emotion : string;
  res_confidence : Q;
  all_predictions : scores;
  model : string
}.

Definition estimate (r : Result) : Estimate :=
  mkEstimate (res_emotion r) (res_confidence r).

(** The attributes of a [VoiceDetector] that its methods read or write. *)
Record t : Type := mk {
  current_emotion : option Result;
  sample_rate : Z;
  emotions : list string;
  emotion_sequence : list string;
  processing_count : Z
}.

(** [__init__] *)
Definition init : t :=
  mk None 16000
     ["angry"; "happy"; "sad"; "neutral"; "fear"; "surprise"; "disgust"]%string
     [] 0.

Definition set_emotion_sequence (self : t) (s : list string) : t :=
  mk (current_emotion self) (sample_rate self) (emotions self) s
     (processing_count self).

Definition set_current_emotion (self : t) (r : option Result) : t :=
  mk r (sample_rate self) (emotions self) (emotion_sequence self)
     (processing_count self).

Definition set_processing_count (self : t) (n : Z) : t :=
  mk (current_emotion self) (sample_rate self) (emotions self)
     (emotion_sequence self) n.

(** [get_current_emotion] *)
Definition get_current_emotion (self : t) : option Result :=
  current_emotion self.

(** ** Descriptors of a window *)

(** [np.max(np.abs(audio_data))] of a non-empty window. *)
Definition np_max_abs (x : Q) (rest : list Q) : Q :=
  fold_left (fun m y => if Py.Qgtb (Qabs y) m then Qabs y else m) rest (Qabs x).

(** [np.mean(audio_data ** 2)] *)
Definition mean_square (audio_data : list Q) : Q :=
  sum (map (fun x => x * x) audio_data) / inject_Z (Py.len audio_data).

(** [np.sign] *)
Definition sign (x : Q) : Q :=
  if Py.Qgtb x 0 then 1 else if Py.Qltb x 0 then -1 else 0.

(** [np.diff] *)
Fixpoint diff (l : list Q) : list Q :=
  match l with
  | x :: ((y :: _) as rest) => (y - x) :: diff rest
  | _ => []
  end.

(** [np.sum(np.abs(np.diff(np.sign(audio_data)))) / len(audio_data)] *)
Definition zero_crossing_rate (audio_data : list Q) : Q :=
  sum (map Qabs (diff (map sign audio_data))) / inject_Z (Py.len audio_data).

(** ** [_calculate_realtime_emotions] *)

Definition base_probabilities : scores :=
  [("neutral", 0.15); ("happy", 0.14); ("sad", 0.13); ("angry", 0.12);
   ("surprise", 0.11); ("fear", 0.10); ("disgust", 0.09)]%string.

Definition volume_rule (volume : Q) (emotions : scores) : option scores :=
  if Py.Qgtb volume 0.3 then
    e <- iadd "angry" 0.25 emotions ;;
    e <- iadd "surprise" 0.20 e ;;
    iadd "happy" 0.15 e
  else if Py.Qgtb volume 0.15 then
    e <- iadd "happy" 0.20 emotions ;;
    iadd "neutral" 0.15 e
  else
    e <- iadd "sad" 0.25 emotions ;;
    e <- iadd "fear" 0.15 e ;;
    iadd "neutral" 0.10 e.

Definition energy_rule (energy : Q) (emotions : scores) : option scores :=
  if Py.Qgtb energy 0.02 then
    e <- iadd "angry" 0.20 emotions ;;
    e <- iadd "happy" 0.18 e ;;
    iadd "surprise" 0.12 e
  else if Py.Qltb energy 0.005 then
    e <- iadd "sad" 0.22 emotions ;;
    iadd "fear" 0.15 e
  else Some emotions.

Definition zero_crossings_rule (zero_crossings : Q) (emotions : scores)
  : option scores :=
  if Py.Qgtb zero_crossings 0.15 then
    e <- iadd "angry" 0.25 emotions ;;
    iadd "disgust" 0.15 e
  else if Py.Qltb zero_crossings 0.05 then
    e <- iadd "happy" 0.20 emotions ;;
    iadd "neutral" 0.10 e
  else Some emotions.

Definition spectral_rule (spectral_rolloff : Q) (emotions : scores)
  : option scores :=
  if Py.Qgtb spectral_rolloff 0.6 then
    e <- iadd "happy" 0.22 emotions ;;
    iadd "surprise" 0.18 e
  else if Py.Qltb spectral_rolloff 0.3 then
    e <- iadd "sad" 0.20 emotions ;;
    iadd "fear" 0.15 e
  else Some emotions.

Definition pitch_rule (pitch_variation : Q) (emotions : scores)
  : option scores :=
  if Py.Qgtb pitch_variation 0.7 then
    e <- iadd "surprise" 0.25 emotions ;;
    e <- iadd "fear" 0.18 e ;;
    iadd "happy" 0.12 e
  else if Py.Qltb pitch_variation 0.3 then
    e <- iadd "sad" 0.20 emotions ;;
    iadd "neutral" 0.15 e
  else Some emotions.

Definition calculate_realtime_emotions
    (volume energy zero_crossings spectral_rolloff pitch_variation
     current_time : Q) : option scores :=
  e <- volume_rule volume base_probabilities ;;
  e <- energy_rule energy e ;;
  e <- zero_crossings_rule zero_crossings e ;;
  e <- spectral_rule spectral_rolloff e ;;
  pitch_rule pitch_variation e.

(** ** [_add_realtime_variety] *)

(** Time-based cycling: [(current_time % 15) / 15] selects one of five
    phases. *)
Definition phase_rule (current_time : Q) (emotion_scores : scores)
  : option scores :=
  let time_cycle := Py.fmod current_time 15 / 15 in
  if Py.Qltb time_cycle 0.2 then
    e <- iadd "happy" 0.15 emotion_scores ;;
    iadd "surprise" 0.10 e
  else if Py.Qltb time_cycle 0.4 then
    iadd "neutral" 0.12 emotion_scores
  else if Py.Qltb time_cycle 0.6 then
    e <- iadd "sad" 0.15 emotion_scores ;;
    iadd "fear" 0.08 e
  else if Py.Qltb time_cycle 0.8 then
    e <- iadd "angry" 0.18 emotion_scores ;;
    iadd "disgust" 0.10 e
  else
    e <- iadd "surprise" 0.20 emotion_scores ;;
    iadd "fear" 0.10 e.

(** [self.emotion_sequence.count(x)] *)
Definition count (x : string) (l : list string) : Z :=
  Z.of_nat (count_occ string_dec l x).

(** The scaling applied when the history repeats: [last_emotion] is
    reduced, every other key is boosted. *)
Definition rescale (last_emotion : string) (emotion_scores : scores)
  : option scores :=
  e <- imul last_emotion 0.7 emotion_scores ;;
  for_each (fun _ emotion e =>
              if negb (String.eqb emotion last_emotion)
              then imul emotion 1.1 e else Some e) e.

(** "Prevent repetition" *)
Definition prevent_repetition (emotion_sequence : list string)
    (emotion_scores : scores) : option scores :=
  if (Py.len emotion_sequence >? 2)%Z then
    let last_emotion := last emotion_sequence ""%string in
    if (count last_emotion emotion_sequence >=? 2)%Z then
      rescale last_emotion emotion_scores
    else Some emotion_scores
  else Some emotion_scores.

(** "Add controlled randomness": [uniform i] is the value returned by the
    [i]-th call of [random.uniform(-0.08, 0.12)]. *)
Definition add_randomness (uniform : nat -> Q) (emotion_scores : scores)
  : option scores :=
  for_each (fun i emotion e =>
              e <- iadd emotion (uniform i) e ;;
              v <- getitem emotion e ;;
              Some (setitem emotion (Py.max 0.05 v) e)) emotion_scores.

(** "Normalize"; a zero total raises [ZeroDivisionError]. *)
Definition normalize (emotion_scores : scores) : option scores :=
  let total := sum (values emotion_scores) in
  for_each (fun _ emotion e =>
              v <- getitem emotion e ;;
              if Qeq_bool total 0 then None
              else Some (setitem emotion (v / total) e)) emotion_scores.

Definition add_realtime_variety (self : t) (emotion_scores : scores)
    (current_time : Q) (uniform : nat -> Q) : option scores :=
  e <- phase_rule current_time emotion_scores ;;
  e <- prevent_repetition (emotion_sequence self) e ;;
  e <- add_randomness uniform e ;;
  normalize e.

(** ** [_analyze_audio_realtime] and [process_audio] *)

Section Numpy.

(** [np.sqrt] *)
Variable np_sqrt : Q -> Q.
(** [_simple_spectral_rolloff] and [_estimate_pitch_variation]: built on
    [np.fft.fft], [np.correlate] and [np.std]; both catch every
    exception and return a number. *)
Variable simple_spectral_rolloff : list Q -> Q.
Variable estimate_pitch_variation : list Q -> Q.

(** The body of the [try]; [None] is an exception, which the handler
    turns into the result [None]. *)
Definition analyze_body (self : t) (audio_data : list Q)
    (current_time : Q) (uniform : nat -> Q) : option (option Result * t) :=
  match audio_data with
  | [] => None
  | x :: rest =>
      let volume := np_max_abs x rest in
      let energy := mean_square audio_data in
      let rms := np_sqrt energy in
      let zero_crossings := zero_crossing_rate audio_data in
      let spectral_rolloff := simple_spectral_rolloff audio_data in
      let pitch_variation := estimate_pitch_variation audio_data in
      if Py.Qltb volume 0.005 then Some (None, self)
      else
        emotion_scores <-
          calculate_realtime_emotions volume energy zero_crossings
            spectral_rolloff pitch_variation current_time ;;
        emotion_scores <-
          add_realtime_variety self emotion_scores current_time uniform ;;
        best_emotion <- max_key emotion_scores ;;
        base_confidence <- getitem best_emotion emotion_scores ;;
        let confidence_boost := Py.min 0.3 (volume * 2 + rms * 1.5) in
        let final_confidence :=
          Py.min 0.92 (base_confidence + confidence_boost) in
        let sequence := (emotion_sequence self ++ [best_emotion])%list in
        let sequence :=
          if (Py.len sequence >? 10)%Z then tl sequence else sequence in
        Some (Some (mkResult best_emotion final_confidence emotion_scores
                             "Real-Time-Audio"),
              set_emotion_sequence self sequence)
  end.

Definition _analyze_audio_realtime (self : t) (audio_data : list Q)
    (current_time : Q) (uniform : nat -> Q) : option Result * t :=
  match analyze_body self audio_data current_time uniform with
  | Some out => out
  | None => (None, self)
  end.

(** [process_audio]; [current_time] is the value of [time.time()]. *)
Definition process_audio (self : t) (audio_data : option (list Q))
    (current_time : Q) (uniform : nat -> Q) : t :=
  match audio_data with
  | None => self
  | Some audio_data =>
      if (Py.len audio_data <? 1000)%Z then self
      else
        let self := set_processing_count self (processing_count self + 1) in
        let '(emotion_result, self) :=
          _analyze_audio_realtime self audio_data current_time uniform in
        match emotion_result with
        | Some r => set_current_emotion self (Some r)
        | None => self
        end
  end.

End Numpy.

(** ** [_simple_spectral_rolloff] and [_estimate_pitch_variation] *)

Section Descriptors.

(** [np.abs(np.fft.fft(audio_data))], the magnitude of every bin (the
    source slices the spectrum before taking the magnitude, which is the
    same list); [None] when [np.fft.fft] raises. *)
Variable fft_magnitude : list Q -> option (list Q).

(** [np.correlate(audio_data, audio_data, mode='full')]; [None] when it
    raises. *)
Variable np_correlate_full : list Q -> option (list Q).

(** [np.std] *)
Variable np_std : list Q -> Q.

(** [np.cumsum], continuing from the running total [acc]. *)
Fixpoint cumsum (acc : Q) (l : list Q) : list Q :=
  match l with
  | [] => []
  | x :: rest => (acc + x) :: cumsum (acc + x) rest
  end.

(** [np.where(l >= bound)[0]]: the indices, counted from [i], of the
    entries that reach [bound]. *)
Fixpoint where_ge (bound : Q) (i : nat) (l : list Q) : list nat :=
  match l with
  | [] => []
  | c :: rest =>
      if Qle_bool bound c then i :: where_ge bound (S i) rest
      else where_ge bound (S i) rest
  end.

(** [_simple_spectral_rolloff]; every exception gives 0.5. *)
Definition _simple_spectral_rolloff (audio_data : list Q) : Q :=
  match fft_magnitude audio_data with
  | None => 0.5
  | Some fft =>
      let magnitude := firstn (Z.to_nat (Py.len fft / 2)) fft in
      let total_energy := sum magnitude in
      if Qeq_bool total_energy 0 then 0.5
      else
        let cumulative_energy := cumsum 0 magnitude in
        let rolloff_point :=
          where_ge (0.85 * total_energy) O cumulative_energy in
        match rolloff_point with
        | i :: _ => inject_Z (Z.of_nat i) / inject_Z (Py.len magnitude)
        | [] => 0.5
        end
  end.

(** [autocorr[i] > autocorr[i-1] and autocorr[i] > autocorr[i+1]] *)
Definition is_peak (autocorr : list Q) (i : nat) : bool :=
  Py.Qgtb (nth i autocorr 0) (nth (i - 1) autocorr 0)
  && Py.Qgtb (nth i autocorr 0) (nth (i + 1) autocorr 0).

(** The loop [for i in range(1, min(400, len(autocorr)-1))] that collects
    the peaks. *)
Definition find_peaks (autocorr : list Q) : list Q :=
  let stop := Z.min 400 (Py.len autocorr - 1) in
  map (fun i => nth i autocorr 0)
      (filter (is_peak autocorr) (seq 1 (Z.to_nat stop - 1))).

(** [np.mean] *)
Definition np_mean (l : list Q) : Q := sum l / inject_Z (Py.len l).

(** [_estimate_pitch_variation]; every exception gives 0.5.  A numpy
    division by zero does not raise: it gives an infinity or a nan, and
    [min(1.0, x)] is then 1.0, the standard deviation being non-negative. *)
Definition _estimate_pitch_variation (audio_data : list Q) : Q :=
  match np_correlate_full audio_data with
  | None => 0.5
  | Some autocorr =>
      let autocorr := Py.slice_from (Py.len autocorr / 2) autocorr in
      let peaks := find_peaks autocorr in
      if (Py.len peaks >? 1)%Z then
        let denominator := np_mean peaks + 1e-10 in
        if Qeq_bool denominator 0 then 1.0
        else Py.min 1.0 (np_std peaks / denominator)
      else 0.5
  end.

End Descriptors.

End VoiceDetector.

(* ================================================================== *)
(** * audio_capture.py *)

Module AudioCapture.

Section Capture.

(** The connected voice detector and its [process_audio] method. *)
Variable Detector : Type.
Variable process_audio : Detector -> list Q -> Detector.

Record t : Type := mk {
  sample_rate : Z;
  chunk_size : Z;
  buffer_duration : Z;
  audio_queue : list (list Q);
  recording : bool;
  voice_detector : option Detector
}.

(** [__init__] *)
Definition init : t := mk 16000 1024 3 [] false None.

Definition set_audio_queue (self : t) (q : list (list Q)) : t :=
  mk (sample_rate self) (chunk_size self) (buffer_duration self) q
     (recording self) (voice_detector self).

Definition set_recording (self : t) (b : bool) : t :=
  mk (sample_rate self) (chunk_size self) (buffer_duration self)
     (audio_queue self) b (voice_detector self).

(** [set_voice_detector] *)
Definition set_voice_detector (self : t) (d : Detector) : t :=
  mk (sample_rate self) (chunk_size self) (buffer_duration self)
     (audio_queue self) (recording self) (Some d).

(** The capacity of [queue.Queue(maxsize=10)]. *)
Definition maxsize : Z := 10.

(** [_audio_callback]: a non-blocking [put]; on [queue.Full] the oldest
    chunk is removed and the [put] is repeated. *)
Definition _audio_callback (self : t) (audio_chunk : list Q) : t :=
  if recording self then
    let q := audio_queue self in
    if (Py.len q <? maxsize)%Z then
      set_audio_queue self (q ++ [audio_chunk])
    else
      match q with
      | [] => self
      | _ :: rest => set_audio_queue self (rest ++ [audio_chunk])
      end
  else self.

(** [target_samples = self.sample_rate * self.buffer_duration] *)
Definition target_samples (self : t) : Z :=
  (sample_rate self * buffer_duration self)%Z.

(** One iteration of the [while self.recording] loop of
    [start_capture], on the loop variable [audio_buffer].  An empty
    queue is the [queue.Empty] of the timed-out [get]. *)
Definition consume (self : t) (audio_buffer : list Q) : t * list Q :=
  if recording self then
    match audio_queue self with
    | [] => (self, audio_buffer)
    | audio_chunk :: rest =>
        let self := set_audio_queue self rest in
        let audio_buffer := (audio_buffer ++ audio_chunk)%list in
        if (Py.len audio_buffer >=? target_samples self)%Z then
          let audio_array :=
            Py.slice_from (- target_samples self) audio_buffer in
          let self :=
            match voice_detector self with
            | Some d =>
                mk (sample_rate self) (chunk_size self)
                   (buffer_duration self) (audio_queue self)
                   (recording self) (Some (process_audio d audio_array))
            | None => self
            end in
          (self, Py.slice_from (- sample_rate self) audio_buffer)
        else (self, audio_buffer)
    end
  else (self, audio_buffer).

(** The device thread and the capture thread interleave: the device
    delivers a block, or the capture loop runs one iteration. *)
Inductive event : Type :=
| Deliver (indata : list Q)
| Iterate.

Definition step (st : t * list Q) (e : event) : t * list Q :=
  match e with
  | Deliver indata => (_audio_callback (fst st) indata, snd st)
  | Iterate => consume (fst st) (snd st)
  end.

Definition run (evs : list event) (st : t * list Q) : t * list Q :=
  fold_left step evs st.

(** [start_capture] up to the loop: recording, with an empty buffer. *)
Definition start_capture (self : t) : t * list Q :=
  (set_recording self true, []).

(** [stop_capture]: the flag is cleared; stopping the stream leaves no
    state. *)
Definition stop_capture (self : t) : t := set_recording self false.

(** [get_audio_chunk]: the oldest chunk, or [None] on [queue.Empty]. *)
Definition get_audio_chunk (self : t) : option (list Q) * t :=
  match audio_queue self with
  | [] => (None, self)
  | audio_chunk :: rest => (Some audio_chunk, set_audio_queue self rest)
  end.

(** The device thread alone: the blocks are delivered one after the
    other. *)
Definition deliver_all (blocks : list (list Q)) (self : t) : t :=
  fold_left _audio_callback blocks self.

End Capture.

(** The [DummyVoiceDetector] of the module's self-test, keeping the
    arrays it receives. *)
Definition Dummy : Type := list (list Q).
Definition dummy_process_audio (d : Dummy) (audio : list Q) : Dummy :=
  (d ++ [audio])%list.

(** A stream of [n] samples numbered from [from], cut into blocks of the
    device block size by the caller. *)
Fixpoint ramp (from : Z) (n : nat) : list Q :=
  match n with
  | O => []
  | S m => inject_Z from :: ramp (from + 1) m
  end.

(** [k] consecutive blocks of [size] samples, each delivered and then
    consumed; the samples are numbered from [from]. *)
Fixpoint blocks (from : Z) (size : nat) (k : nat) : list (event) :=
  match k with
  | O => []
  | S m =>
      Deliver (ramp from size) :: Iterate
        :: blocks (from + Z.of_nat size) size m
  end.

End AudioCapture.

(* ================================================================== *)
(** * test_to_speech.py *)

Module TextToSpeech.

Open Scope string_scope.

(** [engine] tells whether [self.engine] is an engine or [None]; an
    entry of [speak_queue] is the tuple [(message, current_time)].  The
    worker threads that take entries off the queue and render them are not
    part of the model: [speak_queue] holds what was put and not yet
    drained on overflow. *)
Record t : Type := mk {
  enabled : bool;
  engine : bool;
  speak_queue : list (string * Q);
  last_speak_time : Q;
  emotion_count : Z
}.

(** [__init__]; [available] tells whether the engine could be created. *)
Definition init (available : bool) : t := mk true available [] 0 0.

(** The capacity of [queue.Queue(maxsize=50)]. *)
Definition maxsize : Z := 50.

(** [while self.speak_queue.qsize() > 10: self.speak_queue.get_nowait()] *)
Fixpoint drain (q : list (string * Q)) : list (string * Q) :=
  match q with
  | [] => []
  | _ :: rest => if (Py.len q >? 10)%Z then drain rest else q
  end.

(** [speak_emotion_now]; [current_time] is the value of [time.time()]. *)
Definition speak_emotion_now (self : t) (emotion : string) (confidence : Q)
    (current_time : Q) : t :=
  if negb (enabled self) || negb (engine self) then self
  else
    let emotion_count := (emotion_count self + 1)%Z in
    let messages :=
      [emotion; emotion ++ " detected"; "Emotion " ++ emotion;
       emotion ++ " emotion"] in
    let message :=
      nth (Z.to_nat (emotion_count mod Py.len messages)) messages "" in
    let q := speak_queue self in
    let q :=
      if (Py.len q <? maxsize)%Z then (q ++ [(message, current_time)])%list
      else (drain q ++ [(message, current_time)])%list in
    mk (enabled self) (engine self) q current_time emotion_count.

(** [speak_emotion] *)
Definition speak_emotion := speak_emotion_now.

(** [toggle_speech]; the immediate announcement leaves no state. *)
Definition toggle_speech (self : t) : t :=
  mk (negb (enabled self)) (engine self) (speak_queue self)
     (last_speak_time self) (emotion_count self).

(** [speak_now]: the text handed to the immediate engine, if any. *)
Definition speak_now (self : t) (message : string) : option string :=
  if engine self && enabled self then Some message else None.

(** The immediate feedback of [toggle_speech]: [speak_now] is called after
    the flag was flipped. *)
Definition toggle_speech_feedback (self : t) : option string :=
  let self := toggle_speech self in
  let status := if enabled self then "ON" else "OFF" in
  speak_now self ("TTS " ++ status).

(** One iteration of the loop of [_speaking_worker]: an entry is taken off
    the queue and, if the engine exists and speech is enabled, its message
    is handed to [engine.say]; the result holds that message.  An empty
    queue is the [queue.Empty] of the timed-out [get]. *)
Definition _speaking_worker (self : t) : t * option string :=
  match speak_queue self with
  | [] => (self, None)
  | (message, queue_time) :: rest =>
      let self :=
        mk (enabled self) (engine self) rest (last_speak_time self)
           (emotion_count self) in
      if engine self && enabled self then (self, Some message)
      else (self, None)
  end.

(** [n] iterations of the worker, with the messages it rendered, oldest
    first. *)
Fixpoint work (n : nat) (self : t) : t * list string :=
  match n with
  | O => (self, [])
  | S m =>
      let '(self, said) := _speaking_worker self in
      let '(self, more) := work m self in
      (self,
       match said with
       | Some message => message :: more
       | None => more
       end)
  end.

(** [clear_queue] *)
Definition clear_queue (self : t) : t :=
  mk (enabled self) (engine self) [] (last_speak_time self)
     (emotion_count self).

(** [stop]; stopping the engine leaves no state. *)
Definition stop (self : t) : t :=
  clear_queue
    (mk false (engine self) (speak_queue self) (last_speak_time self)
        (emotion_count self)).

(** A call [speak_emotion_now(emotion, confidence)] made at a time. *)
Record Call : Type := mkCall {
  call_emotion : string;
  call_confidence : Q;
  call_time : Q
}.

Definition speak_all (calls : list Call) (self : t) : t :=
  fold_left
    (fun s c =>
       speak_emotion_now s (call_emotion c) (call_confidence c) (call_time c))
    calls self.

End TextToSpeech.

(* ================================================================== *)
(** * main.py *)

Module Main.

Open Scope string_scope.

(** A line [SPOKE[count]: message (reason) at time] written by
    [execute_emotion_speaking]. *)
Record Spoke : Type := mkSpoke {
  spoke_count : Z;
  spoke_message : string;
  spoke_reason : string;
  spoke_time : Q
}.

Record t : Type := mk {
  tts : TextToSpeech.t;
  current_emotion : option string;
  last_spoken_time : Q;
  last_face_emotion : option string;
  last_voice_emotion : option string;
  emotion_speak_count : Z;
  stdout : list Spoke
}.

(** [__init__], given the text-to-speech object it creates. *)
Definition init (tts : TextToSpeech.t) : t := mk tts None 0 None None 0 [].

Definition set_last_face_emotion (self : t) (e : option string) : t :=
  mk (tts self) (current_emotion self) (last_spoken_time self) e
     (last_voice_emotion self) (emotion_speak_count self) (stdout self).

Definition set_last_voice_emotion (self : t) (e : option string) : t :=
  mk (tts self) (current_emotion self) (last_spoken_time self)
     (last_face_emotion self) e (emotion_speak_count self) (stdout self).

(** [execute_emotion_speaking]; [tts_time] is the clock read inside
    [speak_emotion_now]. *)
Definition execute_emotion_speaking (self : t) (final_emotion : Fused)
    (reason : string) (current_time tts_time : Q) : t :=
  let emotion_speak_count := (emotion_speak_count self + 1)%Z in
  let emotion := fused_emotion final_emotion in
  let confidence := fused_confidence final_emotion in
  let messages :=
    [emotion; emotion ++ " detected"; "Emotion " ++ emotion;
     emotion ++ " emotion"; "Current emotion " ++ emotion;
     "Feeling " ++ emotion; "I see " ++ emotion; emotion ++ " expression"] in
  let message :=
    if reason =? "face_changed" then "Face shows " ++ emotion
    else if reason =? "voice_changed" then "Voice shows " ++ emotion
    else if reason =? "high_confidence" then "Strong " ++ emotion
    else nth (Z.to_nat (emotion_speak_count mod Py.len messages)) messages "" in
  let tts := TextToSpeech.speak_emotion_now (tts self) emotion confidence tts_time in
  mk tts (Some emotion) current_time
     (last_face_emotion self) (last_voice_emotion self) emotion_speak_count
     (stdout self ++ [mkSpoke emotion_speak_count message reason current_time]).

(** The locals [should_speak] and [speak_reason] of
    [continuous_speak_emotion]. *)
Record Decision : Type := mkDecision {
  should_speak : bool;
  speak_reason : string
}.

(** "1. Final emotion changed" *)
Definition emotion_changed (self : t) (final_emotion : option Fused)
    (d : Decision) : Decision :=
  match final_emotion with
  | Some f =>
      if negb (Py.opt_str_eqb (current_emotion self) (Some (fused_emotion f)))
      then if Py.Qgtb (fused_confidence f) 0.4
           then mkDecision true "emotion_changed" else d
      else d
  | None => d
  end.

(** "2. Face emotion changed" *)
Definition face_changed (self : t) (face_result : option Estimate)
    (d : Decision) : t * Decision :=
  match face_result with
  | Some f =>
      if negb (Py.opt_str_eqb (last_face_emotion self) (Some (emotion f)))
      then if Py.Qgtb (confidence f) 0.7
           then (set_last_face_emotion self (Some (emotion f)),
                 mkDecision true "face_changed")
           else (self, d)
      else (self, d)
  | None => (self, d)
  end.

(** "3. Voice emotion changed" *)
Definition voice_changed (self : t) (voice_result : option Estimate)
    (d : Decision) : t * Decision :=
  match voice_result with
  | Some v =>
      if negb (Py.opt_str_eqb (last_voice_emotion self) (Some (emotion v)))
      then if Py.Qgtb (confidence v) 0.5
           then (set_last_voice_emotion self (Some (emotion v)),
                 mkDecision true "voice_changed")
           else (self, d)
      else (self, d)
  | None => (self, d)
  end.

(** "4. Time-based speaking" *)
Definition time_based (self : t) (final_emotion : option Fused)
    (current_time : Q) (d : Decision) : Decision :=
  let time_passed := Py.Qgtb (current_time - last_spoken_time self) 2.0 in
  match final_emotion with
  | Some f =>
      if time_passed && Py.Qgtb (fused_confidence f) 0.4
      then mkDecision true "time_based" else d
  | None => d
  end.

(** "5. High confidence trigger" *)
Definition high_confidence (self : t) (final_emotion : option Fused)
    (current_time : Q) (d : Decision) : Decision :=
  match final_emotion with
  | Some f =>
      if Py.Qgtb (fused_confidence f) 0.85 then
        let time_since_last := current_time - last_spoken_time self in
        if Py.Qgtb time_since_last 0.5
        then mkDecision true "high_confidence" else d
      else d
  | None => d
  end.

(** The five triggers in source order. *)
Definition triggers (self : t) (final_emotion : option Fused)
    (face_result voice_result : option Estimate) (current_time : Q)
  : t * Decision :=
  let d := mkDecision false "" in
  let d := emotion_changed self final_emotion d in
  let '(self, d) := face_changed self face_result d in
  let '(self, d) := voice_changed self voice_result d in
  let d := time_based self final_emotion current_time d in
  let d := high_confidence self final_emotion current_time d in
  (self, d).

(** [continuous_speak_emotion] *)
Definition continuous_speak_emotion (self : t) (final_emotion : option Fused)
    (face_result voice_result : option Estimate)
    (current_time tts_time : Q) : t :=
  if negb (TextToSpeech.enabled (tts self)) then self
  else
    let '(self, d) :=
      triggers self final_emotion face_result voice_result current_time in
    match final_emotion with
    | Some f =>
        if should_speak d
        then execute_emotion_speaking self f (speak_reason d)
               current_time tts_time
        else self
    | None => self
    end.

(** The body of the loop of [start] between reading the frame and
    drawing: fuse the two results and run the speech controller. *)
Definition detection_cycle (self : t)
    (face_result voice_result : option Estimate)
    (current_time tts_time : Q) : t :=
  let final_emotion := EmotionFusion.fuse_emotions face_result voice_result in
  continuous_speak_emotion self final_emotion face_result voice_result
    current_time tts_time.

(** What one iteration of the loop of [start] obtains: the face result,
    the current voice result and two readings of the clock. *)
Record Frame : Type := mkFrame {
  frame_face : option Estimate;
  frame_voice : option Estimate;
  frame_time : Q;
  frame_tts_time : Q
}.

(** The loop of [start] over successive frames. *)
Definition run (frames : list Frame) (self : t) : t :=
  fold_left
    (fun s fr =>
       detection_cycle s (frame_face fr) (frame_voice fr) (frame_time fr)
         (frame_tts_time fr))
    frames self.

End Main.

(* ================================================================== *)
(** * Predicates and sample inputs used in the statements *)

(** A confidence in the unit interval, for a result that may be absent. *)
Definition unit_confidence (r : option Estimate) : Prop :=
  match r with
  | Some e => 0 <= confidence e /\ confidence e <= 1
  | None => True
  end.

(** A label of [Config.EMOTIONS], for a result that may be absent. *)
Definition known_label (r : option Estimate) : Prop :=
  match r with
  | Some e => In (emotion e) Config.EMOTIONS
  | None => True
  end.

(** The dict whose value at the [i]-th key [k] (counting from [from]) is
    [f i k v], [v] being the value in [d]: what a loop over the keys leaves
    when its body replaces the value of the key it visits. *)
Fixpoint update_all (f : nat -> string -> Q -> Q) (from : nat)
    (d : VoiceDetector.scores) : VoiceDetector.scores :=
  match d with
  | [] => []
  | (k, v) :: rest => (k, f from k v) :: update_all f (S from) rest
  end.

(** The scaling of the anti-repetition step as one pass: the score of
    [last_emotion] times 0.7, every other score times 1.1. *)
Definition scaled (last_emotion : string) (d : VoiceDetector.scores)
  : VoiceDetector.scores :=
  map (fun kv => (fst kv,
                  if String.eqb (fst kv) last_emotion
                  then snd kv * 0.7 else snd kv * 1.1)) d.

(** The condition of the specification for the anti-repetition step, in
    its words: the most recent label is identical to itself across 2 or
    more trailing entries.  [trailing_run] counts the entries at the end of
    the history that equal the last one. *)
Fixpoint run_length (x : string) (l : list string) : nat :=
  match l with
  | [] => O
  | y :: rest => if String.eqb x y then S (run_length x rest) else O
  end.

Definition trailing_run (history : list string) : nat :=
  match rev history with
  | [] => O
  | x :: rest => S (run_length x rest)
  end.

Definition spec_trailing_repeat (history : list string) : bool :=
  (2 <=? trailing_run history)%nat.

(** A voice result that is absent, or has a label of [Config.EMOTIONS] and
    a confidence between 0 and the ceiling 0.92. *)
Definition well_formed_voice (r : option VoiceDetector.Result) : Prop :=
  match r with
  | Some r =>
      In (VoiceDetector.res_emotion r) Config.EMOTIONS
      /\ 0 <= VoiceDetector.res_confidence r
      /\ VoiceDetector.res_confidence r <= 0.92
  | None => True
  end.

(** The provenance tags of a fused result. *)
Definition provenance_tags : list string :=
  ["agreement"; "face_dominant"; "voice_dominant"; "face_only"; "voice_only"]%string.

(** A square root rounded down to three decimals, to run the classifier
    on sample windows. *)
Definition sqrt_down (x : Q) : Q :=
  inject_Z (Z.sqrt (Qfloor (x * 1000000))) / 1000.

(** Sample windows of 1000 samples: a loud one, and a silent one whose
    only non-zero sample is 0.004. *)
Definition loud_window : list Q :=
  List.concat (repeat [1; -1; 0; 1] 250).

Definition silent_window : list Q := 0.004 :: repeat 0 999.

(** A capture object that records, connected to a dummy detector that
    has received nothing yet. *)
Definition capturing : AudioCapture.t AudioCapture.Dummy :=
  AudioCapture.set_recording AudioCapture.Dummy
    (AudioCapture.set_voice_detector AudioCapture.Dummy
       (AudioCapture.init AudioCapture.Dummy) [])
    true.

(** The advance of the specification: the number of samples by which the
    stream is said to move on from one window to the next. *)
Definition spec_advance (self : AudioCapture.t AudioCapture.Dummy) : Z :=
  (AudioCapture.target_samples AudioCapture.Dummy self
   - AudioCapture.sample_rate AudioCapture.Dummy self)%Z.

(** Equality tests on samples, windows and lists of windows, to compare
    long windows by computation. *)
Definition sample_eqb (a b : Q) : bool :=
  (Qnum a =? Qnum b)%Z && (Qden a =? Qden b)%positive.

Fixpoint list_eqb {A : Type} (eqb : A -> A -> bool) (l m : list A) : bool :=
  match l, m with
  | [], [] => true
  | x :: l', y :: m' => eqb x y && list_eqb eqb l' m'
  | _, _ => false
  end.

Definition received (d : option AudioCapture.Dummy)
    (windows : list (list Q)) : bool :=
  match d with
  | Some ws => list_eqb (list_eqb sample_eqb) ws windows
  | None => false
  end.

(** The conditions of the five triggers of [continuous_speak_emotion], on
    the state the controller is entered with. *)
Definition emotion_changed_fires (self : Main.t) (final : option Fused) : bool :=
  match final with
  | Some f =>
      negb (Py.opt_str_eqb (Main.current_emotion self) (Some (fused_emotion f)))
      && Py.Qgtb (fused_confidence f) 0.4
  | None => false
  end.

Definition face_changed_fires (self : Main.t) (face : option Estimate) : bool :=
  match face with
  | Some f =>
      negb (Py.opt_str_eqb (Main.last_face_emotion self) (Some (emotion f)))
      && Py.Qgtb (confidence f) 0.7
  | None => false
  end.

Definition voice_changed_fires (self : Main.t) (voice : option Estimate) : bool :=
  match voice with
  | Some v =>
      negb (Py.opt_str_eqb (Main.last_voice_emotion self) (Some (emotion v)))
      && Py.Qgtb (confidence v) 0.5
  | None => false
  end.

Definition time_based_fires (self : Main.t) (final : option Fused) (now : Q)
  : bool :=
  match final with
  | Some f =>
      Py.Qgtb (now - Main.last_spoken_time self) 2.0
      && Py.Qgtb (fused_confidence f) 0.4
  | None => false
  end.

Definition high_confidence_fires (self : Main.t) (final : option Fused)
    (now : Q) : bool :=
  match final with
  | Some f =>
      Py.Qgtb (fused_confidence f) 0.85
      && Py.Qgtb (now - Main.last_spoken_time self) 0.5
  | None => false
  end.

(** A history whose labels are all keys of the score dict. *)
Definition known_history (history : list string) : Prop :=
  Forall (fun l => In l (VoiceDetector.keys VoiceDetector.base_probabilities))
         history.

(** The history after the label [label] was appended and the oldest entry
    dropped if there were more than ten. *)
Definition appended (history : list string) (label : string) : list string :=
  let s := (history ++ [label])%list in
  if (Py.len s >? 10)%Z then tl s else s.

(** What the loop keeps true: the accumulator stays shorter than the
    target and every window the detector received has the target
    length. *)
Definition loop_invariant (sr bd : Z)
    (st : AudioCapture.t AudioCapture.Dummy * list Q) : Prop :=
  AudioCapture.sample_rate AudioCapture.Dummy (fst st) = sr
  /\ AudioCapture.buffer_duration AudioCapture.Dummy (fst st) = bd
  /\ (Py.len (snd st) < sr * bd)%Z
  /\ exists windows,
       AudioCapture.voice_detector AudioCapture.Dummy (fst st) = Some windows
       /\ Forall (fun w => Py.len w = (sr * bd)%Z) windows.

(** The application right after start-up, speech engine available. *)
Definition fresh : Main.t := Main.init (TextToSpeech.init true).

(* ================================================================== *)
(** * Facts about the numeric helpers *)

Section PyFacts.

Lemma Qgtb_true (a b : Q) : Py.Qgtb a b = true <-> b < a.
Proof.
  unfold Py.Qgtb. rewrite negb_true_iff. split; intro H.
  - destruct (Qlt_le_dec b a) as [L | L]; [exact L |].
    apply Qle_bool_iff in L. congruence.
  - destruct (Qle_bool a b) eqn:E; [| reflexivity].
    apply Qle_bool_iff in E. lra.
Qed.

Lemma Qgtb_false (a b : Q) : Py.Qgtb a b = false <-> a <= b.
Proof.
  unfold Py.Qgtb. rewrite negb_false_iff. apply Qle_bool_iff.
Qed.

Lemma Qltb_true (a b : Q) : Py.Qltb a b = true <-> a < b.
Proof. apply Qgtb_true. Qed.

Lemma Qltb_false (a b : Q) : Py.Qltb a b = false <-> b <= a.
Proof. apply Qgtb_false. Qed.

Lemma min_spec (a b : Q) :
  (b < a /\ Py.min a b = b) \/ (a <= b /\ Py.min a b = a).
Proof.
  unfold Py.min. destruct (Py.Qltb b a) eqn:E.
  - left. apply Qltb_true in E. auto.
  - right. apply Qltb_false in E. auto.
Qed.

Lemma max_spec (a b : Q) :
  (a < b /\ Py.max a b = b) \/ (b <= a /\ Py.max a b = a).
Proof.
  unfold Py.max. destruct (Py.Qgtb b a) eqn:E.
  - left. apply Qgtb_true in E. auto.
  - right. apply Qgtb_false in E. auto.
Qed.

Lemma min_le_l (a b : Q) : Py.min a b <= a.
Proof. destruct (min_spec a b) as [[H ->] | [H ->]]; lra. Qed.

Lemma min_le_r (a b : Q) : Py.min a b <= b.
Proof. destruct (min_spec a b) as [[H ->] | [H ->]]; lra. Qed.

Lemma min_glb (a b c : Q) : c <= a -> c <= b -> c <= Py.min a b.
Proof. intros. destruct (min_spec a b) as [[H' ->] | [H' ->]]; lra. Qed.

Lemma min_Qmin (a b : Q) : Py.min a b == Qmin a b.
Proof.
  destruct (min_spec a b) as [[H ->] | [H ->]].
  - rewrite Q.min_r; lra.
  - rewrite Q.min_l; lra.
Qed.

Lemma max_ge_l (a b : Q) : a <= Py.max a b.
Proof. destruct (max_spec a b) as [[H ->] | [H ->]]; lra. Qed.

End PyFacts.

(* ================================================================== *)
(** * Fusion *)

Section FusionFacts.

Import EmotionFusion.

(** Both results present, with the same label. *)
Lemma fuse_agree (f v : Estimate) :
  emotion f = emotion v ->
  fuse_emotions (Some f) (Some v) =
  Some (mkFused (emotion f)
          (Py.min 1.0 (confidence f * 0.7 + confidence v * 0.3 + 0.2))
          "agreement").
Proof.
  intro E. unfold fuse_emotions.
  rewrite E, String.eqb_refl. reflexivity.
Qed.

(** Both results present, with different labels. *)
Lemma fuse_disagree (f v : Estimate) :
  emotion f <> emotion v ->
  fuse_emotions (Some f) (Some v) =
  if Py.Qgtb (confidence f * 0.7) (confidence v * 0.3)
  then Some (mkFused (emotion f) (confidence f * 0.7) "face_dominant")
  else Some (mkFused (emotion v) (confidence v * 0.3) "voice_dominant").
Proof.
  intro N. unfold fuse_emotions.
  apply String.eqb_neq in N. rewrite N. reflexivity.
Qed.

End FusionFacts.

Section FusionClaims.

Import EmotionFusion.

(** C4.  For every pair of present estimates with different labels,
    [fuse_emotions] returns the label whose weighted confidence
    (face confidence times 0.7 against voice confidence times 0.3) is the
    larger, with that weighted value as confidence and provenance
    [face_dominant] or [voice_dominant]; when the two weighted values are
    equal the voice label wins.  In particular a face result (sad, 0.5)
    and a voice result (angry, 0.9) give the label sad, confidence 0.35 and
    provenance [face_dominant]. *)
Theorem fuse_different_labels (f v : Estimate) :
  emotion f <> emotion v ->
  (confidence v * 0.3 < confidence f * 0.7 ->
   fuse_emotions (Some f) (Some v) =
   Some (mkFused (emotion f) (confidence f * 0.7) "face_dominant"))
  /\ (confidence f * 0.7 < confidence v * 0.3 ->
      fuse_emotions (Some f) (Some v) =
      Some (mkFused (emotion v) (confidence v * 0.3) "voice_dominant"))
  /\ (confidence f * 0.7 == confidence v * 0.3 ->
      fuse_emotions (Some f) (Some v) =
      Some (mkFused (emotion v) (confidence v * 0.3) "voice_dominant"))
  /\ (exists r,
        fuse_emotions (Some (mkEstimate "sad" 0.5)) (Some (mkEstimate "angry" 0.9))
        = Some r
        /\ fused_emotion r = "sad"%string
        /\ fused_confidence r == 0.35
        /\ source r = "face_dominant"%string).
Proof.
  intro N. rewrite (fuse_disagree f v N).
  split; [| split; [| split]].
  - intro H. apply Qgtb_true in H. rewrite H. reflexivity.
  - intro H. assert (G : Py.Qgtb (confidence f * 0.7) (confidence v * 0.3) = false)
      by (apply Qgtb_false; lra).
    rewrite G. reflexivity.
  - intro H. assert (G : Py.Qgtb (confidence f * 0.7) (confidence v * 0.3) = false)
      by (apply Qgtb_false; lra).
    rewrite G. reflexivity.
  - eexists. split; [reflexivity |]. simpl.
    split; [reflexivity | split; [reflexivity | reflexivity]].
Qed.

Lemma fuse_different_labels_witness :
  fuse_emotions (Some (mkEstimate "happy" 0.3)) (Some (mkEstimate "fear" 0.7))
  = Some (mkFused "fear" (0.7 * 0.3) "voice_dominant").
Proof.
  apply (fuse_different_labels (mkEstimate "happy" 0.3) (mkEstimate "fear" 0.7)).
  - simpl. discriminate.
  - reflexivity.
Defined.

(** C5.  For every pair of present estimates with the same label,
    [fuse_emotions] returns that label with confidence
    min(1, face confidence * 0.7 + voice confidence * 0.3 + 0.2) and
    provenance [agreement]; a face result (happy, 0.9) with a voice result
    (happy, 0.6) gives confidence exactly 1. *)
Theorem fuse_same_label (f v : Estimate) :
  emotion f = emotion v ->
  (exists r,
     fuse_emotions (Some f) (Some v) = Some r
     /\ fused_emotion r = emotion f
     /\ fused_confidence r ==
        Qmin 1 (confidence f * 0.7 + confidence v * 0.3 + 0.2)
     /\ source r = "agreement"%string)
  /\ (exists r,
        fuse_emotions (Some (mkEstimate "happy" 0.9)) (Some (mkEstimate "happy" 0.6))
        = Some r
        /\ fused_emotion r = "happy"%string
        /\ fused_confidence r == 1
        /\ source r = "agreement"%string).
Proof.
  intro E. split.
  - rewrite (fuse_agree f v E). eexists. split; [reflexivity |].
    simpl. split; [reflexivity | split; [| reflexivity]].
    destruct (min_spec 1.0 (confidence f * 0.7 + confidence v * 0.3 + 0.2))
      as [[H ->] | [H ->]];
      destruct (Q.min_spec 1 (confidence f * 0.7 + confidence v * 0.3 + 0.2))
        as [[H' ->] | [H' ->]]; lra.
  - eexists. split; [reflexivity |]. simpl.
    split; [reflexivity | split; [reflexivity | reflexivity]].
Qed.

Lemma fuse_same_label_witness :
  exists r,
    fuse_emotions (Some (mkEstimate "sad" 0.4)) (Some (mkEstimate "sad" 0.5))
    = Some r
    /\ fused_emotion r = "sad"%string
    /\ fused_confidence r == Qmin 1 (0.4 * 0.7 + 0.5 * 0.3 + 0.2)
    /\ source r = "agreement"%string.
Proof.
  apply (fuse_same_label (mkEstimate "sad" 0.4) (mkEstimate "sad" 0.5)).
  reflexivity.
Defined.

End FusionClaims.

(* ================================================================== *)
(** * The speech controller *)

Section ControllerFacts.

Import Main.

(** [triggers] as triggers 1 to 3 followed by triggers 4 and 5: the state
    [self3] that reaches trigger 4 differs from [self] in the last face and
    voice labels only, and the reason recorded so far is not one of the
    last two. *)
Lemma triggers_shape (self : t) (final : option Fused)
    (face voice : option Estimate) (now : Q) :
  exists self3 d3,
    triggers self final face voice now =
    (self3, high_confidence self3 final now (time_based self3 final now d3))
    /\ last_spoken_time self3 = last_spoken_time self
    /\ tts self3 = tts self
    /\ stdout self3 = stdout self
    /\ current_emotion self3 = current_emotion self
    /\ emotion_speak_count self3 = emotion_speak_count self
    /\ speak_reason d3 <> "time_based"%string
    /\ speak_reason d3 <> "high_confidence"%string.
Proof.
  unfold triggers, voice_changed, face_changed, emotion_changed.
  destruct final as [f |]; destruct face as [fr |]; destruct voice as [vr |];
    repeat match goal with
           | |- context [if ?c then _ else _] => destruct c
           end;
    do 2 eexists; (split; [reflexivity |]); simpl;
    repeat split; discriminate.
Qed.

(** The decision is that of the last trigger, in the order 1 to 5, whose
    condition holds: a later trigger overwrites the reason of an earlier
    one. *)
Lemma triggers_priority (self : t) (final : option Fused)
    (face voice : option Estimate) (now : Q) :
  snd (triggers self final face voice now) =
  if high_confidence_fires self final now
  then mkDecision true "high_confidence"
  else if time_based_fires self final now
  then mkDecision true "time_based"
  else if voice_changed_fires self voice
  then mkDecision true "voice_changed"
  else if face_changed_fires self face
  then mkDecision true "face_changed"
  else if emotion_changed_fires self final
  then mkDecision true "emotion_changed"
  else mkDecision false "".
Proof.
  unfold triggers, high_confidence, time_based, voice_changed, face_changed,
    emotion_changed, high_confidence_fires, time_based_fires,
    voice_changed_fires, face_changed_fires, emotion_changed_fires.
  destruct final as [f |]; destruct face as [fr |]; destruct voice as [vr |];
    simpl;
    repeat first
      [ match goal with
        | |- context [Py.opt_str_eqb ?a ?b] =>
            destruct (Py.opt_str_eqb a b) eqn:?; simpl
        end
      | match goal with
        | |- context [Py.Qgtb (confidence ?e) ?b] =>
            destruct (Py.Qgtb (confidence e) b) eqn:?; simpl
        end
      | match goal with
        | |- context [Py.Qgtb ?a ?b] => destruct (Py.Qgtb a b) eqn:?; simpl
        end ];
    first [reflexivity | congruence].
Qed.

(** The reason [high_confidence] is recorded by trigger 5 only. *)
Lemma high_confidence_reason (self : t) (f : Fused)
    (face voice : option Estimate) (now : Q) :
  speak_reason (snd (triggers self (Some f) face voice now))
  = "high_confidence"%string ->
  0.85 < fused_confidence f.
Proof.
  destruct (triggers_shape self (Some f) face voice now)
    as (self3 & d3 & T & _ & _ & _ & _ & _ & N4 & N5).
  rewrite T. simpl snd. unfold high_confidence.
  destruct (Py.Qgtb (fused_confidence f) 0.85) eqn:H.
  - intros _. apply Qgtb_true in H. exact H.
  - unfold time_based.
    destruct (Py.Qgtb (now - last_spoken_time self3) 2.0
              && Py.Qgtb (fused_confidence f) 0.4); simpl; intro R.
    + discriminate R.
    + contradiction.
Qed.

(** Triggers 2 and 3 record the new face and voice labels even when
    nothing is spoken: with speech enabled and no fused result, a changed
    face label of confidence above 0.7 is stored and no line is written. *)
Lemma face_label_stored_without_speech (self : t) (f : Estimate)
    (voice : option Estimate) (now tts_time : Q) :
  TextToSpeech.enabled (tts self) = true ->
  last_face_emotion self <> Some (emotion f) ->
  0.7 < confidence f ->
  voice = None ->
  let self' := continuous_speak_emotion self None (Some f) voice now tts_time in
  last_face_emotion self' = Some (emotion f)
  /\ stdout self' = stdout self
  /\ emotion_speak_count self' = emotion_speak_count self.
Proof.
  intros En Changed Conf -> self'. subst self'.
  unfold continuous_speak_emotion, triggers, emotion_changed, face_changed,
    voice_changed, time_based, high_confidence.
  rewrite En. simpl negb. cbv iota.
  assert (N : Py.opt_str_eqb (last_face_emotion self) (Some (emotion f)) = false).
  { destruct (last_face_emotion self) as [l |]; simpl; [| reflexivity].
    apply String.eqb_neq. intro E. apply Changed. rewrite E. reflexivity. }
  apply Qgtb_true in Conf. rewrite N, Conf. simpl. repeat split.
Qed.

End ControllerFacts.

Section ControllerClaims.

Import Main.

(** C8.  With speech enabled, when the controller is evaluated with
    [last_spoken_time] three seconds before [current_time] and a fused
    confidence of 0.5 (above 0.4, below 0.85), it speaks and the reason it
    records is [time_based]: whatever triggers 1 to 3 decided, with or
    without a change of label, trigger 4 comes later and overwrites their
    reason, and trigger 5 stays silent.  In general the triggers run in
    the order 1 to 5 and the recorded reason is that of the last one whose
    condition holds. *)
Theorem heartbeat_time_based (self : t) (f : Fused)
    (face voice : option Estimate) (now tts_time : Q) :
  TextToSpeech.enabled (tts self) = true ->
  last_spoken_time self == now - 3 ->
  fused_confidence f == 0.5 ->
  let self' := fst (triggers self (Some f) face voice now) in
  snd (triggers self (Some f) face voice now) = mkDecision true "time_based"
  /\ continuous_speak_emotion self (Some f) face voice now tts_time
     = execute_emotion_speaking self' f "time_based" now tts_time
  /\ (exists line,
        stdout (continuous_speak_emotion self (Some f) face voice now tts_time)
        = (stdout self ++ [line])%list
        /\ spoke_reason line = "time_based"%string)
  /\ (forall final : option Fused,
        snd (triggers self final face voice now) =
        if high_confidence_fires self final now
        then mkDecision true "high_confidence"
        else if time_based_fires self final now
        then mkDecision true "time_based"
        else if voice_changed_fires self voice
        then mkDecision true "voice_changed"
        else if face_changed_fires self face
        then mkDecision true "face_changed"
        else if emotion_changed_fires self final
        then mkDecision true "emotion_changed"
        else mkDecision false "").
Proof.
  intros En Last Conf self'.
  destruct (triggers_shape self (Some f) face voice now)
    as (self3 & d3 & T & L & _ & S & _).
  subst self'. rewrite T. simpl fst. simpl snd.
  assert (D : high_confidence self3 (Some f) now
                (time_based self3 (Some f) now d3)
              = mkDecision true "time_based").
  { unfold high_confidence, time_based. rewrite L.
    assert (P : Py.Qgtb (now - last_spoken_time self) 2.0 = true)
      by (apply Qgtb_true; lra).
    assert (C : Py.Qgtb (fused_confidence f) 0.4 = true)
      by (apply Qgtb_true; lra).
    assert (H : Py.Qgtb (fused_confidence f) 0.85 = false)
      by (apply Qgtb_false; lra).
    rewrite P, C, H. reflexivity. }
  assert (R : continuous_speak_emotion self (Some f) face voice now tts_time
              = execute_emotion_speaking self3 f "time_based" now tts_time).
  { unfold continuous_speak_emotion. rewrite En. simpl negb. cbv iota.
    rewrite T, D. reflexivity. }
  split; [exact D | split; [exact R | split]].
  - rewrite R. unfold execute_emotion_speaking. simpl stdout. rewrite S.
    eexists. split; [reflexivity | reflexivity].
  - intro final. apply triggers_priority.
Qed.

Lemma heartbeat_time_based_witness :
  snd (triggers (mk (TextToSpeech.init true) (Some "sad"%string) 7 None None 4 [])
         (Some (mkFused "sad" 0.5 "face_only"))
         (Some (mkEstimate "sad" 0.625)) None 10)
  = mkDecision true "time_based".
Proof.
  apply (heartbeat_time_based
           (mk (TextToSpeech.init true) (Some "sad"%string) 7 None None 4 [])
           (mkFused "sad" 0.5 "face_only")
           (Some (mkEstimate "sad" 0.625)) None 10 10).
  - reflexivity.
  - reflexivity.
  - reflexivity.
Defined.

(** C10.  With speech toggled off, an evaluation of the controller returns
    at once: no trigger is evaluated and the whole state is unchanged, in
    particular the last spoken label and time, the last face and voice
    labels and the speech count. *)
Theorem speech_off_is_frame (self : t) (final : option Fused)
    (face voice : option Estimate) (now tts_time : Q) :
  TextToSpeech.enabled (tts self) = false ->
  let self' := continuous_speak_emotion self final face voice now tts_time in
  self' = self
  /\ current_emotion self' = current_emotion self
  /\ last_spoken_time self' = last_spoken_time self
  /\ last_face_emotion self' = last_face_emotion self
  /\ last_voice_emotion self' = last_voice_emotion self
  /\ emotion_speak_count self' = emotion_speak_count self.
Proof.
  intros Off self'.
  assert (E : self' = self).
  { subst self'. unfold continuous_speak_emotion. rewrite Off. reflexivity. }
  rewrite E. repeat split.
Qed.

Lemma speech_off_is_frame_witness :
  let off := mk (TextToSpeech.toggle_speech (TextToSpeech.init true))
                None 0 None None 0 [] in
  last_face_emotion
    (continuous_speak_emotion off (Some (mkFused "happy" 0.72 "face_only"))
       (Some (mkEstimate "happy" 0.9)) None 5 5)
  = None.
Proof.
  intro off.
  apply (speech_off_is_frame off (Some (mkFused "happy" 0.72 "face_only"))
           (Some (mkEstimate "happy" 0.9)) None 5 5).
  reflexivity.
Defined.

End ControllerClaims.

Section FusionAndController.

Import EmotionFusion Main.

(** C9.  With face and voice confidences in the unit interval, a fused
    result of provenance [face_dominant] or [voice_dominant] has confidence
    at most 0.7 and one of provenance [face_only] or [voice_only] at most
    0.8; so a fused confidence above 0.85 is an [agreement], and the
    controller records the reason [high_confidence] for an [agreement]
    only. *)
Theorem high_confidence_needs_agreement (face voice : option Estimate)
    (r : Fused) :
  unit_confidence face -> unit_confidence voice ->
  fuse_emotions face voice = Some r ->
  ((source r = "face_dominant"%string \/ source r = "voice_dominant"%string) ->
   fused_confidence r <= 0.7)
  /\ ((source r = "face_only"%string \/ source r = "voice_only"%string) ->
      fused_confidence r <= 0.8)
  /\ (0.85 < fused_confidence r -> source r = "agreement"%string)
  /\ (forall (self : Main.t) (now : Q),
        speak_reason (snd (triggers self (Some r) face voice now))
        = "high_confidence"%string ->
        source r = "agreement"%string).
Proof.
  intros Uf Uv F.
  assert (B : (source r = "agreement"%string \/ fused_confidence r <= 0.8)
              /\ ((source r = "face_dominant"%string
                   \/ source r = "voice_dominant"%string) ->
                  fused_confidence r <= 0.7)).
  { unfold fuse_emotions in F.
    destruct face as [f |]; destruct voice as [v |]; simpl in Uf, Uv.
    - destruct (emotion f =? emotion v)%string.
      + inversion F; subst r; simpl. split; [left; reflexivity |].
        intros [H | H]; discriminate H.
      + unfold face_weight, voice_weight, Config.FACE_WEIGHT,
          Config.VOICE_WEIGHT in F.
        destruct (Py.Qgtb (confidence f * 0.7) (confidence v * 0.3));
          inversion F; subst r; simpl; split;
          try (right; lra); intros _; lra.
    - inversion F; subst r; simpl. split; [right; lra |].
      intros [H | H]; discriminate H.
    - inversion F; subst r; simpl. split; [right; lra |].
      intros [H | H]; discriminate H.
    - discriminate F. }
  destruct B as [A D].
  assert (G : 0.85 < fused_confidence r -> source r = "agreement"%string).
  { intro H. destruct A as [A | A]; [exact A | lra]. }
  split; [exact D | split; [| split; [exact G |]]].
  - intros [H | H]; destruct A as [A | A]; try exact A;
      rewrite A in H; discriminate H.
  - intros self now R. apply G.
    exact (high_confidence_reason self r face voice now R).
Qed.

Lemma high_confidence_needs_agreement_witness :
  fused_confidence (mkFused "sad" (0.5 * 0.7) "face_dominant") <= 0.7.
Proof.
  assert (Uf : unit_confidence (Some (mkEstimate "sad" 0.5)))
    by (simpl; split; unfold Qle; simpl; lia).
  assert (Uv : unit_confidence (Some (mkEstimate "angry" 0.9)))
    by (simpl; split; unfold Qle; simpl; lia).
  exact (proj1 (high_confidence_needs_agreement
                  (Some (mkEstimate "sad" 0.5)) (Some (mkEstimate "angry" 0.9))
                  (mkFused "sad" (0.5 * 0.7) "face_dominant")
                  Uf Uv eq_refl)
               (or_introl eq_refl)).
Defined.

(** The text queued for speech does not depend on the reason, nor on the
    controller's own count. *)
Lemma queued_text_ignores_reason (self : Main.t) (f : Fused)
    (reason reason' : string) (now tts_time : Q) :
  tts (execute_emotion_speaking self f reason now tts_time)
  = tts (execute_emotion_speaking self f reason' now tts_time)
  /\ tts (execute_emotion_speaking self f reason now tts_time)
     = TextToSpeech.speak_emotion_now (tts self) (fused_emotion f)
         (fused_confidence f) tts_time.
Proof. split; reflexivity. Qed.

(** C2.  One cycle right after start-up on a face result (happy, 0.9) and
    a voice result (happy, 0.6): the controller counts one speech, builds
    and logs the message [Strong happy] for the reason [high_confidence]
    and records the fused label and the time, but the text it queues for
    speech is [happy detected], the entry of the speech object's own
    four-entry rotation. *)
Theorem built_message_is_not_queued :
  let self' :=
    detection_cycle fresh (Some (mkEstimate "happy" 0.9))
      (Some (mkEstimate "happy" 0.6)) 10 10 in
  emotion_speak_count self' = 1%Z
  /\ stdout self' = [mkSpoke 1 "Strong happy" "high_confidence" 10]
  /\ TextToSpeech.speak_queue (tts self') = [("happy detected"%string, 10)]
  /\ current_emotion self' = Some "happy"%string
  /\ last_spoken_time self' = 10.
Proof.
  vm_compute. repeat split.
Qed.

End FusionAndController.

(* ================================================================== *)
(** * Dicts of scores *)

Section DictFacts.

Import VoiceDetector.

Lemma bind_some {A B : Type} (e : option A) (k : A -> option B) (y : B) :
  (x <- e ;; k x) = Some y -> exists x, e = Some x /\ k x = Some y.
Proof.
  destruct e as [x |]; simpl; intro H; [| discriminate].
  exists x. auto.
Qed.

Lemma getitem_in_keys (k : string) (d : scores) (v : Q) :
  getitem k d = Some v -> In k (keys d).
Proof.
  induction d as [| [k' v'] rest IH]; simpl; [discriminate |].
  destruct (String.eqb_spec k k') as [-> | N]; auto.
Qed.

Lemma getitem_in (k : string) (d : scores) (v : Q) :
  getitem k d = Some v -> In (k, v) d.
Proof.
  induction d as [| [k' v'] rest IH]; simpl; [discriminate |].
  destruct (String.eqb_spec k k') as [-> | N].
  - intro H. inversion H. auto.
  - auto.
Qed.

Lemma in_getitem (k : string) (d : scores) (v : Q) :
  NoDup (keys d) -> In (k, v) d -> getitem k d = Some v.
Proof.
  induction d as [| [k' v'] rest IH]; simpl; [contradiction |].
  intros ND [E | I].
  - inversion E. subst. rewrite String.eqb_refl. reflexivity.
  - inversion ND as [| ? ? NI ND']. subst.
    destruct (String.eqb_spec k k') as [-> | N].
    + exfalso. apply NI. change (In (fst (k', v)) (map fst rest)).
      apply in_map. exact I.
    + auto.
Qed.

Lemma setitem_keys (k : string) (v : Q) (d : scores) :
  In k (keys d) -> keys (setitem k v d) = keys d.
Proof.
  induction d as [| [k' v'] rest IH]; simpl; [contradiction |].
  intros [E | I]; destruct (String.eqb_spec k k') as [-> | N]; simpl;
    try reflexivity; try congruence.
  f_equal. exact (IH I).
Qed.

Lemma getitem_skip (k : string) (done todo : scores) :
  ~ In k (keys done) -> getitem k (done ++ todo) = getitem k todo.
Proof.
  induction done as [| [k' v'] rest IH]; simpl; [reflexivity |].
  intro N. destruct (String.eqb_spec k k') as [-> | D].
  - exfalso. apply N. left. reflexivity.
  - apply IH. intro I. apply N. right. exact I.
Qed.

Lemma setitem_skip (k : string) (v w : Q) (done todo : scores) :
  ~ In k (keys done) ->
  setitem k w (done ++ (k, v) :: todo) = (done ++ (k, w) :: todo)%list.
Proof.
  induction done as [| [k' v'] rest IH]; simpl.
  - intros _. rewrite String.eqb_refl. reflexivity.
  - intro N. destruct (String.eqb_spec k k') as [-> | D].
    + exfalso. apply N. left. reflexivity.
    + f_equal. apply IH. intro I. apply N. right. exact I.
Qed.

Lemma iadd_keys (k : string) (c : Q) (d d' : scores) :
  iadd k c d = Some d' -> keys d' = keys d.
Proof.
  unfold iadd. intro H. apply bind_some in H. destruct H as (v & G & S).
  inversion S. apply setitem_keys. exact (getitem_in_keys _ _ _ G).
Qed.

Lemma imul_keys (k : string) (c : Q) (d d' : scores) :
  imul k c d = Some d' -> keys d' = keys d.
Proof.
  unfold imul. intro H. apply bind_some in H. destruct H as (v & G & S).
  inversion S. apply setitem_keys. exact (getitem_in_keys _ _ _ G).
Qed.

Lemma iadd_at (k : string) (c v : Q) (done todo : scores) :
  ~ In k (keys done) ->
  iadd k c (done ++ (k, v) :: todo) = Some (done ++ (k, v + c) :: todo)%list.
Proof.
  intro N. unfold iadd. rewrite (getitem_skip _ _ _ N). simpl.
  rewrite String.eqb_refl. simpl. rewrite (setitem_skip _ _ _ _ _ N).
  reflexivity.
Qed.

Lemma imul_at (k : string) (c v : Q) (done todo : scores) :
  ~ In k (keys done) ->
  imul k c (done ++ (k, v) :: todo) = Some (done ++ (k, v * c) :: todo)%list.
Proof.
  intro N. unfold imul. rewrite (getitem_skip _ _ _ N). simpl.
  rewrite String.eqb_refl. simpl. rewrite (setitem_skip _ _ _ _ _ N).
  reflexivity.
Qed.

(** A loop over the keys whose body replaces the value [v] of the key it
    visits by [f i k v] leaves [update_all f]. *)
Lemma for_keys_update (f : nat -> string -> Q -> Q)
    (body : nat -> string -> scores -> option scores) :
  (forall i k v done todo,
      ~ In k (keys done) ->
      body i k (done ++ (k, v) :: todo)%list
      = Some (done ++ (k, f i k v) :: todo)%list) ->
  forall (todo done : scores) (i : nat),
    NoDup (keys (done ++ todo)) ->
    for_keys i (keys todo) body (done ++ todo)
    = Some (done ++ update_all f i todo)%list.
Proof.
  intros Body todo.
  induction todo as [| [k v] rest IH]; intros done i ND; simpl.
  - reflexivity.
  - assert (N : ~ In k (keys done)).
    { unfold keys in ND. rewrite map_app in ND. simpl in ND.
      apply NoDup_remove_2 in ND. intro I. apply ND.
      apply in_or_app. left. exact I. }
    rewrite (Body i k v done rest N). simpl.
    specialize (IH (done ++ [(k, f i k v)])%list (S i)).
    rewrite <- !app_assoc in IH. simpl in IH. apply IH.
    unfold keys in *. rewrite !map_app in *. simpl in *. exact ND.
Qed.

Lemma for_each_update (f : nat -> string -> Q -> Q)
    (body : nat -> string -> scores -> option scores) (d : scores) :
  (forall i k v done todo,
      ~ In k (keys done) ->
      body i k (done ++ (k, v) :: todo)%list
      = Some (done ++ (k, f i k v) :: todo)%list) ->
  NoDup (keys d) ->
  for_each body d = Some (update_all f O d).
Proof.
  intros Body ND. unfold for_each.
  exact (for_keys_update f body Body d [] O ND).
Qed.

Lemma update_all_keys (f : nat -> string -> Q -> Q) (d : scores) (i : nat) :
  keys (update_all f i d) = keys d.
Proof.
  revert i. induction d as [| [k v] rest IH]; intro i; simpl;
    [reflexivity | f_equal; apply IH].
Qed.

Lemma update_all_in (f : nat -> string -> Q -> Q) (d : scores) (i : nat)
    (k : string) (w : Q) :
  In (k, w) (update_all f i d) ->
  exists j v, In (k, v) d /\ w = f j k v.
Proof.
  revert i. induction d as [| [k' v'] rest IH]; intro i; simpl;
    [contradiction |].
  intros [E | I].
  - inversion E. subst. exists i, v'. auto.
  - destruct (IH _ I) as (j & v & I' & E). exists j, v. auto.
Qed.

End DictFacts.

(* ================================================================== *)
(** * The anti-repetition step *)

Section Repetition.

Import VoiceDetector.

Lemma split_at_key (k : string) (d : scores) :
  In k (keys d) ->
  exists pre v post, d = (pre ++ (k, v) :: post)%list /\ ~ In k (keys pre).
Proof.
  induction d as [| [k' v'] rest IH]; simpl; [contradiction |].
  intro I. destruct (string_dec k k') as [-> | N].
  - exists [], v', rest. simpl. auto.
  - destruct I as [E | I]; [congruence |].
    destruct (IH I) as (pre & v & post & -> & NI).
    exists ((k', v') :: pre), v, post. simpl. split; [reflexivity |].
    intros [E | I']; [congruence | contradiction].
Qed.

Lemma update_all_map (g : string -> Q -> Q) (d : scores) (i : nat) :
  update_all (fun _ k v => g k v) i d
  = map (fun kv => (fst kv, g (fst kv) (snd kv))) d.
Proof.
  revert i. induction d as [| [k v] rest IH]; intro i; simpl;
    [reflexivity | f_equal; apply IH].
Qed.

(** [rescale] on a dict that holds the key. *)
Lemma rescale_scaled (last_emotion : string) (d : scores) :
  NoDup (keys d) -> In last_emotion (keys d) ->
  rescale last_emotion d = Some (scaled last_emotion d).
Proof.
  intros ND I.
  destruct (split_at_key _ _ I) as (pre & v0 & post & -> & NI).
  unfold rescale. rewrite (imul_at _ _ _ _ _ NI). simpl.
  set (g := fun (k : string) (v : Q) =>
              if negb (String.eqb k last_emotion) then v * 1.1 else v).
  rewrite (for_each_update (fun _ k v => g k v)).
  - f_equal. rewrite update_all_map. unfold scaled.
    assert (K : forall part : scores,
               ~ In last_emotion (keys part) ->
               map (fun kv => (fst kv, g (fst kv) (snd kv))) part
               = map (fun kv => (fst kv,
                                 if String.eqb (fst kv) last_emotion
                                 then snd kv * 0.7 else snd kv * 1.1)) part).
    { intros part NP. apply map_ext_in. intros [k v] Ik. simpl. unfold g.
      destruct (String.eqb_spec k last_emotion) as [-> | D]; [| reflexivity].
      exfalso. apply NP. change (In (fst (last_emotion, v)) (map fst part)).
      apply in_map. exact Ik. }
    assert (NP : ~ In last_emotion (keys post)).
    { unfold keys in ND. rewrite map_app in ND. simpl in ND.
      apply NoDup_remove_2 in ND. intro J. apply ND.
      apply in_or_app. right. exact J. }
    rewrite !map_app. simpl. rewrite (K pre NI), (K post NP).
    unfold g. rewrite String.eqb_refl. reflexivity.
  - intros i k v done todo N. unfold g.
    destruct (negb (String.eqb k last_emotion)).
    + apply imul_at. exact N.
    + reflexivity.
  - unfold keys in *. rewrite map_app in *. simpl in *. exact ND.
Qed.

(** C3, as the code has it.  The anti-repetition step rescales exactly
    when the history holds more than 2 labels and its most recent label
    occurs at least twice anywhere in it: then the score of that label is
    multiplied by 0.7 and every other score by 1.1; in every other case
    the scores are left as they are. *)
Theorem repetition_rescales (history : list string) (d : scores) :
  let last_emotion := last history ""%string in
  let repeated :=
    (2 < List.length history)%nat
    /\ (2 <= count_occ string_dec history last_emotion)%nat in
  (repeated -> NoDup (keys d) -> In last_emotion (keys d) ->
   prevent_repetition history d = Some (scaled last_emotion d))
  /\ (~ repeated -> prevent_repetition history d = Some d).
Proof.
  intros last_emotion repeated. unfold prevent_repetition, Py.len, count.
  fold last_emotion. split.
  - intros [L C] ND I.
    assert (G1 : (Z.of_nat (List.length history) >? 2)%Z = true)
      by (apply Z.gtb_lt; lia).
    assert (G2 : (Z.of_nat (count_occ string_dec history last_emotion) >=? 2)%Z
                 = true) by (apply Z.geb_le; lia).
    rewrite G1, G2. apply rescale_scaled; assumption.
  - intro NR.
    destruct (Z.of_nat (List.length history) >? 2)%Z eqn:G1; [| reflexivity].
    destruct (Z.of_nat (count_occ string_dec history last_emotion) >=? 2)%Z
      eqn:G2; [| reflexivity].
    exfalso. apply NR. apply Z.gtb_lt in G1. apply Z.geb_le in G2.
    split; lia.
Qed.

Lemma repetition_rescales_witness :
  prevent_repetition ["sad"; "happy"; "sad"]%string base_probabilities
  = Some (scaled "sad" base_probabilities).
Proof.
  apply (repetition_rescales ["sad"; "happy"; "sad"]%string base_probabilities).
  - simpl. split; lia.
  - unfold base_probabilities, keys. simpl.
    repeat (constructor; [simpl; intuition discriminate |]). constructor.
  - simpl. tauto.
Defined.

(** The history happy, sad, happy: its last label does not repeat in the
    trailing positions, and the step rescales all the same; the history
    sad, sad repeats in the trailing positions and is not rescaled. *)
Lemma trailing_repeat_counterexample :
  spec_trailing_repeat ["happy"; "sad"; "happy"]%string = false
  /\ (exists e,
        prevent_repetition ["happy"; "sad"; "happy"]%string base_probabilities
        = Some e
        /\ getitem "happy" e = Some (0.14 * 0.7)
        /\ getitem "sad" e = Some (0.13 * 1.1)
        /\ e <> base_probabilities)
  /\ spec_trailing_repeat ["sad"; "sad"]%string = true
  /\ prevent_repetition ["sad"; "sad"]%string base_probabilities
     = Some base_probabilities.
Proof.
  split; [reflexivity | split; [| split; reflexivity]].
  eexists. split; [reflexivity |].
  split; [reflexivity | split; [reflexivity | discriminate]].
Qed.

End Repetition.

(* ================================================================== *)
(** * The rule bands and the variety step keep the seven keys *)

(** Unfolds a chain of [x <- e ;; k] that returned normally. *)
Ltac chain :=
  repeat match goal with
         | H : Py.bind _ _ = Some _ |- _ =>
             apply bind_some in H; destruct H as (? & ? & H)
         end.

Section KeysKept.

Import VoiceDetector.

Ltac keys_kept :=
  chain;
  repeat match goal with
         | H : iadd _ _ _ = Some _ |- _ => apply iadd_keys in H
         | H : imul _ _ _ = Some _ |- _ => apply imul_keys in H
         | H : Some _ = Some _ |- _ => inversion H; clear H; subst
         end;
  congruence.

Lemma volume_rule_keys (x : Q) (d d' : scores) :
  volume_rule x d = Some d' -> keys d' = keys d.
Proof.
  unfold volume_rule. intro H.
  destruct (Py.Qgtb x 0.3); [| destruct (Py.Qgtb x 0.15)]; keys_kept.
Qed.

Lemma energy_rule_keys (x : Q) (d d' : scores) :
  energy_rule x d = Some d' -> keys d' = keys d.
Proof.
  unfold energy_rule. intro H.
  destruct (Py.Qgtb x 0.02); [| destruct (Py.Qltb x 0.005)]; keys_kept.
Qed.

Lemma zero_crossings_rule_keys (x : Q) (d d' : scores) :
  zero_crossings_rule x d = Some d' -> keys d' = keys d.
Proof.
  unfold zero_crossings_rule. intro H.
  destruct (Py.Qgtb x 0.15); [| destruct (Py.Qltb x 0.05)]; keys_kept.
Qed.

Lemma spectral_rule_keys (x : Q) (d d' : scores) :
  spectral_rule x d = Some d' -> keys d' = keys d.
Proof.
  unfold spectral_rule. intro H.
  destruct (Py.Qgtb x 0.6); [| destruct (Py.Qltb x 0.3)]; keys_kept.
Qed.

Lemma pitch_rule_keys (x : Q) (d d' : scores) :
  pitch_rule x d = Some d' -> keys d' = keys d.
Proof.
  unfold pitch_rule. intro H.
  destruct (Py.Qgtb x 0.7); [| destruct (Py.Qltb x 0.3)]; keys_kept.
Qed.

Lemma calculate_keys (volume energy zc rolloff pitch now : Q) (d : scores) :
  calculate_realtime_emotions volume energy zc rolloff pitch now = Some d ->
  keys d = keys base_probabilities.
Proof.
  unfold calculate_realtime_emotions. intro H. chain.
  repeat match goal with
         | G : volume_rule _ _ = Some _ |- _ => apply volume_rule_keys in G
         | G : energy_rule _ _ = Some _ |- _ => apply energy_rule_keys in G
         | G : zero_crossings_rule _ _ = Some _ |- _ =>
             apply zero_crossings_rule_keys in G
         | G : spectral_rule _ _ = Some _ |- _ => apply spectral_rule_keys in G
         end.
  apply pitch_rule_keys in H. congruence.
Qed.

Lemma phase_rule_keys (now : Q) (d d' : scores) :
  phase_rule now d = Some d' -> keys d' = keys d.
Proof.
  unfold phase_rule. intro H.
  repeat match goal with
         | H : (if ?c then _ else _) = Some _ |- _ => destruct c
         end; keys_kept.
Qed.

Lemma for_keys_keys (body : nat -> string -> scores -> option scores) :
  (forall i k d d', body i k d = Some d' -> keys d' = keys d) ->
  forall ks i d d', for_keys i ks body d = Some d' -> keys d' = keys d.
Proof.
  intros Body ks. induction ks as [| k rest IH]; simpl; intros i d d' H.
  - inversion H. reflexivity.
  - apply bind_some in H. destruct H as (e & B & H).
    rewrite (IH _ _ _ H). exact (Body _ _ _ _ B).
Qed.

Lemma prevent_repetition_keys (history : list string) (d d' : scores) :
  prevent_repetition history d = Some d' -> keys d' = keys d.
Proof.
  unfold prevent_repetition. intro H.
  destruct (Py.len history >? 2)%Z; [| inversion H; reflexivity].
  destruct (count _ _ >=? 2)%Z; [| inversion H; reflexivity].
  unfold rescale in H. apply bind_some in H. destruct H as (e & M & H).
  apply imul_keys in M. rewrite <- M. unfold for_each in H.
  revert H. apply for_keys_keys. intros i k a a' B.
  destruct (negb _).
  - exact (imul_keys _ _ _ _ B).
  - inversion B. reflexivity.
Qed.

End KeysKept.

(* ================================================================== *)
(** * Jitter, normalization and the best key *)

Section BestScore.

Import VoiceDetector.

Lemma fold_plus_acc (l : list Q) (a : Q) :
  fold_left Qplus l a == a + fold_left Qplus l 0.
Proof.
  revert a. induction l as [| x rest IH]; intro a; simpl.
  - lra.
  - rewrite (IH (a + x)), (IH (0 + x)). lra.
Qed.

Lemma sum_cons (x : Q) (l : list Q) : sum (x :: l) == x + sum l.
Proof.
  unfold sum. simpl. rewrite fold_plus_acc. lra.
Qed.

Lemma sum_floor (l : list Q) (c : Q) :
  0 < c -> l <> [] -> (forall x, In x l -> c <= x) -> 0 < sum l.
Proof.
  intros C NE All.
  assert (G : forall m : list Q, (forall x, In x m -> c <= x) -> 0 <= sum m).
  { induction m as [| y rest IH]; intro A.
    - unfold sum. simpl. lra.
    - rewrite sum_cons.
      assert (c <= y) by (apply A; left; reflexivity).
      assert (0 <= sum rest) by (apply IH; intros z I; apply A; right; exact I).
      lra. }
  destruct l as [| y rest]; [congruence |].
  rewrite sum_cons.
  assert (c <= y) by (apply All; left; reflexivity).
  assert (0 <= sum rest) by (apply G; intros z I; apply All; right; exact I).
  lra.
Qed.

Lemma sum_divided (t : Q) (d : scores) (i : nat) :
  sum (values (update_all (fun _ _ v => v / t) i d)) == sum (values d) / t.
Proof.
  revert i. induction d as [| [k v] rest IH]; intro i; simpl.
  - unfold sum. simpl. unfold Qdiv. lra.
  - change (sum (v / t :: values (update_all (fun _ _ w => w / t) (S i) rest))
            == sum (v :: values rest) / t).
    rewrite !sum_cons, IH. unfold Qdiv. lra.
Qed.

(** The jitter loop leaves every score at least the floor 0.05. *)
Lemma add_randomness_floor (uniform : nat -> Q) (d : scores) :
  NoDup (keys d) ->
  add_randomness uniform d
  = Some (update_all (fun i _ v => Py.max 0.05 (v + uniform i)) O d).
Proof.
  intro ND. unfold add_randomness. apply for_each_update; [| exact ND].
  intros i k v done todo N.
  rewrite (iadd_at _ _ _ _ _ N). simpl.
  rewrite (getitem_skip _ _ _ N). simpl. rewrite String.eqb_refl. simpl.
  rewrite (setitem_skip _ _ _ _ _ N). reflexivity.
Qed.

(** Normalization divides every score by a total that is not zero. *)
Lemma normalize_divides (d : scores) :
  NoDup (keys d) -> ~ sum (values d) == 0 ->
  normalize d = Some (update_all (fun _ _ v => v / sum (values d)) O d).
Proof.
  intros ND NZ. unfold normalize. apply for_each_update; [| exact ND].
  intros i k v done todo N.
  rewrite (getitem_skip _ _ _ N). simpl. rewrite String.eqb_refl. simpl.
  destruct (Qeq_bool (sum (values d)) 0) eqn:E.
  - apply Qeq_bool_iff in E. contradiction.
  - rewrite (setitem_skip _ _ _ _ _ N). reflexivity.
Qed.

Lemma max_item_in (best : string * Q) (items : scores) :
  In (max_item best items) (best :: items).
Proof.
  revert best. induction items as [| [k v] rest IH]; intro best; simpl.
  - left. reflexivity.
  - destruct (Py.Qgtb v (snd best)).
    + destruct (IH (k, v)) as [E | I]; auto.
    + destruct (IH best) as [E | I]; auto.
Qed.

Lemma max_item_ge (best : string * Q) (items : scores) :
  snd best <= snd (max_item best items)
  /\ forall kv, In kv items -> snd kv <= snd (max_item best items).
Proof.
  revert best. induction items as [| [k v] rest IH]; intro best; simpl.
  - split; [lra | contradiction].
  - destruct (Py.Qgtb v (snd best)) eqn:G.
    + apply Qgtb_true in G. destruct (IH (k, v)) as [B A]. simpl in B.
      split; [lra |]. intros kv [E | I]; [subst kv; exact B | exact (A kv I)].
    + apply Qgtb_false in G. destruct (IH best) as [B A].
      split; [exact B |].
      intros kv [E | I]; [subst kv; simpl; lra | exact (A kv I)].
Qed.

(** [max(d, key=d.get)] returns a key of [d] whose value no other value
    exceeds. *)
Lemma max_key_spec (d : scores) (best : string) :
  NoDup (keys d) -> max_key d = Some best ->
  exists base,
    getitem best d = Some base
    /\ In (best, base) d
    /\ forall k v, In (k, v) d -> v <= base.
Proof.
  intros ND H. destruct d as [| kv rest]; simpl in H; [discriminate |].
  inversion H as [E]. clear H.
  pose proof (max_item_in kv rest) as I.
  destruct (max_item_ge kv rest) as [B A].
  destruct (max_item kv rest) as [k v] eqn:M. simpl in *.
  exists v. split; [| split].
  - apply (in_getitem k (kv :: rest) v ND). exact I.
  - exact I.
  - intros k' v' [J | J].
    + subst kv. exact B.
    + exact (A (k', v') J).
Qed.

End BestScore.

(* ================================================================== *)
(** * The voice classifier *)

Section VoiceClassifier.

Import VoiceDetector.

Variable np_sqrt : Q -> Q.
Variable simple_spectral_rolloff : list Q -> Q.
Variable estimate_pitch_variation : list Q -> Q.

(** [np.sqrt] returns a number that is not negative. *)
Hypothesis np_sqrt_nonneg : forall x, 0 <= np_sqrt x.

Let analyze :=
  _analyze_audio_realtime np_sqrt simple_spectral_rolloff
    estimate_pitch_variation.

Lemma base_keys_nodup : NoDup (keys base_probabilities).
Proof.
  unfold base_probabilities, keys. simpl.
  repeat (constructor; [simpl; intuition discriminate |]). constructor.
Qed.

Lemma base_keys_emotions (k : string) :
  In k (keys base_probabilities) -> In k Config.EMOTIONS.
Proof.
  unfold base_probabilities, keys, Config.EMOTIONS. simpl.
  intuition (subst; auto 10).
Qed.

Lemma div_pos (a t : Q) : 0 < a -> 0 < t -> 0 < a / t.
Proof.
  intros A T. apply Qlt_shift_div_l; [exact T | lra].
Qed.

(** What a result of the classifier looks like. *)
Lemma voice_result_shape (self self' : t) (audio : list Q) (now : Q)
    (uniform : nat -> Q) (r : Result) :
  analyze self audio now uniform = (Some r, self') ->
  exists x rest base,
    audio = x :: rest
    /\ 0.005 <= np_max_abs x rest
    /\ keys (all_predictions r) = keys base_probabilities
    /\ sum (values (all_predictions r)) == 1
    /\ getitem (res_emotion r) (all_predictions r) = Some base
    /\ (forall k v, In (k, v) (all_predictions r) -> 0 < v /\ v <= base)
    /\ res_confidence r
       = Py.min 0.92
           (base + Py.min 0.3 (np_max_abs x rest * 2
                               + np_sqrt (mean_square audio) * 1.5))
    /\ self' = set_emotion_sequence self
                 (let s := (emotion_sequence self ++ [res_emotion r])%list in
                  if (Py.len s >? 10)%Z then tl s else s).
Proof.
  unfold analyze, _analyze_audio_realtime. intro H.
  destruct (analyze_body _ _ _ self audio now uniform) as [out |] eqn:B;
    [| discriminate H].
  subst out. unfold analyze_body in B.
  destruct audio as [| x rest]; [discriminate B |].
  destruct (Py.Qltb (np_max_abs x rest) 0.005) eqn:V; [discriminate B |].
  apply Qltb_false in V.
  apply bind_some in B. destruct B as (e1 & C1 & B).
  apply bind_some in B. destruct B as (e2 & C2 & B).
  apply bind_some in B. destruct B as (best & C3 & B).
  apply bind_some in B. destruct B as (base & C4 & B).
  unfold add_realtime_variety in C2.
  apply bind_some in C2. destruct C2 as (a & P & C2).
  apply bind_some in C2. destruct C2 as (b & R & C2).
  apply bind_some in C2. destruct C2 as (c & J & C2).
  (* the keys never change *)
  assert (Kb : keys b = keys base_probabilities).
  { rewrite (prevent_repetition_keys _ _ _ R), (phase_rule_keys _ _ _ P).
    exact (calculate_keys _ _ _ _ _ _ _ C1). }
  assert (NDb : NoDup (keys b)) by (rewrite Kb; exact base_keys_nodup).
  rewrite (add_randomness_floor uniform b NDb) in J.
  inversion J as [Ec]. clear J.
  assert (Kc : keys c = keys base_probabilities)
    by (rewrite <- Ec, update_all_keys; exact Kb).
  assert (NDc : NoDup (keys c)) by (rewrite Kc; exact base_keys_nodup).
  (* every score is at least the floor, so the total is positive *)
  assert (Fc : forall k v, In (k, v) c -> 0.05 <= v).
  { intros k v I. rewrite <- Ec in I.
    destruct (update_all_in _ _ _ _ _ I) as (j & w & _ & ->).
    apply max_ge_l. }
  assert (Tc : 0 < sum (values c)).
  { apply (sum_floor (values c) 0.05).
    - reflexivity.
    - intro E. assert (L : List.length (keys c) = List.length (values c))
        by (unfold keys, values; rewrite !length_map; reflexivity).
      rewrite Kc, E in L. discriminate L.
    - intros v I. unfold values in I. apply in_map_iff in I.
      destruct I as ([k w] & <- & I). exact (Fc k w I). }
  rewrite (normalize_divides c NDc) in C2 by lra.
  inversion C2 as [E2]. clear C2.
  assert (K2 : keys e2 = keys base_probabilities)
    by (rewrite <- E2, update_all_keys; exact Kc).
  assert (ND2 : NoDup (keys e2)) by (rewrite K2; exact base_keys_nodup).
  assert (P2 : forall k v, In (k, v) e2 -> 0 < v).
  { intros k v I. rewrite <- E2 in I.
    destruct (update_all_in _ _ _ _ _ I) as (j & w & Iw & ->).
    apply div_pos; [| exact Tc]. specialize (Fc k w Iw). lra. }
  destruct (max_key_spec e2 best ND2 C3) as (base' & G & I & M).
  rewrite C4 in G. inversion G. subst base'. clear G.
  inversion B. subst r self'. simpl.
  exists x, rest, base.
  repeat (split; [first [reflexivity | assumption] |]).
  split.
  - rewrite <- E2, sum_divided. field. lra.
  - split; [exact C4 |]. split; [| split; reflexivity].
    intros k v Ikv. split; [exact (P2 k v Ikv) | exact (M k v Ikv)].
Qed.

(** The labels of the history are keys of the score dict, so the
    anti-repetition step never misses its key. *)
Lemma history_labels_known (self self' : t) (audio : list Q) (now : Q)
    (uniform : nat -> Q) (o : option Result) :
  Forall (fun l => In l (keys base_probabilities)) (emotion_sequence self) ->
  analyze self audio now uniform = (o, self') ->
  Forall (fun l => In l (keys base_probabilities)) (emotion_sequence self').
Proof.
  intros F H. destruct o as [r |].
  - destruct (voice_result_shape _ _ _ _ _ _ H)
      as (x & rest & base & _ & _ & K & _ & G & _ & _ & ->).
    simpl emotion_sequence.
    assert (A : Forall (fun l => In l (keys base_probabilities))
                  (emotion_sequence self ++ [res_emotion r])).
    { apply Forall_app. split; [exact F |].
      constructor; [| constructor].
      rewrite <- K. exact (getitem_in_keys _ _ _ G). }
    destruct (Py.len _ >? 10)%Z; [| exact A].
    destruct (emotion_sequence self ++ [res_emotion r])%list; simpl;
      [constructor | inversion A; assumption].
  - assert (E : self' = self).
    { unfold analyze, _analyze_audio_realtime in H.
      destruct (analyze_body _ _ _ self audio now uniform) as [[o s] |] eqn:B.
      - unfold analyze_body in B. destruct audio as [| x rest];
          [discriminate B |].
        destruct (Py.Qltb (np_max_abs x rest) 0.005).
        + inversion B. inversion H. congruence.
        + chain. inversion B. subst o. inversion H.
      - inversion H. reflexivity. }
    rewrite E. exact F.
Qed.

End VoiceClassifier.

Lemma sqrt_down_nonneg (x : Q) : 0 <= sqrt_down x.
Proof.
  unfold sqrt_down. apply Qle_shift_div_l; [reflexivity |].
  assert (H : inject_Z 0 <= inject_Z (Z.sqrt (Qfloor (x * 1000000))))
    by (rewrite <- Zle_Qle; apply Z.sqrt_nonneg).
  change (inject_Z 0) with 0 in H. lra.
Qed.

Section VoiceClaims.

Import VoiceDetector.

Variable np_sqrt : Q -> Q.
Variable simple_spectral_rolloff : list Q -> Q.
Variable estimate_pitch_variation : list Q -> Q.

Hypothesis np_sqrt_nonneg : forall x, 0 <= np_sqrt x.

Let analyze :=
  _analyze_audio_realtime np_sqrt simple_spectral_rolloff
    estimate_pitch_variation.

Let process :=
  process_audio np_sqrt simple_spectral_rolloff estimate_pitch_variation.

(** C6.  For every window whose peak absolute amplitude is below the
    silence threshold 0.005 the analysis returns [None] and leaves the
    detector as it was; through [process_audio] no estimate is stored and
    the label history is unchanged.  Silence yields no label at all, hence
    never the label neutral. *)
Theorem silence_returns_none (self : t) (x : Q) (rest : list Q) (now : Q)
    (uniform : nat -> Q) :
  np_max_abs x rest < 0.005 ->
  analyze self (x :: rest) now uniform = (None, self)
  /\ emotion_sequence (process self (Some (x :: rest)) now uniform)
     = emotion_sequence self
  /\ current_emotion (process self (Some (x :: rest)) now uniform)
     = current_emotion self.
Proof.
  intro V. apply Qltb_true in V.
  assert (A : forall s : t, analyze s (x :: rest) now uniform = (None, s)).
  { intro s. unfold analyze, _analyze_audio_realtime, analyze_body.
    rewrite V. reflexivity. }
  split; [apply A |].
  unfold process, process_audio.
  destruct (Py.len (x :: rest) <? 1000)%Z; [split; reflexivity |].
  fold analyze. rewrite A. split; reflexivity.
Qed.

(** [np_max_abs] is the peak absolute amplitude of the window. *)
Lemma np_max_abs_peak (x : Q) (rest : list Q) :
  (forall y, In y (x :: rest) -> Qabs y <= np_max_abs x rest)
  /\ exists y, In y (x :: rest) /\ np_max_abs x rest = Qabs y.
Proof.
  unfold np_max_abs. revert x.
  assert (G : forall (l : list Q) (m : Q),
             let r := fold_left
                        (fun m y => if Py.Qgtb (Qabs y) m then Qabs y else m)
                        l m in
             m <= r
             /\ (forall y, In y l -> Qabs y <= r)
             /\ (r = m \/ exists y, In y l /\ r = Qabs y)).
  { induction l as [| z l' IH]; intro m; simpl.
    - split; [lra | split; [contradiction | left; reflexivity]].
    - destruct (Py.Qgtb (Qabs z) m) eqn:E.
      + apply Qgtb_true in E.
        destruct (IH (Qabs z)) as (A & B & C). simpl in A, B, C.
        split; [lra |]. split.
        * intros y [<- | I]; [exact A | exact (B y I)].
        * right. destruct C as [C | (y & I & C)].
          -- exists z. split; [left; reflexivity | exact C].
          -- exists y. split; [right; exact I | exact C].
      + apply Qgtb_false in E.
        destruct (IH m) as (A & B & C). simpl in A, B, C.
        split; [exact A |]. split.
        * intros y [<- | I]; [lra | exact (B y I)].
        * destruct C as [C | (y & I & C)]; [left; exact C |].
          right. exists y. split; [right; exact I | exact C]. }
  intro x. destruct (G rest (Qabs x)) as (A & B & C). simpl in A, B, C.
  split.
  - intros y [<- | I]; [exact A | exact (B y I)].
  - destruct C as [C | (y & I & C)].
    + exists x. split; [left; reflexivity | exact C].
    + exists y. split; [right; exact I | exact C].
Qed.

(** The confidence of a result of the classifier. *)
Lemma voice_confidence_bounds (self self' : t) (audio : list Q) (now : Q)
    (uniform : nat -> Q) (r : Result) :
  analyze self audio now uniform = (Some r, self') ->
  In (res_emotion r) Config.EMOTIONS
  /\ 0 < res_confidence r /\ res_confidence r <= 0.92.
Proof.
  intro H.
  destruct (voice_result_shape _ _ _ _ _ _ _ _ _ H)
    as (x & rest & base & -> & V & K & S & G & M & C & _).
  split.
  - apply base_keys_emotions. rewrite <- K.
    exact (getitem_in_keys _ _ _ G).
  - rewrite C.
    assert (B : 0 < base) by (apply (M _ _ (getitem_in _ _ _ G))).
    pose proof (np_sqrt_nonneg (mean_square (x :: rest))) as R.
    set (boost := Py.min 0.3 (np_max_abs x rest * 2
                              + np_sqrt (mean_square (x :: rest)) * 1.5)).
    assert (Bo : 0 < boost).
    { subst boost.
      destruct (min_spec 0.3 (np_max_abs x rest * 2
                              + np_sqrt (mean_square (x :: rest)) * 1.5))
        as [[L ->] | [L ->]]; lra. }
    split; [| apply min_le_l].
    destruct (min_spec 0.92 (base + boost)) as [[L ->] | [L ->]]; lra.
Qed.

End VoiceClaims.

Lemma silence_returns_none_witness :
  VoiceDetector._analyze_audio_realtime sqrt_down (fun _ => 0.5) (fun _ => 0.5)
    VoiceDetector.init silent_window 0 (fun _ => 0)
  = (None, VoiceDetector.init).
Proof.
  assert (V : VoiceDetector.np_max_abs 0.004 (repeat 0 999) < 0.005)
    by (vm_compute; reflexivity).
  exact (proj1 (silence_returns_none sqrt_down (fun _ => 0.5) (fun _ => 0.5)
                  VoiceDetector.init 0.004 (repeat 0 999) 0 (fun _ => 0) V)).
Defined.

Section EstimateClaims.

Import VoiceDetector EmotionFusion.

Variable np_sqrt : Q -> Q.
Variable simple_spectral_rolloff : list Q -> Q.
Variable estimate_pitch_variation : list Q -> Q.

Hypothesis np_sqrt_nonneg : forall x, 0 <= np_sqrt x.

Let analyze :=
  _analyze_audio_realtime np_sqrt simple_spectral_rolloff
    estimate_pitch_variation.

Let process :=
  process_audio np_sqrt simple_spectral_rolloff estimate_pitch_variation.

(** The fused result of well-formed inputs is well formed. *)
Lemma fused_well_formed (face voice : option Estimate) (fr : Fused) :
  unit_confidence face -> known_label face ->
  unit_confidence voice -> known_label voice ->
  fuse_emotions face voice = Some fr ->
  0 <= fused_confidence fr /\ fused_confidence fr <= 1
  /\ In (fused_emotion fr) Config.EMOTIONS
  /\ In (source fr) provenance_tags.
Proof.
  intros Uf Lf Uv Lv F. unfold fuse_emotions in F.
  destruct face as [f |]; destruct voice as [v |];
    simpl in Uf, Lf, Uv, Lv.
  - unfold face_weight, voice_weight, Config.FACE_WEIGHT,
      Config.VOICE_WEIGHT in F.
    destruct (emotion f =? emotion v)%string.
    + inversion F; subst fr; simpl.
      split; [apply min_glb; lra |].
      split; [pose proof (min_le_l 1.0
                            (confidence f * 0.7 + confidence v * 0.3 + 0.2));
              lra |].
      split; [exact Lf | auto].
    + destruct (Py.Qgtb (confidence f * 0.7) (confidence v * 0.3));
        inversion F; subst fr; simpl;
        (split; [lra | split; [lra | split; [assumption | auto 6]]]).
  - inversion F; subst fr; simpl.
    split; [lra | split; [lra | split; [assumption | auto 6]]].
  - inversion F; subst fr; simpl.
    split; [lra | split; [lra | split; [assumption | auto 6]]].
  - discriminate F.
Qed.

(** C1.  Every result of the voice classifier has a label of the seven
    emotions and a confidence in the unit interval that never exceeds the
    ceiling 0.92: it is min(0.92, base + boost), where base is the largest
    of the normalized scores (they sum to 1), that of the label, and boost
    is min(0.3, volume * 2 + rms * 1.5).  The estimate a detector holds
    stays well formed through [process_audio].  Every fused result of
    well-formed inputs has a confidence in the unit interval, a label of
    the seven emotions and one of the five provenance tags. *)
Theorem estimates_well_formed :
  (forall (self self' : VoiceDetector.t) (audio : list Q) (now : Q)
          (uniform : nat -> Q) (r : Result),
      analyze self audio now uniform = (Some r, self') ->
      In (res_emotion r) Config.EMOTIONS
      /\ 0 <= res_confidence r /\ res_confidence r <= 1
      /\ res_confidence r <= 0.92
      /\ exists x rest base,
           audio = x :: rest
           /\ getitem (res_emotion r) (all_predictions r) = Some base
           /\ sum (values (all_predictions r)) == 1
           /\ (forall k v, In (k, v) (all_predictions r) -> v <= base)
           /\ res_confidence r
              = Py.min 0.92
                  (base + Py.min 0.3 (np_max_abs x rest * 2
                                      + np_sqrt (mean_square audio) * 1.5)))
  /\ (forall (self : VoiceDetector.t) (audio : option (list Q)) (now : Q)
             (uniform : nat -> Q),
         well_formed_voice (VoiceDetector.current_emotion self) ->
         well_formed_voice
           (VoiceDetector.current_emotion (process self audio now uniform)))
  /\ (forall (face voice : option Estimate) (fr : Fused),
         unit_confidence face -> known_label face ->
         unit_confidence voice -> known_label voice ->
         fuse_emotions face voice = Some fr ->
         0 <= fused_confidence fr /\ fused_confidence fr <= 1
         /\ In (fused_emotion fr) Config.EMOTIONS
         /\ In (source fr) provenance_tags).
Proof.
  split; [| split].
  - intros self self' audio now uniform r H.
    destruct (voice_confidence_bounds np_sqrt simple_spectral_rolloff
                estimate_pitch_variation np_sqrt_nonneg _ _ _ _ _ _ H)
      as (L & P & C).
    destruct (voice_result_shape np_sqrt simple_spectral_rolloff
                estimate_pitch_variation _ _ _ _ _ _ H)
      as (x & rest & base & E & _ & _ & S & G & M & F & _).
    split; [exact L |]. split; [lra |]. split; [lra |]. split; [exact C |].
    exists x, rest, base.
    split; [exact E |]. split; [exact G |]. split; [exact S |].
    split; [| exact F]. intros k v I. apply (M k v I).
  - intros self audio now uniform W. unfold process, process_audio.
    destruct audio as [a |]; [| exact W].
    destruct (Py.len a <? 1000)%Z; [exact W |].
    destruct (_analyze_audio_realtime np_sqrt simple_spectral_rolloff
                estimate_pitch_variation
                (set_processing_count self (processing_count self + 1))
                a now uniform) as [[r |] s] eqn:A.
    + simpl.
      destruct (voice_confidence_bounds np_sqrt simple_spectral_rolloff
                  estimate_pitch_variation np_sqrt_nonneg _ _ _ _ _ _ A)
        as (L & P & C).
      split; [exact L | split; [lra | exact C]].
    + assert (E : s = set_processing_count self (processing_count self + 1)).
      { unfold _analyze_audio_realtime in A.
        destruct (analyze_body _ _ _ _ a now uniform) as [[o s'] |] eqn:B.
        - unfold analyze_body in B. destruct a as [| x rest]; [discriminate B |].
          destruct (Py.Qltb (np_max_abs x rest) 0.005).
          + inversion B. inversion A. congruence.
          + chain. inversion B. subst o. inversion A.
        - inversion A. reflexivity. }
      rewrite E. exact W.
  - exact fused_well_formed.
Qed.

End EstimateClaims.

Lemma estimates_well_formed_witness :
  (exists r st,
      VoiceDetector._analyze_audio_realtime sqrt_down (fun _ => 0.5)
        (fun _ => 0.5) VoiceDetector.init loud_window 1 (fun _ => 0)
      = (Some r, st)
      /\ In (VoiceDetector.res_emotion r) Config.EMOTIONS
      /\ VoiceDetector.res_confidence r <= 0.92)
  /\ fused_confidence (mkFused "fear" (0.5 * 0.8) "voice_only") <= 1.
Proof.
  pose proof (estimates_well_formed sqrt_down (fun _ => 0.5) (fun _ => 0.5)
                sqrt_down_nonneg) as (Voice & _ & Fuse).
  split.
  - assert (H : exists r st,
               VoiceDetector._analyze_audio_realtime sqrt_down (fun _ => 0.5)
                 (fun _ => 0.5) VoiceDetector.init loud_window 1 (fun _ => 0)
               = (Some r, st)) by (vm_compute; eauto).
    destruct H as (r & st & H). exists r, st.
    destruct (Voice _ _ _ _ _ _ H) as (L & _ & _ & C & _).
    split; [exact H | split; [exact L | exact C]].
  - assert (U : unit_confidence (Some (mkEstimate "fear" 0.5)))
      by (simpl; split; unfold Qle; simpl; lia).
    assert (K : known_label (Some (mkEstimate "fear" 0.5)))
      by (simpl; tauto).
    apply (Fuse None (Some (mkEstimate "fear" 0.5))
             (mkFused "fear" (0.5 * 0.8) "voice_only") I I U K eq_refl).
Defined.

(* ================================================================== *)
(** * The capture loop *)

Section Windows.

Import AudioCapture.

Variable Detector : Type.
Variable process_audio : Detector -> list Q -> Detector.

Lemma slice_last {A : Type} (n : Z) (l : list A) :
  (0 < n <= Py.len l)%Z ->
  Py.slice_from (- n) l = skipn (List.length l - Z.to_nat n) l
  /\ Py.len (Py.slice_from (- n) l) = n.
Proof.
  unfold Py.slice_from, Py.len. intros [P L].
  assert (N : (- n <? 0)%Z = true) by (apply Z.ltb_lt; lia).
  rewrite N.
  assert (E : Z.to_nat (Z.max 0 (- n + Z.of_nat (List.length l)))
              = (List.length l - Z.to_nat n)%nat) by lia.
  rewrite E. split; [reflexivity |].
  rewrite length_skipn. lia.
Qed.

(** An iteration of the loop on an empty queue changes nothing. *)
Lemma consume_empty (self : t Detector) (audio_buffer : list Q) :
  audio_queue Detector self = [] ->
  consume Detector process_audio self audio_buffer = (self, audio_buffer).
Proof.
  intro E. unfold consume. rewrite E. destruct (recording Detector self);
    reflexivity.
Qed.

Lemma iterate_empty (n : nat) (self : t Detector) (audio_buffer : list Q) :
  audio_queue Detector self = [] ->
  run Detector process_audio (repeat (Iterate) n) (self, audio_buffer)
  = (self, audio_buffer).
Proof.
  intro E. induction n as [| m IH]; simpl; [reflexivity |].
  rewrite (consume_empty self audio_buffer E). exact IH.
Qed.

(** C7, as the code has it.  When a block brings the accumulator to at
    least [target_samples], the window handed to the detector is the last
    [target_samples] samples, and the accumulator that remains is the last
    [sample_rate] samples of that window: [sample_rate] samples are
    carried over and the [target_samples - sample_rate] samples before
    them are dropped.  A block that leaves the accumulator below
    [target_samples] is only appended, so the next window needs at least
    [target_samples - sample_rate] new samples.  Iterations on an empty
    queue emit nothing. *)
Theorem window_and_carry_over (self : t Detector) (audio_buffer chunk : list Q)
    (rest : list (list Q)) :
  recording Detector self = true ->
  audio_queue Detector self = chunk :: rest ->
  (0 < sample_rate Detector self)%Z ->
  (1 <= buffer_duration Detector self)%Z ->
  let all := (audio_buffer ++ chunk)%list in
  let self' := fst (consume Detector process_audio self audio_buffer) in
  let buffer' := snd (consume Detector process_audio self audio_buffer) in
  let target := target_samples Detector self in
  ((target <= Py.len all)%Z ->
   exists dropped front window,
     all = (dropped ++ window)%list
     /\ Py.len window = target
     /\ voice_detector Detector self'
        = option_map (fun d => process_audio d window)
            (voice_detector Detector self)
     /\ window = (front ++ buffer')%list
     /\ Py.len buffer' = sample_rate Detector self
     /\ Py.len front = (target - sample_rate Detector self)%Z
     /\ audio_queue Detector self' = rest)
  /\ ((Py.len all < target)%Z ->
      self' = set_audio_queue Detector self rest /\ buffer' = all)
  /\ (forall n : nat,
        audio_queue Detector self' = [] ->
        run Detector process_audio (repeat (Iterate) n) (self', buffer')
        = (self', buffer')).
Proof.
  intros Rec Queue SR BD all self' buffer' target.
  assert (TS : (sample_rate Detector self <= target)%Z)
    by (subst target; unfold target_samples; nia).
  split; [| split].
  - intro Full.
    assert (C : consume Detector process_audio self audio_buffer
                = (match voice_detector Detector self with
                   | Some d =>
                       mk Detector (sample_rate Detector self)
                         (chunk_size Detector self)
                         (buffer_duration Detector self) rest true
                         (Some (process_audio d (Py.slice_from (- target) all)))
                   | None => set_audio_queue Detector self rest
                   end,
                   Py.slice_from (- sample_rate Detector self) all)).
    { unfold consume. rewrite Rec, Queue. fold all.
      change (target_samples Detector (set_audio_queue Detector self rest))
        with target.
      assert (G : (Py.len all >=? target)%Z = true) by (apply Z.geb_le; lia).
      rewrite G. simpl.
      destruct (voice_detector Detector self); simpl; rewrite ?Rec;
        reflexivity. }
    destruct (slice_last target all) as [W WL]; [lia |].
    destruct (slice_last (sample_rate Detector self) all) as [B BL]; [lia |].
    exists (firstn (List.length all - Z.to_nat target) all),
      (firstn (Z.to_nat (target - sample_rate Detector self))
         (Py.slice_from (- target) all)),
      (Py.slice_from (- target) all).
    subst self' buffer'. rewrite C. simpl fst. simpl snd.
    split; [rewrite W; symmetry; apply firstn_skipn |].
    split; [exact WL |].
    split; [destruct (voice_detector Detector self) eqn:V; simpl;
            rewrite ?V; reflexivity |].
    split.
    { rewrite B, W.
      replace (List.length all - Z.to_nat (sample_rate Detector self))%nat
        with (Z.to_nat (target - sample_rate Detector self)
              + (List.length all - Z.to_nat target))%nat
        by (unfold Py.len in Full; lia).
      rewrite <- skipn_skipn. symmetry. apply firstn_skipn. }
    split; [exact BL |].
    split.
    { unfold Py.len in *. rewrite length_firstn. lia. }
    destruct (voice_detector Detector self); reflexivity.
  - intro Short. subst self' buffer'. unfold consume.
    rewrite Rec, Queue. fold all.
    change (target_samples Detector (set_audio_queue Detector self rest))
      with target.
    assert (G : (Py.len all >=? target)%Z = false).
    { destruct (Py.len all >=? target)%Z eqn:E; [| reflexivity].
      apply Z.geb_le in E. lia. }
    rewrite G. split; reflexivity.
  - intros n E. apply iterate_empty. exact E.
Qed.

End Windows.

Lemma window_and_carry_over_witness :
  let chunk := AudioCapture.ramp 47104 1024 in
  let audio_buffer := AudioCapture.ramp 0 (Z.to_nat 47104) in
  let self := AudioCapture._audio_callback AudioCapture.Dummy capturing chunk in
  let out :=
    AudioCapture.consume AudioCapture.Dummy AudioCapture.dummy_process_audio
      self audio_buffer in
  exists dropped front window,
    (audio_buffer ++ chunk)%list = (dropped ++ window)%list
    /\ Py.len window = 48000%Z
    /\ AudioCapture.voice_detector AudioCapture.Dummy (fst out)
       = Some [window]
    /\ window = (front ++ snd out)%list
    /\ Py.len (snd out) = 16000%Z
    /\ Py.len front = 32000%Z
    /\ AudioCapture.audio_queue AudioCapture.Dummy (fst out) = [].
Proof.
  intros chunk audio_buffer self out.
  assert (BD : (1 <= AudioCapture.buffer_duration AudioCapture.Dummy self)%Z)
    by (vm_compute; discriminate).
  assert (Full : (AudioCapture.target_samples AudioCapture.Dummy self
                  <= Py.len (audio_buffer ++ chunk))%Z)
    by (vm_compute; discriminate).
  exact (proj1 (window_and_carry_over AudioCapture.Dummy
                  AudioCapture.dummy_process_audio self audio_buffer chunk []
                  eq_refl eq_refl eq_refl BD) Full).
Defined.

Lemma sample_eqb_eq (a b : Q) : sample_eqb a b = true -> a = b.
Proof.
  destruct a as [n d], b as [n' d']. unfold sample_eqb. simpl.
  intro H. apply andb_true_iff in H. destruct H as [N D].
  apply Z.eqb_eq in N. apply Pos.eqb_eq in D. congruence.
Qed.

Lemma list_eqb_eq {A : Type} (eqb : A -> A -> bool) :
  (forall x y, eqb x y = true -> x = y) ->
  forall l m, list_eqb eqb l m = true -> l = m.
Proof.
  intros E l. induction l as [| x l' IH]; intros [| y m'] H; simpl in H;
    try discriminate; [reflexivity |].
  apply andb_true_iff in H. destruct H as [X L].
  rewrite (E _ _ X), (IH _ L). reflexivity.
Qed.

Lemma received_eq (d : option AudioCapture.Dummy) (windows : list (list Q)) :
  received d windows = true -> d = Some windows.
Proof.
  destruct d as [ws |]; simpl; [| discriminate].
  intro H. f_equal. revert H. apply list_eqb_eq.
  apply list_eqb_eq. exact sample_eqb_eq.
Qed.

(** The device delivers 79 blocks of 1024 samples, numbered from 0, each
    consumed at once.  Two windows are emitted: samples 128 to 48127 and
    samples 32896 to 80895.  From one window to the next the stream moves
    on by 32768 samples, not by the 32000 of the specification, and the
    two windows share 15232 samples, not 16000. *)
Lemma advance_counterexample :
  let out :=
    AudioCapture.run AudioCapture.Dummy AudioCapture.dummy_process_audio
      (AudioCapture.blocks 0 1024 79) (capturing, []) in
  AudioCapture.voice_detector AudioCapture.Dummy (fst out)
  = Some [AudioCapture.ramp 128 (Z.to_nat 48000);
          AudioCapture.ramp 32896 (Z.to_nat 48000)]
  /\ spec_advance (fst out) = 32000%Z
  /\ (32896 - 128)%Z <> spec_advance (fst out)
  /\ (128 + 48000 - 32896)%Z
     <> AudioCapture.sample_rate AudioCapture.Dummy (fst out).
Proof.
  intro out.
  assert (S : spec_advance (fst out) = 32000%Z) by (vm_compute; reflexivity).
  assert (R : AudioCapture.sample_rate AudioCapture.Dummy (fst out) = 16000%Z)
    by (vm_compute; reflexivity).
  split; [| rewrite S, R; split; [reflexivity | split; discriminate]].
  apply received_eq. vm_compute. reflexivity.
Qed.

(* ================================================================== *)
(** * More on fusion *)

Section FusionMore.

Import EmotionFusion.

(** The provenance tag tells which inputs were present and whose label
    the fused result carries; a result is missing only when both inputs
    are. *)
Theorem provenance_is_sound (face voice : option Estimate) :
  (fuse_emotions face voice = None <-> face = None /\ voice = None)
  /\ forall r,
       fuse_emotions face voice = Some r ->
       (source r = "face_only"%string /\ voice = None
        /\ exists f, face = Some f /\ fused_emotion r = emotion f)
       \/ (source r = "voice_only"%string /\ face = None
           /\ exists v, voice = Some v /\ fused_emotion r = emotion v)
       \/ (exists f v,
             face = Some f /\ voice = Some v
             /\ ((source r = "agreement"%string
                  /\ emotion f = emotion v /\ fused_emotion r = emotion f)
                 \/ (source r = "face_dominant"%string
                     /\ emotion f <> emotion v /\ fused_emotion r = emotion f)
                 \/ (source r = "voice_dominant"%string
                     /\ emotion f <> emotion v
                     /\ fused_emotion r = emotion v))).
Proof.
  split.
  - unfold fuse_emotions.
    destruct face as [f |]; destruct voice as [v |]; split;
      try (intros [A B]; discriminate); try tauto; try discriminate.
    destruct (emotion f =? emotion v)%string;
      [| destruct (Py.Qgtb _ _)]; discriminate.
  - intros r H. unfold fuse_emotions in H.
    destruct face as [f |]; destruct voice as [v |].
    + right. right. exists f, v. split; [reflexivity |].
      split; [reflexivity |].
      destruct (String.eqb_spec (emotion f) (emotion v)) as [E | N].
      * inversion H. subst r. simpl. left. auto.
      * destruct (Py.Qgtb _ _); inversion H; subst r; simpl.
        -- right. left. auto.
        -- right. right. auto.
    + inversion H. subst r. simpl. left.
      split; [reflexivity | split; [reflexivity |]]. exists f. auto.
    + inversion H. subst r. simpl. right. left.
      split; [reflexivity | split; [reflexivity |]]. exists v. auto.
    + discriminate H.
Qed.

Lemma min_monotone (a x y : Q) : x <= y -> Py.min a x <= Py.min a y.
Proof.
  intro L.
  destruct (min_spec a x) as [[H ->] | [H ->]];
    destruct (min_spec a y) as [[H' ->] | [H' ->]]; lra.
Qed.

(** The confidence of the fused result does not decrease when the
    confidence of an input increases, the labels staying the same (the
    fused label may pass from one input to the other). *)
Theorem fused_confidence_monotone (f f' v v' : Estimate)
    (voice : option Estimate) (face : option Estimate) (r r' : Fused) :
  emotion f = emotion f' -> confidence f <= confidence f' ->
  emotion v = emotion v' -> confidence v <= confidence v' ->
  (fuse_emotions (Some f) voice = Some r ->
   fuse_emotions (Some f') voice = Some r' ->
   fused_confidence r <= fused_confidence r')
  /\ (fuse_emotions face (Some v) = Some r ->
      fuse_emotions face (Some v') = Some r' ->
      fused_confidence r <= fused_confidence r').
Proof.
  intros Ef Cf Ev Cv.
  unfold fuse_emotions, face_weight, voice_weight, Config.FACE_WEIGHT,
    Config.VOICE_WEIGHT.
  split.
  - destruct voice as [w |].
    + rewrite <- Ef. destruct (emotion f =? emotion w)%string.
      * intros H H'. inversion H. inversion H'. simpl.
        apply min_monotone. lra.
      * destruct (Py.Qgtb (confidence f * 0.7) (confidence w * 0.3)) eqn:G;
          destruct (Py.Qgtb (confidence f' * 0.7) (confidence w * 0.3)) eqn:G';
          intros H H'; inversion H; inversion H'; simpl;
          try apply Qgtb_true in G; try apply Qgtb_false in G;
          try apply Qgtb_true in G'; try apply Qgtb_false in G'; lra.
    + intros H H'. inversion H. inversion H'. simpl. lra.
  - destruct face as [w |].
    + rewrite <- Ev. destruct (emotion w =? emotion v)%string.
      * intros H H'. inversion H. inversion H'. simpl.
        apply min_monotone. lra.
      * destruct (Py.Qgtb (confidence w * 0.7) (confidence v * 0.3)) eqn:G;
          destruct (Py.Qgtb (confidence w * 0.7) (confidence v' * 0.3)) eqn:G';
          intros H H'; inversion H; inversion H'; simpl;
          try apply Qgtb_true in G; try apply Qgtb_false in G;
          try apply Qgtb_true in G'; try apply Qgtb_false in G'; lra.
    + intros H H'. inversion H. inversion H'. simpl. lra.
Qed.

Lemma fused_confidence_monotone_witness :
  fused_confidence (mkFused "sad" (0.4 * 0.8) "face_only")
  <= fused_confidence (mkFused "sad" (0.6 * 0.8) "face_only").
Proof.
  assert (L : 0.4 <= 0.6) by (unfold Qle; simpl; lia).
  exact (proj1 (fused_confidence_monotone
                  (mkEstimate "sad" 0.4) (mkEstimate "sad" 0.6)
                  (mkEstimate "sad" 0.4) (mkEstimate "sad" 0.6)
                  None None
                  (mkFused "sad" (0.4 * 0.8) "face_only")
                  (mkFused "sad" (0.6 * 0.8) "face_only")
                  eq_refl L eq_refl L)
               eq_refl eq_refl).
Defined.

(** Against a voice estimate of the classifier, whose confidence is at
    most 0.92, a face estimate of confidence at least 0.4 decides every
    disagreement: the fused label is the face label. *)
Theorem confident_face_decides (f v : Estimate) :
  emotion f <> emotion v ->
  confidence v <= 0.92 ->
  0.4 <= confidence f ->
  fuse_emotions (Some f) (Some v)
  = Some (mkFused (emotion f) (confidence f * 0.7) "face_dominant").
Proof.
  intros N V F. rewrite (fuse_disagree f v N).
  assert (G : Py.Qgtb (confidence f * 0.7) (confidence v * 0.3) = true)
    by (apply Qgtb_true; lra).
  rewrite G. reflexivity.
Qed.

Lemma confident_face_decides_witness :
  fuse_emotions (Some (mkEstimate "happy" 0.4)) (Some (mkEstimate "angry" 0.92))
  = Some (mkFused "happy" (0.4 * 0.7) "face_dominant").
Proof.
  apply (confident_face_decides (mkEstimate "happy" 0.4)
           (mkEstimate "angry" 0.92)).
  - simpl. discriminate.
  - simpl. unfold Qle. simpl. lia.
  - simpl. unfold Qle. simpl. lia.
Defined.

End FusionMore.

(* ================================================================== *)
(** * More on the voice classifier *)

Section ScoresMore.

Import VoiceDetector.

Lemma iadd_total (k : string) (c : Q) (d : scores) :
  In k (keys base_probabilities) ->
  keys d = keys base_probabilities ->
  exists d', iadd k c d = Some d' /\ keys d' = keys base_probabilities.
Proof.
  intros I K. rewrite <- K in I.
  destruct (split_at_key k d I) as (pre & v & post & -> & N).
  rewrite (iadd_at k c v pre post N). eexists. split; [reflexivity |].
  rewrite <- K. unfold keys. rewrite !map_app. reflexivity.
Qed.

(** Runs the next [iadd] of the goal, on a dict that has the seven keys. *)
Ltac run_iadd :=
  match goal with
  | K : keys ?d = keys base_probabilities |- context [iadd ?k ?c ?d] =>
      let d' := fresh "d" in
      let E := fresh "E" in
      let K' := fresh "K" in
      destruct (iadd_total k c d ltac:(simpl; tauto) K) as (d' & E & K');
      rewrite E; simpl Py.bind
  end.

(** The rule bands never raise, and a bonus only adds to a score: the
    result has the seven keys in their order, each score at least its base
    probability. *)
Theorem rule_bands_only_add
    (volume energy zero_crossings spectral_rolloff pitch_variation now : Q) :
  exists d,
    calculate_realtime_emotions volume energy zero_crossings spectral_rolloff
      pitch_variation now = Some d
    /\ Forall2 (fun prior score =>
                  fst score = fst prior /\ snd prior <= snd score)
         base_probabilities d.
Proof.
  unfold calculate_realtime_emotions, volume_rule, energy_rule,
    zero_crossings_rule, spectral_rule, pitch_rule.
  destruct (Py.Qgtb volume 0.3); [| destruct (Py.Qgtb volume 0.15)];
    (destruct (Py.Qgtb energy 0.02); [| destruct (Py.Qltb energy 0.005)]);
    (destruct (Py.Qgtb zero_crossings 0.15);
     [| destruct (Py.Qltb zero_crossings 0.05)]);
    (destruct (Py.Qgtb spectral_rolloff 0.6);
     [| destruct (Py.Qltb spectral_rolloff 0.3)]);
    (destruct (Py.Qgtb pitch_variation 0.7);
     [| destruct (Py.Qltb pitch_variation 0.3)]);
    (eexists; split; [reflexivity |]);
    repeat (constructor;
            [split; [reflexivity | vm_compute; discriminate] |]);
    constructor.
Qed.

Lemma phase_rule_total (now : Q) (d : scores) :
  keys d = keys base_probabilities ->
  exists d', phase_rule now d = Some d'.
Proof.
  intro K. unfold phase_rule.
  repeat match goal with
         | |- context [if ?c then _ else _] => destruct c
         end;
    repeat run_iadd; eexists; reflexivity.
Qed.

Lemma last_in_list (l : list string) (d : string) :
  l <> [] -> In (last l d) l.
Proof.
  induction l as [| x rest IH]; [congruence |].
  intros _. destruct rest as [| y rest'].
  - left. reflexivity.
  - right. apply IH. discriminate.
Qed.

Lemma prevent_repetition_total (history : list string) (d : scores) :
  keys d = keys base_probabilities ->
  known_history history ->
  exists d', prevent_repetition history d = Some d'.
Proof.
  intros K F. unfold prevent_repetition.
  destruct (Py.len history >? 2)%Z eqn:L; [| eexists; reflexivity].
  destruct (count _ _ >=? 2)%Z; [| eexists; reflexivity].
  rewrite rescale_scaled.
  - eexists; reflexivity.
  - rewrite K. exact base_keys_nodup.
  - rewrite K.
    assert (NE : history <> []).
    { intro E. subst history. discriminate L. }
    unfold known_history in F. rewrite Forall_forall in F.
    apply F. apply last_in_list. exact NE.
Qed.

(** After the jitter loop the total of the seven scores is positive. *)
Lemma floor_total_positive (uniform : nat -> Q) (d : scores) :
  keys d = keys base_probabilities ->
  0 < sum (values (update_all (fun i _ v => Py.max 0.05 (v + uniform i)) O d)).
Proof.
  intro K. apply (sum_floor _ 0.05).
  - reflexivity.
  - intro E.
    assert (L : List.length (keys d)
                = List.length (values (update_all
                     (fun i _ v => Py.max 0.05 (v + uniform i)) O d))).
    { unfold values. rewrite length_map.
      rewrite <- (update_all_keys
                    (fun i _ v => Py.max 0.05 (v + uniform i)) d O).
      unfold keys. rewrite length_map. reflexivity. }
    rewrite K, E in L. discriminate L.
  - intros v I. unfold values in I. apply in_map_iff in I.
    destruct I as ([k w] & <- & I).
    destruct (update_all_in _ _ _ _ _ I) as (j & w' & _ & ->).
    apply max_ge_l.
Qed.

End ScoresMore.

Section ClassifierMore.

Import VoiceDetector.

Variable np_sqrt : Q -> Q.
Variable simple_spectral_rolloff : list Q -> Q.
Variable estimate_pitch_variation : list Q -> Q.

Hypothesis np_sqrt_nonneg : forall x, 0 <= np_sqrt x.

Let analyze :=
  _analyze_audio_realtime np_sqrt simple_spectral_rolloff
    estimate_pitch_variation.

Let process :=
  process_audio np_sqrt simple_spectral_rolloff estimate_pitch_variation.

(** Every window that is not silent gets an estimate: with a history of
    known labels no step of the analysis raises, and the label of the
    estimate is appended to the history. *)
Theorem loud_window_is_classified (self : t) (x : Q) (rest : list Q)
    (now : Q) (uniform : nat -> Q) :
  0.005 <= np_max_abs x rest ->
  known_history (emotion_sequence self) ->
  exists r,
    analyze self (x :: rest) now uniform
    = (Some r,
       set_emotion_sequence self
         (appended (emotion_sequence self) (res_emotion r))).
Proof.
  intros V F.
  unfold analyze, _analyze_audio_realtime, analyze_body.
  assert (G : Py.Qltb (np_max_abs x rest) 0.005 = false)
    by (apply Qltb_false; exact V).
  rewrite G.
  destruct (rule_bands_only_add (np_max_abs x rest) (mean_square (x :: rest))
              (zero_crossing_rate (x :: rest))
              (simple_spectral_rolloff (x :: rest))
              (estimate_pitch_variation (x :: rest)) now) as (e1 & C1 & _).
  rewrite C1. simpl Py.bind.
  pose proof (calculate_keys _ _ _ _ _ _ _ C1) as K1.
  unfold add_realtime_variety.
  destruct (phase_rule_total now e1 K1) as (a & P). rewrite P. simpl Py.bind.
  assert (Ka : keys a = keys base_probabilities)
    by (rewrite (phase_rule_keys _ _ _ P); exact K1).
  destruct (prevent_repetition_total (emotion_sequence self) a Ka F)
    as (b & R).
  rewrite R. simpl Py.bind.
  assert (Kb : keys b = keys base_probabilities)
    by (rewrite (prevent_repetition_keys _ _ _ R); exact Ka).
  assert (NDb : NoDup (keys b)) by (rewrite Kb; exact base_keys_nodup).
  rewrite (add_randomness_floor uniform b NDb). simpl Py.bind.
  set (c := update_all (fun i _ v => Py.max 0.05 (v + uniform i)) O b).
  assert (Kc : keys c = keys base_probabilities)
    by (subst c; rewrite update_all_keys; exact Kb).
  assert (NDc : NoDup (keys c)) by (rewrite Kc; exact base_keys_nodup).
  pose proof (floor_total_positive uniform b Kb) as Tc. fold c in Tc.
  rewrite (normalize_divides c NDc) by lra. simpl Py.bind.
  set (e2 := update_all (fun _ _ v => v / sum (values c)) O c).
  assert (K2 : keys e2 = keys base_probabilities)
    by (subst e2; rewrite update_all_keys; exact Kc).
  assert (ND2 : NoDup (keys e2)) by (rewrite K2; exact base_keys_nodup).
  destruct (max_key e2) as [best |] eqn:M.
  - simpl Py.bind.
    destruct (max_key_spec e2 best ND2 M) as (base & B & _ & _).
    rewrite B. simpl Py.bind.
    eexists (mkResult best _ _ _). unfold appended. simpl res_emotion.
    reflexivity.
  - destruct e2 as [| kv tail]; [discriminate K2 | discriminate M].
Qed.


(** What the analysis does to the detector: it appends the label of the
    estimate it returns, or leaves the detector as it was. *)
Lemma analyze_effect (self self' : t) (audio : list Q) (now : Q)
    (uniform : nat -> Q) (o : option Result) :
  analyze self audio now uniform = (o, self') ->
  match o with
  | Some r =>
      self' = set_emotion_sequence self
                (appended (emotion_sequence self) (res_emotion r))
  | None => self' = self
  end.
Proof.
  intro H. destruct o as [r |].
  - destruct (voice_result_shape _ _ _ _ _ _ _ _ _ H)
      as (x & rest & base & _ & _ & _ & _ & _ & _ & _ & E).
    exact E.
  - unfold analyze, _analyze_audio_realtime in H.
    destruct (analyze_body _ _ _ self audio now uniform) as [[o s] |] eqn:B.
    + unfold analyze_body in B. destruct audio as [| x rest];
        [discriminate B |].
      destruct (Py.Qltb (np_max_abs x rest) 0.005).
      * inversion B. inversion H. congruence.
      * chain. inversion B. subst o. inversion H.
    + inversion H. reflexivity.
Qed.


End ClassifierMore.

Lemma loud_window_is_classified_witness :
  exists r,
    VoiceDetector._analyze_audio_realtime sqrt_down (fun _ => 0.5)
      (fun _ => 0.5) VoiceDetector.init (1 :: tl loud_window) 1 (fun _ => 0)
    = (Some r,
       VoiceDetector.set_emotion_sequence VoiceDetector.init
         (appended (VoiceDetector.emotion_sequence VoiceDetector.init)
            (VoiceDetector.res_emotion r))).
Proof.
  apply (loud_window_is_classified sqrt_down (fun _ => 0.5) (fun _ => 0.5)
           VoiceDetector.init 1 (tl loud_window) 1 (fun _ => 0)).
  - vm_compute. discriminate.
  - constructor.
Defined.


Section ConfidenceMore.

Import VoiceDetector.

Variable np_sqrt : Q -> Q.
Variable simple_spectral_rolloff : list Q -> Q.
Variable estimate_pitch_variation : list Q -> Q.

Hypothesis np_sqrt_nonneg : forall x, 0 <= np_sqrt x.

Let analyze :=
  _analyze_audio_realtime np_sqrt simple_spectral_rolloff
    estimate_pitch_variation.

Let process :=
  process_audio np_sqrt simple_spectral_rolloff estimate_pitch_variation.

Lemma sum_at_most (l : list Q) (b : Q) :
  (forall x, In x l -> x <= b) -> sum l <= inject_Z (Py.len l) * b.
Proof.
  induction l as [| y rest IH]; intro A.
  - unfold sum, Py.len. simpl. change (inject_Z 0) with 0. lra.
  - rewrite sum_cons.
    assert (Y : y <= b) by (apply A; left; reflexivity).
    assert (R : sum rest <= inject_Z (Py.len rest) * b)
      by (apply IH; intros z I; apply A; right; exact I).
    assert (E : inject_Z (Py.len (y :: rest)) == inject_Z (Py.len rest) + 1).
    { unfold Py.len. simpl List.length. rewrite Nat2Z.inj_succ.
      unfold Z.succ. rewrite inject_Z_plus. reflexivity. }
    rewrite E.
    setoid_replace ((inject_Z (Py.len rest) + 1) * b)
      with (inject_Z (Py.len rest) * b + b) by ring.
    lra.
Qed.

(** The confidence of a voice estimate is at least 1/7 + 0.01: the largest
    of seven normalized scores is at least their mean, and the boost of a
    window that is not silent is at least 0.01. *)
Theorem voice_confidence_floor (self self' : t) (audio : list Q) (now : Q)
    (uniform : nat -> Q) (r : Result) :
  analyze self audio now uniform = (Some r, self') ->
  (1 # 7) + 0.01 <= res_confidence r.
Proof.
  intro H.
  destruct (voice_result_shape _ _ _ _ _ _ _ _ _ H)
    as (x & rest & base & -> & V & K & S & G & M & C & _).
  assert (L : Py.len (values (all_predictions r)) = 7%Z).
  { unfold Py.len, values. rewrite length_map.
    assert (E : List.length (keys (all_predictions r)) = 7%nat)
      by (rewrite K; reflexivity).
    unfold keys in E. rewrite length_map in E. rewrite E. reflexivity. }
  assert (B : sum (values (all_predictions r)) <= inject_Z 7 * base).
  { rewrite <- L. apply sum_at_most. intros v I.
    unfold values in I. apply in_map_iff in I.
    destruct I as ([k w] & <- & I). apply (M k w I). }
  rewrite S in B. change (inject_Z 7) with 7 in B.
  pose proof (np_sqrt_nonneg (mean_square (x :: rest))) as R.
  rewrite C.
  destruct (min_spec 0.3 (np_max_abs x rest * 2
                          + np_sqrt (mean_square (x :: rest)) * 1.5))
    as [[L1 ->] | [L1 ->]];
    match goal with
    | |- _ <= Py.min 0.92 ?e =>
        destruct (min_spec 0.92 e) as [[L2 ->] | [L2 ->]]
    end; lra.
Qed.

(** [process_audio] ignores a missing window and a window of fewer than
    1000 samples altogether.  Every other window is counted, whatever the
    analysis returns; when it returns nothing the estimate held so far
    stays the current one. *)
Theorem short_windows_are_ignored (self : t) (now : Q) (uniform : nat -> Q) :
  process self None now uniform = self
  /\ (forall audio,
        (Py.len audio < 1000)%Z ->
        process self (Some audio) now uniform = self)
  /\ (forall audio,
        (1000 <= Py.len audio)%Z ->
        let self' := process self (Some audio) now uniform in
        let counted := set_processing_count self (processing_count self + 1) in
        processing_count self' = (processing_count self + 1)%Z
        /\ current_emotion self'
           = match fst (analyze counted audio now uniform) with
             | Some r => Some r
             | None => current_emotion self
             end).
Proof.
  split; [reflexivity |]. split.
  - intros audio L. unfold process, process_audio.
    apply Z.ltb_lt in L. rewrite L. reflexivity.
  - intros audio L self' counted. subst self'. unfold process, process_audio.
    assert (G : (Py.len audio <? 1000)%Z = false) by (apply Z.ltb_ge; exact L).
    rewrite G. fold counted. fold analyze.
    destruct (analyze counted audio now uniform) as [o s] eqn:A.
    pose proof (analyze_effect np_sqrt simple_spectral_rolloff
                  estimate_pitch_variation _ _ _ _ _ _ A) as E.
    simpl fst. destruct o as [r |]; subst s; split; reflexivity.
Qed.

End ConfidenceMore.

Lemma voice_confidence_floor_witness :
  exists r st,
    VoiceDetector._analyze_audio_realtime sqrt_down (fun _ => 0.5)
      (fun _ => 0.5) VoiceDetector.init loud_window 1 (fun _ => 0)
    = (Some r, st)
    /\ (1 # 7) + 0.01 <= VoiceDetector.res_confidence r.
Proof.
  assert (H : exists r st,
             VoiceDetector._analyze_audio_realtime sqrt_down (fun _ => 0.5)
               (fun _ => 0.5) VoiceDetector.init loud_window 1 (fun _ => 0)
             = (Some r, st)) by (vm_compute; eauto).
  destruct H as (r & st & H). exists r, st. split; [exact H |].
  exact (voice_confidence_floor sqrt_down (fun _ => 0.5) (fun _ => 0.5)
           sqrt_down_nonneg _ _ _ _ _ _ H).
Defined.

Lemma short_windows_are_ignored_witness :
  VoiceDetector.process_audio sqrt_down (fun _ => 0.5) (fun _ => 0.5)
    VoiceDetector.init (Some [0.5; -0.5; 0.25]) 3 (fun _ => 0)
  = VoiceDetector.init.
Proof.
  apply (proj1 (proj2 (short_windows_are_ignored sqrt_down (fun _ => 0.5)
                         (fun _ => 0.5) VoiceDetector.init 3 (fun _ => 0)))).
  vm_compute. reflexivity.
Defined.

(* ================================================================== *)
(** * The wall-clock phases *)

Section Phases.

Import VoiceDetector.

Lemma floor_unique (x : Q) (z : Z) :
  inject_Z z <= x -> x < inject_Z (z + 1) -> Qfloor x = z.
Proof.
  intros L U.
  pose proof (Qfloor_le x) as FL. pose proof (Qlt_floor x) as FU.
  assert (A : (Qfloor x < z + 1)%Z).
  { rewrite Zlt_Qlt. apply (Qle_lt_trans _ x); assumption. }
  assert (B : (z < Qfloor x + 1)%Z).
  { rewrite Zlt_Qlt. apply (Qle_lt_trans _ x); assumption. }
  lia.
Qed.

Lemma floor_succ (x : Q) : Qfloor (x + 1) = (Qfloor x + 1)%Z.
Proof.
  pose proof (Qfloor_le x) as FL. pose proof (Qlt_floor x) as FU.
  rewrite inject_Z_plus in FU. change (inject_Z 1) with 1 in FU.
  apply floor_unique.
  - rewrite inject_Z_plus. change (inject_Z 1) with 1. lra.
  - rewrite !inject_Z_plus. change (inject_Z 1) with 1. lra.
Qed.

Lemma fmod_period (t : Q) : Py.fmod (t + 15) 15 == Py.fmod t 15.
Proof.
  unfold Py.fmod.
  assert (E : (t + 15) / 15 == t / 15 + 1) by (field).
  rewrite (Qfloor_comp _ _ E), floor_succ, inject_Z_plus.
  change (inject_Z 1) with 1. ring.
Qed.

Lemma fmod_small (t : Q) : 0 <= t -> t < 15 -> Py.fmod t 15 == t.
Proof.
  intros L U. unfold Py.fmod.
  assert (F : Qfloor (t / 15) = 0%Z).
  { apply floor_unique.
    - change (inject_Z 0) with 0. apply Qle_shift_div_l; lra.
    - change (inject_Z (0 + 1)) with 1. apply Qlt_shift_div_r; lra. }
  rewrite F. change (inject_Z 0) with 0. ring.
Qed.

Lemma Qltb_compat (a a' b b' : Q) :
  a == a' -> b == b' -> Py.Qltb a b = Py.Qltb a' b'.
Proof.
  intros E F.
  destruct (Py.Qltb a b) eqn:X; destruct (Py.Qltb a' b') eqn:Y;
    try reflexivity;
    try apply Qltb_true in X; try apply Qltb_false in X;
    try apply Qltb_true in Y; try apply Qltb_false in Y; lra.
Qed.

(** The bias of the clock is periodic with period 15 seconds, and within a
    period it runs through five phases of 3 seconds: happy and surprise,
    neutral, sad and fear, angry and disgust, surprise and fear. *)
Theorem phases_last_three_seconds (now : Q) (d : scores) :
  phase_rule (now + 15) d = phase_rule now d
  /\ (0 <= now -> now < 15 ->
      phase_rule now d =
      if Py.Qltb now 3 then
        e <- iadd "happy" 0.15 d ;; iadd "surprise" 0.10 e
      else if Py.Qltb now 6 then iadd "neutral" 0.12 d
      else if Py.Qltb now 9 then
        e <- iadd "sad" 0.15 d ;; iadd "fear" 0.08 e
      else if Py.Qltb now 12 then
        e <- iadd "angry" 0.18 d ;; iadd "disgust" 0.10 e
      else
        e <- iadd "surprise" 0.20 d ;; iadd "fear" 0.10 e).
Proof.
  split.
  - unfold phase_rule. pose proof (fmod_period now) as P.
    assert (C : forall c,
               Py.Qltb (Py.fmod (now + 15) 15 / 15) c
               = Py.Qltb (Py.fmod now 15 / 15) c).
    { intro c. apply Qltb_compat; [rewrite P; reflexivity | reflexivity]. }
    rewrite !C. reflexivity.
  - intros L U. unfold phase_rule. pose proof (fmod_small now L U) as S.
    assert (C : forall c k,
               k == c * 15 ->
               Py.Qltb (Py.fmod now 15 / 15) c = Py.Qltb now k).
    { intros c k E.
      destruct (Py.Qltb (Py.fmod now 15 / 15) c) eqn:X;
        destruct (Py.Qltb now k) eqn:Y; try reflexivity;
        try apply Qltb_true in X; try apply Qltb_false in X;
        try apply Qltb_true in Y; try apply Qltb_false in Y;
        rewrite S in X; exfalso.
      - apply (Qmult_lt_compat_r _ _ 15) in X; [| reflexivity].
        assert (T : now / 15 * 15 == now) by field. lra.
      - apply (Qmult_le_compat_r _ _ 15) in X; [| discriminate].
        assert (T : now / 15 * 15 == now) by field. lra. }
    rewrite (C 0.2 3), (C 0.4 6), (C 0.6 9), (C 0.8 12) by reflexivity.
    reflexivity.
Qed.

Lemma phases_last_three_seconds_witness :
  VoiceDetector.phase_rule 4 VoiceDetector.base_probabilities
  = VoiceDetector.iadd "neutral" 0.12 VoiceDetector.base_probabilities.
Proof.
  assert (L : 0 <= 4) by discriminate.
  assert (U : 4 < 15) by reflexivity.
  exact (proj2 (phases_last_three_seconds 4 VoiceDetector.base_probabilities)
               L U).
Defined.

End Phases.

(* ================================================================== *)
(** * The spectral roll-off *)

Section Rolloff.

Import VoiceDetector.

Variable fft_magnitude : list Q -> option (list Q).

Lemma cumsum_length (l : list Q) (acc : Q) :
  List.length (cumsum acc l) = List.length l.
Proof.
  revert acc. induction l as [| x rest IH]; intro acc; simpl;
    [reflexivity | f_equal; apply IH].
Qed.

(** The running totals end with the total. *)
Lemma cumsum_reaches_total (l : list Q) (acc : Q) :
  l <> [] -> exists c, In c (cumsum acc l) /\ c == acc + sum l.
Proof.
  revert acc. induction l as [| x rest IH]; intros acc NE; [congruence |].
  destruct rest as [| y rest'].
  - exists (acc + x). simpl. split; [left; reflexivity |].
    unfold sum. simpl. lra.
  - destruct (IH (acc + x)) as (c & I & E); [discriminate |].
    exists c. split; [right; exact I |].
    rewrite E, (sum_cons x (y :: rest')). lra.
Qed.

(** The first index found by [where_ge]. *)
Lemma where_ge_first (bound : Q) (l : list Q) (start i : nat)
    (others : list nat) :
  where_ge bound start l = i :: others ->
  (start <= i)%nat /\ (i - start < List.length l)%nat
  /\ bound <= nth (i - start) l 0
  /\ forall j, (j < i - start)%nat -> nth j l 0 < bound.
Proof.
  revert start. induction l as [| c rest IH]; intros start H; simpl in H;
    [discriminate |].
  destruct (Qle_bool bound c) eqn:E.
  - inversion H. subst i. replace (start - start)%nat with O by lia.
    apply Qle_bool_iff in E. simpl.
    split; [lia | split; [lia | split; [exact E |]]]. intros j J. lia.
  - destruct (IH (S start) H) as (A & B & C & D).
    replace (i - start)%nat with (S (i - S start)) by lia. simpl.
    split; [lia | split; [lia | split; [exact C |]]].
    intros j J. destruct j as [| j'].
    + destruct (Qlt_le_dec c bound) as [X | X]; [exact X |].
      apply Qle_bool_iff in X. congruence.
    + apply D. lia.
Qed.

Lemma where_ge_none (bound : Q) (l : list Q) (start : nat) :
  where_ge bound start l = [] -> forall c, In c l -> c < bound.
Proof.
  revert start. induction l as [| x rest IH]; intros start H c I;
    [contradiction |].
  simpl in H. destruct (Qle_bool bound x) eqn:E; [discriminate |].
  destruct I as [<- | I].
  - destruct (Qlt_le_dec x bound) as [X | X]; [exact X |].
    apply Qle_bool_iff in X. congruence.
  - exact (IH _ H c I).
Qed.

Lemma index_ratio (i : nat) (n : Z) :
  (Z.of_nat i < n)%Z ->
  0 <= inject_Z (Z.of_nat i) / inject_Z n
  /\ inject_Z (Z.of_nat i) / inject_Z n < 1.
Proof.
  intro L.
  assert (P : 0 < inject_Z n).
  { change 0 with (inject_Z 0). rewrite <- Zlt_Qlt. lia. }
  assert (I : 0 <= inject_Z (Z.of_nat i)).
  { change 0 with (inject_Z 0). rewrite <- Zle_Qle. lia. }
  assert (U : inject_Z (Z.of_nat i) < inject_Z n)
    by (rewrite <- Zlt_Qlt; exact L).
  split.
  - apply Qle_shift_div_l; [exact P | lra].
  - apply Qlt_shift_div_r; [exact P | lra].
Qed.

(** The roll-off is a fraction in [0, 1).  When the magnitudes are not
    negative and not all zero, it is k / n for the first bin k whose
    running total reaches 85% of the total, so the default 0.5 is then
    never used. *)
Theorem rolloff_is_a_fraction (audio_data : list Q) :
  let r := _simple_spectral_rolloff fft_magnitude audio_data in
  (0 <= r /\ r < 1)
  /\ forall fft,
       fft_magnitude audio_data = Some fft ->
       let magnitude := firstn (Z.to_nat (Py.len fft / 2)) fft in
       (forall m, In m magnitude -> 0 <= m) ->
       ~ sum magnitude == 0 ->
       exists k,
         (k < List.length magnitude)%nat
         /\ r = inject_Z (Z.of_nat k) / inject_Z (Py.len magnitude)
         /\ 0.85 * sum magnitude <= nth k (cumsum 0 magnitude) 0
         /\ forall j, (j < k)%nat ->
                      nth j (cumsum 0 magnitude) 0 < 0.85 * sum magnitude.
Proof.
  intro r. subst r. unfold _simple_spectral_rolloff.
  destruct (fft_magnitude audio_data) as [fft |];
    [| split; [split; [discriminate | reflexivity] | discriminate]].
  set (magnitude := firstn (Z.to_nat (Py.len fft / 2)) fft).
  destruct (Qeq_bool (sum magnitude) 0) eqn:Z0.
  - split; [split; [discriminate | reflexivity] |].
    intros fft' E NN NZ. inversion E. subst fft'. fold magnitude in NN, NZ |- *.
    apply Qeq_bool_iff in Z0. contradiction.
  - destruct (where_ge (0.85 * sum magnitude) O (cumsum 0 magnitude))
      as [| i others] eqn:W.
    + split; [split; [discriminate | reflexivity] |].
      intros fft' E NN NZ. inversion E. subst fft'. fold magnitude in NN, NZ |- *. exfalso.
      assert (NE : magnitude <> []).
      { intro X. apply NZ. rewrite X. reflexivity. }
      destruct (cumsum_reaches_total magnitude 0 NE) as (c & I & C).
      pose proof (where_ge_none _ _ _ W c I) as B.
      assert (T : 0 <= sum magnitude).
      { clear - NN.
        induction magnitude as [| y rest IH].
        - unfold sum. simpl. lra.
        - rewrite sum_cons.
          assert (0 <= y) by (apply NN; left; reflexivity).
          assert (0 <= sum rest)
            by (apply IH; intros m I; apply NN; right; exact I).
          lra. }
      lra.
    + destruct (where_ge_first _ _ _ _ _ W) as (_ & B & C & D).
      rewrite Nat.sub_0_r in B, C, D. rewrite cumsum_length in B.
      split.
      * apply index_ratio. unfold Py.len. lia.
      * intros fft' E NN NZ. inversion E. subst fft'. fold magnitude in NN, NZ |- *.
        exists i. split; [exact B |]. split; [reflexivity |].
        split; [exact C | exact D].
Qed.

End Rolloff.

Lemma rolloff_is_a_fraction_witness :
  VoiceDetector._simple_spectral_rolloff
    (fun _ => Some [1; 3; 2; 1; 9; 9; 9; 9]) [0.5; 0.25]
  = inject_Z 2 / inject_Z 4.
Proof.
  destruct (proj2 (rolloff_is_a_fraction
                     (fun _ => Some [1; 3; 2; 1; 9; 9; 9; 9]) [0.5; 0.25])
                  [1; 3; 2; 1; 9; 9; 9; 9] eq_refl)
    as (k & K & E & _ & _).
  - simpl. intros m [<- | [<- | [<- | [<- | []]]]]; discriminate.
  - vm_compute. discriminate.
  - vm_compute. reflexivity.
Defined.

(* ================================================================== *)
(** * The pitch variation *)

Section Pitch.

Import VoiceDetector.

Lemma find_peaks_prefix (autocorr : list Q) :
  find_peaks autocorr = find_peaks (firstn 401 autocorr).
Proof.
  unfold find_peaks, Py.len.
  assert (S : Z.to_nat (Z.min 400 (Z.of_nat (List.length autocorr) - 1))
              = Z.to_nat (Z.min 400
                  (Z.of_nat (List.length (firstn 401 autocorr)) - 1))).
  { rewrite length_firstn. lia. }
  rewrite <- S.
  set (stop := Z.to_nat (Z.min 400 (Z.of_nat (List.length autocorr) - 1))).
  assert (B : (stop <= 400)%nat) by (subst stop; lia).
  assert (N : forall i, (i <= 400)%nat ->
                        nth i (firstn 401 autocorr) 0 = nth i autocorr 0).
  { intros i L. rewrite nth_firstn.
    assert (X : (i <? 401)%nat = true) by (apply Nat.ltb_lt; lia).
    rewrite X. reflexivity. }
  assert (R : forall i, In i (seq 1 (stop - 1)) -> (1 <= i < 400)%nat).
  { intros i I. apply in_seq in I. lia. }
  induction (seq 1 (stop - 1)) as [| i rest IH]; [reflexivity |].
  cbn [filter].
  assert (I : (1 <= i < 400)%nat) by (apply R; left; reflexivity).
  assert (P : is_peak (firstn 401 autocorr) i = is_peak autocorr i).
  { unfold is_peak. rewrite !N by lia. reflexivity. }
  rewrite P. destruct (is_peak autocorr i); cbn [map].
  - rewrite N by lia. f_equal. apply IH. intros j J. apply R. right. exact J.
  - apply IH. intros j J. apply R. right. exact J.
Qed.

(** The pitch variation never exceeds 1, and it looks at the
    autocorrelation up to lag 400 only: two autocorrelations that agree on
    the lags 0 to 400 give the same result. *)
Theorem pitch_uses_400_lags (correlate correlate' : list Q -> option (list Q))
    (np_std : list Q -> Q) (audio_data full full' : list Q) :
  correlate audio_data = Some full ->
  correlate' audio_data = Some full' ->
  firstn 401 (Py.slice_from (Py.len full / 2) full)
  = firstn 401 (Py.slice_from (Py.len full' / 2) full') ->
  _estimate_pitch_variation correlate np_std audio_data
  = _estimate_pitch_variation correlate' np_std audio_data
  /\ _estimate_pitch_variation correlate np_std audio_data <= 1.
Proof.
  intros C C' E. unfold _estimate_pitch_variation. rewrite C, C'.
  rewrite (find_peaks_prefix (Py.slice_from (Py.len full / 2) full)),
    (find_peaks_prefix (Py.slice_from (Py.len full' / 2) full')), E.
  split; [reflexivity |].
  destruct (Py.len _ >? 1)%Z; [| discriminate].
  destruct (Qeq_bool _ 0); [discriminate |].
  match goal with
  | |- Py.min 1.0 ?x <= 1 => pose proof (min_le_l 1.0 x) as L
  end.
  lra.
Qed.

Lemma pitch_uses_400_lags_witness :
  _estimate_pitch_variation
    (fun _ => Some (repeat 0 500 ++ [1; 3; 2; 5; 4] ++ repeat 0 495 ++ [7])%list)
    (fun _ => 1) [0.5]
  = _estimate_pitch_variation
      (fun _ => Some (repeat 0 500 ++ [1; 3; 2; 5; 4] ++ repeat 0 495
                      ++ [9])%list)
      (fun _ => 1) [0.5].
Proof.
  apply (pitch_uses_400_lags
           (fun _ => Some (repeat 0 500 ++ [1; 3; 2; 5; 4] ++ repeat 0 495
                           ++ [7])%list)
           (fun _ => Some (repeat 0 500 ++ [1; 3; 2; 5; 4] ++ repeat 0 495
                           ++ [9])%list)
           (fun _ => 1) [0.5] _ _ eq_refl eq_refl).
  vm_compute. reflexivity.
Defined.

End Pitch.

(* ================================================================== *)
(** * More on the capture queue and loop *)

Section QueueMore.

Import AudioCapture.

Variable Detector : Type.
Variable process_audio : Detector -> list Q -> Detector.

Lemma callback_fields (self : t Detector) (chunk : list Q) :
  recording Detector (_audio_callback Detector self chunk)
  = recording Detector self
  /\ sample_rate Detector (_audio_callback Detector self chunk)
     = sample_rate Detector self
  /\ buffer_duration Detector (_audio_callback Detector self chunk)
     = buffer_duration Detector self
  /\ voice_detector Detector (_audio_callback Detector self chunk)
     = voice_detector Detector self.
Proof.
  unfold _audio_callback. destruct (recording Detector self) eqn:R;
    [| rewrite R; auto].
  destruct (Py.len (audio_queue Detector self) <? maxsize)%Z;
    [simpl; auto |].
  destruct (audio_queue Detector self); simpl; auto.
Qed.

(** One delivery: the queue with the new block, cut to its last ten. *)
Lemma callback_queue (self : t Detector) (chunk : list Q) :
  recording Detector self = true ->
  (Py.len (audio_queue Detector self) <= 10)%Z ->
  audio_queue Detector (_audio_callback Detector self chunk)
  = Py.slice_from (-10) (audio_queue Detector self ++ [chunk]).
Proof.
  intros R L. unfold _audio_callback, maxsize. rewrite R.
  unfold Py.slice_from, Py.len in *. rewrite length_app. simpl List.length.
  assert (N : (-10 <? 0)%Z = true) by reflexivity. rewrite N.
  destruct (Z.of_nat (List.length (audio_queue Detector self)) <? 10)%Z eqn:E.
  - apply Z.ltb_lt in E. simpl audio_queue.
    replace (Z.to_nat (Z.max 0 (-10 + Z.of_nat
               (List.length (audio_queue Detector self) + 1)))) with O by lia.
    reflexivity.
  - apply Z.ltb_ge in E.
    destruct (audio_queue Detector self) as [| old rest] eqn:Q;
      [simpl in E; lia |].
    simpl audio_queue. simpl List.length in *.
    replace (Z.to_nat (Z.max 0 (-10 + Z.of_nat (S (List.length rest) + 1))))
      with 1%nat by lia.
    reflexivity.
Qed.

Lemma last_ten_snoc {A : Type} (l : list A) (x : A) :
  Py.slice_from (-10) (Py.slice_from (-10) l ++ [x])
  = Py.slice_from (-10) (l ++ [x]).
Proof.
  unfold Py.slice_from, Py.len.
  assert (N : (-10 <? 0)%Z = true) by reflexivity. rewrite !N.
  rewrite !length_app, length_skipn. simpl List.length.
  set (n := List.length l).
  replace (Z.to_nat (Z.max 0 (-10 + Z.of_nat n))) with (n - 10)%nat by lia.
  replace (Z.to_nat (Z.max 0 (-10 + Z.of_nat (n - (n - 10) + 1))))
    with (if (n <? 10)%nat then O else 1%nat)
    by (destruct (Nat.ltb_spec n 10); lia).
  replace (Z.to_nat (Z.max 0 (-10 + Z.of_nat (n + 1))))
    with (n + 1 - 10)%nat by lia.
  destruct (Nat.ltb_spec n 10) as [S | S].
  - replace (n - 10)%nat with O by lia.
    replace (n + 1 - 10)%nat with O by lia. reflexivity.
  - rewrite !skipn_app. rewrite skipn_skipn, length_skipn. fold n.
    replace (1 + (n - 10))%nat with (n + 1 - 10)%nat by lia.
    replace (1 - (n - (n - 10)))%nat with O by lia.
    replace (n + 1 - 10 - n)%nat with O by lia. reflexivity.
Qed.

Lemma last_ten_short {A : Type} (l : list A) :
  (Py.len l <= 10)%Z -> Py.slice_from (-10) l = l.
Proof.
  unfold Py.slice_from, Py.len. intro L.
  assert (N : (-10 <? 0)%Z = true) by reflexivity. rewrite N.
  replace (Z.to_nat (Z.max 0 (-10 + Z.of_nat (List.length l)))) with O by lia.
  reflexivity.
Qed.

Lemma last_ten_length {A : Type} (l : list A) :
  (Py.len (Py.slice_from (-10) l) <= 10)%Z.
Proof.
  unfold Py.slice_from, Py.len.
  assert (N : (-10 <? 0)%Z = true) by reflexivity.
  rewrite N, length_skipn. lia.
Qed.

Lemma last_ten_app {A : Type} (m l : list A) :
  Py.slice_from (-10) (Py.slice_from (-10) l ++ m)
  = Py.slice_from (-10) (l ++ m).
Proof.
  revert l. induction m as [| y m' IH]; intro l.
  - rewrite !app_nil_r. apply last_ten_short. apply last_ten_length.
  - replace (Py.slice_from (-10) l ++ y :: m')%list
      with ((Py.slice_from (-10) l ++ [y]) ++ m')%list
      by (rewrite <- app_assoc; reflexivity).
    replace (l ++ y :: m')%list with ((l ++ [y]) ++ m')%list
      by (rewrite <- app_assoc; reflexivity).
    rewrite <- (IH (Py.slice_from (-10) l ++ [y])%list).
    rewrite last_ten_snoc. apply IH.
Qed.

(** While recording, the queue holds the ten most recent blocks in the
    order of arrival: nothing is lost below ten, and beyond ten the oldest
    blocks are the ones dropped. *)
Theorem queue_keeps_ten_most_recent (self : t Detector)
    (blocks : list (list Q)) :
  recording Detector self = true ->
  (Py.len (audio_queue Detector self) <= 10)%Z ->
  audio_queue Detector (deliver_all Detector blocks self)
  = Py.slice_from (-10) (audio_queue Detector self ++ blocks)
  /\ (Py.len (audio_queue Detector (deliver_all Detector blocks self))
      <= 10)%Z.
Proof.
  intros R L.
  assert (G : audio_queue Detector (deliver_all Detector blocks self)
              = Py.slice_from (-10) (audio_queue Detector self ++ blocks)).
  { unfold deliver_all. revert self R L.
    induction blocks as [| b rest IH]; intros self R L.
    - simpl. rewrite app_nil_r. symmetry. apply last_ten_short. exact L.
    - simpl fold_left. rewrite IH.
      + rewrite (callback_queue self b R L), last_ten_app.
        rewrite <- app_assoc. reflexivity.
      + rewrite (proj1 (callback_fields self b)). exact R.
      + rewrite (callback_queue self b R L). apply last_ten_length. }
  split; [exact G |]. rewrite G. apply last_ten_length.
Qed.

End QueueMore.

Lemma queue_keeps_ten_most_recent_witness :
  AudioCapture.audio_queue AudioCapture.Dummy
    (AudioCapture.deliver_all AudioCapture.Dummy
       (map (fun k => [inject_Z (Z.of_nat k)]) (seq 1 12)) capturing)
  = map (fun k => [inject_Z (Z.of_nat k)]) (seq 3 10).
Proof.
  assert (L : (Py.len (AudioCapture.audio_queue AudioCapture.Dummy capturing)
               <= 10)%Z) by (vm_compute; discriminate).
  exact (proj1 (queue_keeps_ten_most_recent AudioCapture.Dummy capturing
                  (map (fun k => [inject_Z (Z.of_nat k)]) (seq 1 12))
                  eq_refl L)).
Defined.

Section LoopMore.

Import AudioCapture.

Variable Detector : Type.
Variable process_audio : Detector -> list Q -> Detector.

(** After [stop_capture] nothing moves: blocks that still arrive are not
    queued, and the loop consumes nothing more, whatever is left in the
    queue and in the accumulator. *)
Theorem nothing_after_stop (self : t Detector) (audio_buffer : list Q)
    (events : list event) :
  run Detector process_audio events (stop_capture Detector self, audio_buffer)
  = (stop_capture Detector self, audio_buffer).
Proof.
  induction events as [| e rest IH]; [reflexivity |].
  simpl. destruct e as [indata |]; simpl; exact IH.
Qed.

(** Below the target the loop loses nothing: iterating once per queued
    block empties the queue and leaves the accumulator extended by the
    blocks in their order, and the detector is not called. *)
Theorem accumulator_concatenates (queue : list (list Q)) (self : t Detector)
    (audio_buffer : list Q) :
  recording Detector self = true ->
  audio_queue Detector self = queue ->
  (Py.len (audio_buffer ++ List.concat queue) < target_samples Detector self)%Z ->
  run Detector process_audio (repeat Iterate (List.length queue))
    (self, audio_buffer)
  = (set_audio_queue Detector self [],
     (audio_buffer ++ List.concat queue)%list).
Proof.
  revert self audio_buffer.
  induction queue as [| chunk rest IH]; intros self audio_buffer R Q L.
  - simpl. rewrite app_nil_r. destruct self; simpl in *. subst. reflexivity.
  - simpl repeat. simpl run. unfold consume. rewrite R, Q.
    simpl List.concat in L. rewrite app_assoc in L.
    assert (S : (Py.len (audio_buffer ++ chunk)
                 >=? target_samples Detector
                       (set_audio_queue Detector self rest))%Z = false).
    { change (target_samples Detector (set_audio_queue Detector self rest))
        with (target_samples Detector self).
      unfold Py.len in *. rewrite length_app in L.
      destruct (Z.of_nat (List.length (audio_buffer ++ chunk))
                >=? target_samples Detector self)%Z eqn:E; [| reflexivity].
      apply Z.geb_le in E. lia. }
    rewrite S.
    change (fold_left (step Detector process_audio)
              (repeat Iterate (List.length rest))
              (set_audio_queue Detector self rest,
               (audio_buffer ++ chunk)%list))
      with (run Detector process_audio (repeat Iterate (List.length rest))
              (set_audio_queue Detector self rest,
               (audio_buffer ++ chunk)%list)).
    rewrite (IH (set_audio_queue Detector self rest)
               (audio_buffer ++ chunk)%list R eq_refl L).
    simpl List.concat. rewrite app_assoc. reflexivity.
Qed.

End LoopMore.

Lemma accumulator_concatenates_witness :
  AudioCapture.run AudioCapture.Dummy AudioCapture.dummy_process_audio
    (repeat (AudioCapture.Iterate) 2)
    (AudioCapture.deliver_all AudioCapture.Dummy [[1; 2]; [3]] capturing,
     [0.5])
  = (AudioCapture.set_audio_queue AudioCapture.Dummy
       (AudioCapture.deliver_all AudioCapture.Dummy [[1; 2]; [3]] capturing)
       [],
     [0.5; 1; 2; 3]).
Proof.
  apply (accumulator_concatenates AudioCapture.Dummy
           AudioCapture.dummy_process_audio [[1; 2]; [3]]
           (AudioCapture.deliver_all AudioCapture.Dummy [[1; 2]; [3]]
              capturing) [0.5]).
  - reflexivity.
  - reflexivity.
  - vm_compute. reflexivity.
Defined.

Section WindowsMore.

Import AudioCapture.

Lemma step_keeps_invariant (sr bd : Z) (st : t Dummy * list Q) (e : event) :
  (0 < sr)%Z -> (2 <= bd)%Z ->
  loop_invariant sr bd st ->
  loop_invariant sr bd (step Dummy dummy_process_audio st e).
Proof.
  intros SR BD (S & B & L & ws & V & F). destruct st as [self buf].
  simpl in S, B, L, V.
  destruct e as [indata |]; simpl step.
  - destruct (callback_fields Dummy self indata) as (_ & S' & B' & V').
    unfold loop_invariant. simpl. rewrite S', B', V'.
    split; [exact S |]. split; [exact B |]. split; [exact L |].
    exists ws. split; [exact V | exact F].
  - unfold consume. destruct (recording Dummy self) eqn:R;
      [| unfold loop_invariant; simpl; eauto 8].
    destruct (audio_queue Dummy self) as [| chunk rest] eqn:Qu;
      [unfold loop_invariant; simpl; eauto 8 |].
    change (target_samples Dummy (set_audio_queue Dummy self rest))
      with (target_samples Dummy self).
    change (sample_rate Dummy (set_audio_queue Dummy self rest))
      with (sample_rate Dummy self).
    change (voice_detector Dummy (set_audio_queue Dummy self rest))
      with (voice_detector Dummy self).
    unfold target_samples. rewrite V.
    destruct (Py.len (buf ++ chunk)
              >=? sample_rate Dummy self * buffer_duration Dummy self)%Z
      eqn:E.
    + apply Z.geb_le in E.
      destruct (slice_last (sample_rate Dummy self
                            * buffer_duration Dummy self) (buf ++ chunk))
        as [_ WL]; [nia |].
      destruct (slice_last (sample_rate Dummy self) (buf ++ chunk))
        as [_ BL]; [nia |].
      unfold loop_invariant. simpl.
      split; [exact S |]. split; [exact B |].
      split; [rewrite BL; nia |].
      eexists. split; [reflexivity |].
      unfold dummy_process_audio. apply Forall_app. split; [exact F |].
      constructor; [rewrite WL, S, B; reflexivity | constructor].
    + unfold loop_invariant. simpl.
      split; [exact S |]. split; [exact B |]. split.
      * rewrite Z.geb_leb in E. apply Z.leb_gt in E. rewrite S, B in E.
        exact E.
      * exists ws. split; [exact V | exact F].
Qed.

(** However deliveries and iterations interleave, the accumulator always
    stays shorter than the target, and every window handed to the detector
    has exactly the target length. *)
Theorem windows_always_have_target_length (events : list event)
    (self : t Dummy) (audio_buffer : list Q) (received : list (list Q)) :
  (0 < sample_rate Dummy self)%Z ->
  (2 <= buffer_duration Dummy self)%Z ->
  (Py.len audio_buffer < target_samples Dummy self)%Z ->
  voice_detector Dummy self = Some received ->
  Forall (fun w => Py.len w = target_samples Dummy self) received ->
  let out := run Dummy dummy_process_audio events (self, audio_buffer) in
  (Py.len (snd out) < target_samples Dummy self)%Z
  /\ exists windows,
       voice_detector Dummy (fst out) = Some windows
       /\ Forall (fun w => Py.len w = target_samples Dummy self) windows.
Proof.
  intros SR BD L V F out.
  assert (I : loop_invariant (sample_rate Dummy self)
                (buffer_duration Dummy self) out).
  { subst out. unfold run.
    assert (I0 : loop_invariant (sample_rate Dummy self)
                   (buffer_duration Dummy self) (self, audio_buffer)).
    { unfold loop_invariant. simpl.
      split; [reflexivity |]. split; [reflexivity |].
      split; [exact L |]. exists received. split; [exact V | exact F]. }
    revert I0. generalize (self, audio_buffer) as st.
    induction events as [| e rest IH]; intros st I0; [exact I0 |].
    simpl. apply IH. apply step_keeps_invariant; assumption. }
  destruct I as (_ & _ & A & ws & B & C).
  split; [exact A |]. exists ws. split; [exact B | exact C].
Qed.

Lemma windows_always_have_target_length_witness :
  let out :=
    run Dummy dummy_process_audio (blocks 0 1024 47) (capturing, []) in
  (Py.len (snd out) < target_samples Dummy capturing)%Z
  /\ exists windows,
       voice_detector Dummy (fst out) = Some windows
       /\ Forall (fun w => Py.len w = target_samples Dummy capturing) windows.
Proof.
  apply (windows_always_have_target_length (blocks 0 1024 47) capturing []
           []).
  - reflexivity.
  - vm_compute. discriminate.
  - reflexivity.
  - reflexivity.
  - constructor.
Defined.

End WindowsMore.

(* ================================================================== *)
(** * More on the speech queue *)

Section SpeechMore.

Import TextToSpeech.

Lemma drain_keeps_ten (q : list (string * Q)) :
  drain q = skipn (List.length q - 10) q.
Proof.
  induction q as [| x rest IH]; [reflexivity |].
  unfold drain; fold drain. unfold Py.len. simpl List.length.
  destruct (Z.of_nat (S (List.length rest)) >? 10)%Z eqn:E.
  - apply Z.gtb_lt in E. rewrite IH.
    replace (S (List.length rest) - 10)%nat
      with (S (List.length rest - 10)) by lia.
    reflexivity.
  - rewrite Z.gtb_ltb in E. apply Z.ltb_ge in E.
    replace (S (List.length rest) - 10)%nat with O by lia. reflexivity.
Qed.

Lemma speak_fields (self : t) (emotion : string) (confidence now : Q) :
  enabled (speak_emotion_now self emotion confidence now) = enabled self
  /\ engine (speak_emotion_now self emotion confidence now) = engine self.
Proof.
  unfold speak_emotion_now.
  destruct (negb (enabled self) || negb (engine self)); simpl; auto.
Qed.

(** One call with speech on: the entry goes last; a queue of 50 entries
    is first cut to its 10 most recent ones. *)
Lemma speak_queue_after (self : t) (emotion : string) (confidence now : Q) :
  enabled self = true -> engine self = true ->
  exists message,
    speak_queue (speak_emotion_now self emotion confidence now)
    = ((if (Py.len (speak_queue self) <? 50)%Z then speak_queue self
        else skipn (List.length (speak_queue self) - 10) (speak_queue self))
       ++ [(message, now)])%list
    /\ In message
         [emotion; (emotion ++ " detected")%string;
          ("Emotion " ++ emotion)%string; (emotion ++ " emotion")%string].
Proof.
  intros En Eg. unfold speak_emotion_now, maxsize. rewrite En, Eg.
  cbn [negb orb]. eexists. split.
  - cbn [speak_queue].
    destruct (Py.len (speak_queue self) <? 50)%Z; [reflexivity |].
    rewrite drain_keeps_ten. reflexivity.
  - apply nth_In. unfold Py.len. simpl List.length.
    pose proof (Z.mod_pos_bound (emotion_count self + 1) 4 eq_refl) as B.
    change (Z.of_nat 4) with 4%Z. lia.
Qed.

(** The speech queue never holds more than 50 entries, whatever calls are
    made: a call that finds it full keeps the 10 most recent entries and
    adds its own, which is always queued last. *)
Theorem speech_queue_is_bounded (calls : list Call) (self : t) :
  enabled self = true -> engine self = true ->
  (Py.len (speak_queue self) <= 50)%Z ->
  (Py.len (speak_queue (speak_all calls self)) <= 50)%Z
  /\ forall emotion confidence now,
       (Py.len (speak_queue self) = 50)%Z ->
       exists message,
         speak_queue (speak_emotion_now self emotion confidence now)
         = (skipn 40 (speak_queue self) ++ [(message, now)])%list.
Proof.
  intros En Eg L. split.
  - unfold speak_all. revert self En Eg L.
    induction calls as [| c rest IH]; intros self En Eg L; [exact L |].
    simpl. destruct (speak_fields self (call_emotion c) (call_confidence c)
                       (call_time c)) as [E1 E2].
    apply IH; [rewrite E1; exact En | rewrite E2; exact Eg |].
    destruct (speak_queue_after self (call_emotion c) (call_confidence c)
                (call_time c) En Eg) as (m & Q' & _).
    rewrite Q'. unfold Py.len in *. rewrite length_app. simpl List.length.
    destruct (Z.of_nat (List.length (speak_queue self)) <? 50)%Z eqn:E.
    + apply Z.ltb_lt in E. lia.
    + rewrite length_skipn. lia.
  - intros emotion confidence now F.
    destruct (speak_queue_after self emotion confidence now En Eg)
      as (m & Q' & _).
    exists m. rewrite Q'.
    assert (E : (Py.len (speak_queue self) <? 50)%Z = false)
      by (apply Z.ltb_ge; lia).
    rewrite E. unfold Py.len in F.
    replace (List.length (speak_queue self) - 10)%nat with 40%nat by lia.
    reflexivity.
Qed.

Lemma speech_queue_is_bounded_witness :
  (Py.len (speak_queue
             (speak_all (repeat (mkCall "happy" 0.9 1) 60) (init true)))
   <= 50)%Z.
Proof.
  apply (speech_queue_is_bounded (repeat (mkCall "happy" 0.9 1) 60)
           (init true)).
  - reflexivity.
  - reflexivity.
  - vm_compute. discriminate.
Defined.

Lemma speak_all_off (calls : list Call) (s : t) :
  enabled s = false \/ engine s = false -> speak_all calls s = s.
Proof.
  unfold speak_all. induction calls as [| c rest IH]; intro H;
    [reflexivity |].
  simpl. assert (E : speak_emotion_now s (call_emotion c)
                       (call_confidence c) (call_time c) = s).
  { unfold speak_emotion_now. destruct H as [H | H]; rewrite H;
      [reflexivity | rewrite orb_true_r; reflexivity]. }
  rewrite E. apply IH. exact H.
Qed.

(** With speech toggled off, or without an engine, calls are lost: they
    leave no trace, so that toggling speech back on finds the object as it
    was before it was toggled off. *)
Theorem calls_while_off_are_lost (calls : list Call) (self : t) :
  (enabled self = false \/ engine self = false ->
   speak_all calls self = self)
  /\ (enabled self = true ->
      toggle_speech (speak_all calls (toggle_speech self)) = self).
Proof.
  split; [apply speak_all_off |].
  intro En. rewrite speak_all_off.
  - unfold toggle_speech. simpl. rewrite negb_involutive.
    destruct self; reflexivity.
  - left. unfold toggle_speech. simpl. rewrite En. reflexivity.
Qed.

Lemma calls_while_off_are_lost_witness :
  toggle_speech
    (speak_all [mkCall "sad" 0.5 2; mkCall "fear" 0.75 3]
       (toggle_speech (init true)))
  = init true.
Proof.
  apply (calls_while_off_are_lost [mkCall "sad" 0.5 2; mkCall "fear" 0.75 3]
           (init true)).
  reflexivity.
Defined.

Lemma work_spec (n : nat) (self : t) :
  work n self
  = (mk (enabled self) (engine self) (skipn n (speak_queue self))
        (last_speak_time self) (emotion_count self),
     if engine self && enabled self
     then map fst (firstn n (speak_queue self)) else []).
Proof.
  revert self. induction n as [| m IH]; intro self.
  - simpl. destruct self; simpl. destruct (engine0 && enabled0); reflexivity.
  - simpl work. unfold _speaking_worker.
    destruct (speak_queue self) as [| [message queue_time] tail] eqn:Qu.
    + rewrite IH. simpl. rewrite Qu. rewrite skipn_nil, firstn_nil.
      simpl. destruct (engine self && enabled self); reflexivity.
    + simpl engine. simpl enabled.
      destruct (engine self && enabled self) eqn:On; rewrite IH; simpl;
        rewrite On; reflexivity.
Qed.

(** The worker renders the queued messages oldest first, each once; with
    speech off, or without an engine, it takes them off the queue all the
    same and renders none of them. *)
Theorem worker_drains_in_order (self : t) :
  let n := List.length (speak_queue self) in
  speak_queue (fst (work n self)) = []
  /\ snd (work n self)
     = (if engine self && enabled self then map fst (speak_queue self)
        else [])
  /\ forall k,
       snd (work k self)
       = (if engine self && enabled self
          then map fst (firstn k (speak_queue self)) else [])
       /\ speak_queue (fst (work k self)) = skipn k (speak_queue self).
Proof.
  intro n. subst n. rewrite work_spec. simpl.
  rewrite skipn_all, firstn_all.
  split; [reflexivity | split; [reflexivity |]].
  intro k. rewrite work_spec. simpl. split; reflexivity.
Qed.

(** After [stop] the queue is empty and stays empty whatever calls are
    made, and the worker has nothing left to render. *)
Theorem stop_silences (calls : list Call) (n : nat) (self : t) :
  speak_queue (speak_all calls (stop self)) = []
  /\ snd (work n (speak_all calls (stop self))) = [].
Proof.
  assert (E : speak_all calls (stop self) = stop self)
    by (apply speak_all_off; left; reflexivity).
  rewrite E. split; [reflexivity |].
  rewrite work_spec. simpl. rewrite andb_false_r. reflexivity.
Qed.

(** Toggling speech off is never announced: the announcement is made
    after the flag was cleared.  Toggling it on is announced when there is
    an engine. *)
Theorem toggle_off_is_silent (self : t) :
  toggle_speech_feedback self
  = if enabled self then None
    else if engine self then Some "TTS ON"%string else None.
Proof.
  unfold toggle_speech_feedback, speak_now, toggle_speech. simpl.
  destruct (enabled self); destruct (engine self); reflexivity.
Qed.

End SpeechMore.

(* ================================================================== *)
(** * More on the speech controller *)

Section ControllerMore.

Import Main.

(** The controller with speech on: the triggers, then the speaking if a
    trigger fired and there is a fused result. *)
Lemma controller_cases (self : t) (final : option Fused)
    (face voice : option Estimate) (now tts_time : Q) :
  TextToSpeech.enabled (tts self) = true ->
  continuous_speak_emotion self final face voice now tts_time
  = match final with
    | Some f =>
        if should_speak (snd (triggers self final face voice now))
        then execute_emotion_speaking
               (fst (triggers self final face voice now)) f
               (speak_reason (snd (triggers self final face voice now)))
               now tts_time
        else fst (triggers self final face voice now)
    | None => fst (triggers self final face voice now)
    end.
Proof.
  intro En. unfold continuous_speak_emotion. rewrite En. simpl negb.
  cbv iota. destruct (triggers self final face voice now) as [s d].
  reflexivity.
Qed.

(** The state after the triggers: only the last face and voice labels can
    differ, and each is replaced exactly when its trigger fires. *)
Lemma triggers_state (self : t) (final : option Fused)
    (face voice : option Estimate) (now : Q) :
  fst (triggers self final face voice now)
  = mk (tts self) (current_emotion self) (last_spoken_time self)
       (if face_changed_fires self face then option_map emotion face
        else last_face_emotion self)
       (if voice_changed_fires self voice then option_map emotion voice
        else last_voice_emotion self)
       (emotion_speak_count self) (stdout self).
Proof.
  unfold triggers, high_confidence, time_based, voice_changed, face_changed,
    emotion_changed, voice_changed_fires, face_changed_fires.
  destruct self as [tt ce lst lfe lve esc out].
  destruct face as [fr |]; destruct voice as [vr |]; simpl;
    repeat first
      [ match goal with
        | |- context [Py.opt_str_eqb ?a ?b] =>
            destruct (Py.opt_str_eqb a b) eqn:?; simpl
        end
      | match goal with
        | |- context [Py.Qgtb (confidence ?e) ?b] =>
            destruct (Py.Qgtb (confidence e) b) eqn:?; simpl
        end ];
    first [reflexivity | congruence].
Qed.

(** Speech happens exactly when a trigger fired and a fused result
    exists.  It then counts one more speech, writes one line with the
    reason, records the fused label and the time, and passes label and
    confidence to the speech object.  Otherwise, in particular without a
    fused result, none of these changes. *)
Theorem speech_exactly_on_trigger (self : t) (final : option Fused)
    (face voice : option Estimate) (now tts_time : Q) :
  TextToSpeech.enabled (tts self) = true ->
  let decision := snd (triggers self final face voice now) in
  let self' :=
    continuous_speak_emotion self final face voice now tts_time in
  (forall f,
      final = Some f -> should_speak decision = true ->
      emotion_speak_count self' = (emotion_speak_count self + 1)%Z
      /\ current_emotion self' = Some (fused_emotion f)
      /\ last_spoken_time self' = now
      /\ tts self'
         = TextToSpeech.speak_emotion_now (tts self) (fused_emotion f)
             (fused_confidence f) tts_time
      /\ exists message,
           stdout self'
           = (stdout self
              ++ [mkSpoke (emotion_speak_count self + 1) message
                    (speak_reason decision) now])%list)
  /\ (final = None \/ should_speak decision = false ->
      emotion_speak_count self' = emotion_speak_count self
      /\ current_emotion self' = current_emotion self
      /\ last_spoken_time self' = last_spoken_time self
      /\ tts self' = tts self
      /\ stdout self' = stdout self).
Proof.
  intros En decision self'. subst decision self'.
  rewrite (controller_cases self final face voice now tts_time En).
  pose proof (triggers_state self final face voice now) as S.
  split.
  - intros f -> Sp. rewrite Sp. rewrite S.
    unfold execute_emotion_speaking. simpl.
    repeat (split; [reflexivity |]). eexists. reflexivity.
  - intros [-> | Sp].
    + rewrite S. simpl. repeat split.
    + destruct final as [f |]; [rewrite Sp |]; rewrite S; simpl;
        repeat split.
Qed.

Lemma speech_exactly_on_trigger_witness :
  emotion_speak_count
    (continuous_speak_emotion fresh (Some (mkFused "happy" 0.72 "face_only"))
       (Some (mkEstimate "happy" 0.9)) None 1 1)
  = 1%Z.
Proof.
  pose proof (speech_exactly_on_trigger fresh
                (Some (mkFused "happy" 0.72 "face_only"))
                (Some (mkEstimate "happy" 0.9)) None 1 1 eq_refl) as H.
  cbv zeta in H. destruct H as [Spoke _].
  destruct (Spoke (mkFused "happy" 0.72 "face_only") eq_refl eq_refl)
    as [C _].
  exact C.
Defined.

(** The heartbeat: with speech on, whenever more than 2 seconds have
    passed since the last speech and the fused confidence is above 0.4,
    the controller speaks, for the reason [time_based] or
    [high_confidence]. *)
Theorem heartbeat_always_speaks (self : t) (f : Fused)
    (face voice : option Estimate) (now tts_time : Q) :
  TextToSpeech.enabled (tts self) = true ->
  2 < now - last_spoken_time self ->
  0.4 < fused_confidence f ->
  let self' :=
    continuous_speak_emotion self (Some f) face voice now tts_time in
  emotion_speak_count self' = (emotion_speak_count self + 1)%Z
  /\ last_spoken_time self' = now
  /\ exists line,
       stdout self' = (stdout self ++ [line])%list
       /\ (spoke_reason line = "time_based"%string
           \/ spoke_reason line = "high_confidence"%string).
Proof.
  intros En T C self'. subst self'.
  rewrite (controller_cases self (Some f) face voice now tts_time En).
  rewrite (triggers_priority self (Some f) face voice now).
  rewrite (triggers_state self (Some f) face voice now).
  assert (TB : time_based_fires self (Some f) now = true).
  { unfold time_based_fires. apply andb_true_iff.
    split; apply Qgtb_true; lra. }
  rewrite TB.
  destruct (high_confidence_fires self (Some f) now);
    unfold execute_emotion_speaking; simpl;
    (split; [reflexivity | split; [reflexivity |]]);
    eexists; (split; [reflexivity |]); simpl; auto.
Qed.

Lemma heartbeat_always_speaks_witness :
  last_spoken_time
    (continuous_speak_emotion
       (mk (TextToSpeech.init true) (Some "sad"%string) 7 None None 4 [])
       (Some (mkFused "sad" 0.9 "agreement")) None None 10 10)
  = 10.
Proof.
  apply (heartbeat_always_speaks
           (mk (TextToSpeech.init true) (Some "sad"%string) 7 None None 4 [])
           (mkFused "sad" 0.9 "agreement") None None 10 10).
  - reflexivity.
  - reflexivity.
  - reflexivity.
Defined.

(** Low confidence is never announced, however much time passes: with a
    fused confidence of at most 0.4 (or no fused result), a face
    confidence of at most 0.7 and a voice confidence of at most 0.5, the
    controller changes nothing.  So a lone face or voice estimate of
    confidence at most 0.5, whose fused confidence is at most 0.4, never
    makes the application speak. *)
Theorem low_confidence_is_silent (self : t) (final : option Fused)
    (face voice : option Estimate) (now tts_time : Q) :
  (forall f, final = Some f -> fused_confidence f <= 0.4) ->
  (forall e, face = Some e -> confidence e <= 0.7) ->
  (forall e, voice = Some e -> confidence e <= 0.5) ->
  continuous_speak_emotion self final face voice now tts_time = self
  /\ forall e,
       confidence e <= 0.5 ->
       detection_cycle self (Some e) None now tts_time = self
       /\ detection_cycle self None (Some e) now tts_time = self.
Proof.
  assert (G : forall fin fa vo,
             (forall f, fin = Some f -> fused_confidence f <= 0.4) ->
             (forall e, fa = Some e -> confidence e <= 0.7) ->
             (forall e, vo = Some e -> confidence e <= 0.5) ->
             continuous_speak_emotion self fin fa vo now tts_time = self).
  { intros fin fa vo F A V.
    destruct (TextToSpeech.enabled (tts self)) eqn:En;
      [| unfold continuous_speak_emotion; rewrite En; reflexivity].
    rewrite (controller_cases self fin fa vo now tts_time En).
    rewrite (triggers_priority self fin fa vo now).
    rewrite (triggers_state self fin fa vo now).
    assert (H5 : high_confidence_fires self fin now = false).
    { unfold high_confidence_fires. destruct fin as [f |]; [| reflexivity].
      assert (X : Py.Qgtb (fused_confidence f) 0.85 = false)
        by (apply Qgtb_false; specialize (F f eq_refl); lra).
      rewrite X. reflexivity. }
    assert (H4 : time_based_fires self fin now = false).
    { unfold time_based_fires. destruct fin as [f |]; [| reflexivity].
      assert (X : Py.Qgtb (fused_confidence f) 0.4 = false)
        by (apply Qgtb_false; exact (F f eq_refl)).
      rewrite X. apply andb_false_r. }
    assert (H3 : voice_changed_fires self vo = false).
    { unfold voice_changed_fires. destruct vo as [v |]; [| reflexivity].
      assert (X : Py.Qgtb (confidence v) 0.5 = false)
        by (apply Qgtb_false; exact (V v eq_refl)).
      rewrite X. apply andb_false_r. }
    assert (H2 : face_changed_fires self fa = false).
    { unfold face_changed_fires. destruct fa as [v |]; [| reflexivity].
      assert (X : Py.Qgtb (confidence v) 0.7 = false)
        by (apply Qgtb_false; exact (A v eq_refl)).
      rewrite X. apply andb_false_r. }
    assert (H1 : emotion_changed_fires self fin = false).
    { unfold emotion_changed_fires. destruct fin as [f |]; [| reflexivity].
      assert (X : Py.Qgtb (fused_confidence f) 0.4 = false)
        by (apply Qgtb_false; exact (F f eq_refl)).
      rewrite X. apply andb_false_r. }
    rewrite H5, H4, H3, H2, H1. simpl.
    destruct fin; destruct self; reflexivity. }
  intros F A V. split; [exact (G final face voice F A V) |].
  intros e C. unfold detection_cycle, EmotionFusion.fuse_emotions. split.
  - apply G.
    + intros f E. inversion E. simpl. lra.
    + intros e' E. inversion E. subst e'. lra.
    + intros e' E. discriminate E.
  - apply G.
    + intros f E. inversion E. simpl. lra.
    + intros e' E. discriminate E.
    + intros e' E. inversion E. subst e'. lra.
Qed.

Lemma low_confidence_is_silent_witness :
  detection_cycle fresh (Some (mkEstimate "neutral" 0.5)) None 100 100
  = fresh.
Proof.
  assert (C : confidence (mkEstimate "neutral" 0.5) <= 0.5)
    by (simpl; unfold Qle; simpl; lia).
  refine (proj1 (proj2 (low_confidence_is_silent fresh None None None 100 100
                          _ _ _) (mkEstimate "neutral" 0.5) C));
    intros x E; discriminate E.
Defined.

End ControllerMore.

Section RateLimit.

Import Main.

Lemma fires_after_update (self s1 : t) (face : option Estimate) :
  last_face_emotion s1
  = (if face_changed_fires self face then option_map emotion face
     else last_face_emotion self) ->
  face_changed_fires s1 face = false.
Proof.
  intro E. unfold face_changed_fires in *. destruct face as [fr |];
    [| reflexivity].
  rewrite E.
  destruct (negb (Py.opt_str_eqb (last_face_emotion self) (Some (emotion fr)))
            && Py.Qgtb (confidence fr) 0.7) eqn:F.
  - simpl. rewrite String.eqb_refl. reflexivity.
  - exact F.
Qed.

Lemma voice_fires_after_update (self s1 : t) (voice : option Estimate) :
  last_voice_emotion s1
  = (if voice_changed_fires self voice then option_map emotion voice
     else last_voice_emotion self) ->
  voice_changed_fires s1 voice = false.
Proof.
  intro E. unfold voice_changed_fires in *. destruct voice as [vr |];
    [| reflexivity].
  rewrite E.
  destruct (negb (Py.opt_str_eqb (last_voice_emotion self)
                    (Some (emotion vr)))
            && Py.Qgtb (confidence vr) 0.5) eqn:F.
  - simpl. rewrite String.eqb_refl. reflexivity.
  - exact F.
Qed.

(** After a cycle that spoke, the same face and voice results do not make
    the controller speak again within the next half second: such a cycle
    leaves the state as it is. *)
Theorem no_repeat_within_half_second (self : t)
    (face voice : option Estimate) (t1 tts1 t2 tts2 : Q) :
  TextToSpeech.enabled (tts self) = true ->
  emotion_speak_count (detection_cycle self face voice t1 tts1)
  = (emotion_speak_count self + 1)%Z ->
  t1 <= t2 -> t2 - t1 <= 0.5 ->
  detection_cycle (detection_cycle self face voice t1 tts1) face voice
    t2 tts2
  = detection_cycle self face voice t1 tts1.
Proof.
  intros En Spoke L U. unfold detection_cycle in *.
  set (final := EmotionFusion.fuse_emotions face voice) in *.
  rewrite (controller_cases self final face voice t1 tts1 En) in *.
  pose proof (triggers_state self final face voice t1) as S.
  set (d := snd (triggers self final face voice t1)) in *.
  destruct final as [f |] eqn:Fin;
    [| rewrite S in Spoke; simpl in Spoke; lia].
  destruct (should_speak d) eqn:Sp;
    [| rewrite S in Spoke; simpl in Spoke; lia].
  clear Spoke. rewrite S. unfold execute_emotion_speaking.
  cbn [tts current_emotion last_spoken_time last_face_emotion
       last_voice_emotion emotion_speak_count stdout].
  set (s1 := mk _ _ _ _ _ _ _).
  assert (En1 : TextToSpeech.enabled (tts s1) = true).
  { subst s1. cbn [tts].
    rewrite (proj1 (speak_fields _ _ _ _)). exact En. }
  rewrite (controller_cases s1 (Some f) face voice t2 tts2 En1).
  rewrite (triggers_priority s1 (Some f) face voice t2).
  rewrite (triggers_state s1 (Some f) face voice t2).
  assert (H5 : high_confidence_fires s1 (Some f) t2 = false).
  { unfold high_confidence_fires. subst s1. cbn [last_spoken_time].
    assert (X : Py.Qgtb (t2 - t1) 0.5 = false) by (apply Qgtb_false; lra).
    rewrite X. apply andb_false_r. }
  assert (H4 : time_based_fires s1 (Some f) t2 = false).
  { unfold time_based_fires. subst s1. cbn [last_spoken_time].
    assert (X : Py.Qgtb (t2 - t1) 2.0 = false) by (apply Qgtb_false; lra).
    rewrite X. reflexivity. }
  assert (H3 : voice_changed_fires s1 voice = false)
    by (apply (voice_fires_after_update self); reflexivity).
  assert (H2 : face_changed_fires s1 face = false)
    by (apply (fires_after_update self); reflexivity).
  assert (H1 : emotion_changed_fires s1 (Some f) = false).
  { unfold emotion_changed_fires. subst s1. cbn [current_emotion].
    simpl Py.opt_str_eqb. rewrite String.eqb_refl. reflexivity. }
  rewrite H5, H4, H3, H2, H1. cbn [should_speak]. reflexivity.
Qed.

Lemma no_repeat_within_half_second_witness :
  detection_cycle
    (detection_cycle fresh (Some (mkEstimate "happy" 0.9)) None 10 10)
    (Some (mkEstimate "happy" 0.9)) None 10.25 10.25
  = detection_cycle fresh (Some (mkEstimate "happy" 0.9)) None 10 10.
Proof.
  apply (no_repeat_within_half_second fresh (Some (mkEstimate "happy" 0.9))
           None 10 10 10.25 10.25).
  - reflexivity.
  - reflexivity.
  - unfold Qle. simpl. lia.
  - unfold Qle. simpl. lia.
Defined.

End RateLimit.

Section Counters.

Import Main.

(** One cycle either leaves count, log and speech object as they are, or
    counts one speech, logs one line and calls [speak_emotion_now]. *)
Lemma cycle_effect (self : t) (face voice : option Estimate)
    (now tts_time : Q) :
  let self' := detection_cycle self face voice now tts_time in
  (emotion_speak_count self' = emotion_speak_count self
   /\ List.length (stdout self') = List.length (stdout self)
   /\ tts self' = tts self)
  \/ (TextToSpeech.enabled (tts self) = true
      /\ emotion_speak_count self' = (emotion_speak_count self + 1)%Z
      /\ List.length (stdout self') = S (List.length (stdout self))
      /\ exists emotion confidence,
           tts self'
           = TextToSpeech.speak_emotion_now (tts self) emotion confidence
               tts_time).
Proof.
  intro self'. subst self'. unfold detection_cycle.
  set (final := EmotionFusion.fuse_emotions face voice).
  destruct (TextToSpeech.enabled (tts self)) eqn:En;
    [| left; unfold continuous_speak_emotion; rewrite En; auto].
  rewrite (controller_cases self final face voice now tts_time En).
  rewrite (triggers_state self final face voice now).
  destruct final as [f |]; [| left; simpl; auto].
  destruct (should_speak _); [| left; simpl; auto].
  right. unfold execute_emotion_speaking. simpl.
  split; [reflexivity |]. split; [reflexivity |].
  split; [rewrite length_app; simpl; lia |].
  eexists. eexists. reflexivity.
Qed.

(** Over any number of cycles the speech count grows by the number of
    lines logged.  With an engine, the count of the speech object grows by
    the same number; without an engine the speech object never changes,
    so nothing is ever queued although speeches are counted and logged. *)
Theorem counters_agree (frames : list Frame) (self : t) :
  let self' := run frames self in
  (emotion_speak_count self' - emotion_speak_count self
   = Z.of_nat (List.length (stdout self'))
     - Z.of_nat (List.length (stdout self)))%Z
  /\ (TextToSpeech.engine (tts self) = true ->
      (TextToSpeech.emotion_count (tts self')
       - TextToSpeech.emotion_count (tts self)
       = emotion_speak_count self' - emotion_speak_count self)%Z)
  /\ (TextToSpeech.engine (tts self) = false -> tts self' = tts self).
Proof.
  unfold run. revert self.
  induction frames as [| fr rest IH]; intro self; cbv zeta.
  - simpl. split; [lia | split; [intros _; lia | reflexivity]].
  - simpl fold_left.
    set (s1 := detection_cycle self (frame_face fr) (frame_voice fr)
                 (frame_time fr) (frame_tts_time fr)).
    specialize (IH s1). cbv zeta in IH. destruct IH as (A & B & C).
    pose proof (cycle_effect self (frame_face fr) (frame_voice fr)
                  (frame_time fr) (frame_tts_time fr)) as E.
    cbv zeta in E. fold s1 in E.
    destruct E as [(E1 & E2 & E3) | (En & E1 & E2 & em & co & E3)].
    + rewrite E1, E2, E3 in *. split; [exact A | split; [exact B | exact C]].
    + split; [lia |].
      assert (Eg : TextToSpeech.engine (tts s1)
                   = TextToSpeech.engine (tts self)).
      { rewrite E3. apply speak_fields. }
      split.
      * intro G. rewrite Eg in B. specialize (B G).
        assert (X : TextToSpeech.emotion_count (tts s1)
                    = (TextToSpeech.emotion_count (tts self) + 1)%Z).
        { rewrite E3. unfold TextToSpeech.speak_emotion_now.
          rewrite En, G. reflexivity. }
        lia.
      * intro G. rewrite Eg in C. rewrite (C G), E3.
        unfold TextToSpeech.speak_emotion_now. rewrite G.
        rewrite orb_true_r. reflexivity.
Qed.

Lemma counters_agree_witness :
  let self' :=
    run [mkFrame (Some (mkEstimate "happy" 0.9)) None 10 10;
         mkFrame (Some (mkEstimate "sad" 0.9)) None 11 11]
      (init (TextToSpeech.init false)) in
  tts self' = TextToSpeech.init false
  /\ emotion_speak_count self' = 2%Z.
Proof.
  intro self'. split; [| reflexivity].
  apply (counters_agree
           [mkFrame (Some (mkEstimate "happy" 0.9)) None 10 10;
            mkFrame (Some (mkEstimate "sad" 0.9)) None 11 11]
           (init (TextToSpeech.init false))).
  reflexivity.
Defined.

End Counters.

Lemma provenance_is_sound_witness :
  source (mkFused "sad" (0.5 * 0.7) "face_dominant") = "face_dominant"%string
  /\ fused_emotion (mkFused "sad" (0.5 * 0.7) "face_dominant")
     = emotion (mkEstimate "sad" 0.5).
Proof.
  destruct (proj2 (provenance_is_sound (Some (mkEstimate "sad" 0.5))
                     (Some (mkEstimate "angry" 0.9)))
                  (mkFused "sad" (0.5 * 0.7) "face_dominant") eq_refl)
    as [(S & _) | [(S & _) | (f & v & F & V & D)]];
    try discriminate S.
  inversion F. subst f.
  destruct D as [(S & _) | [(S & _ & L) | (S & _)]];
    try discriminate S.
  split; [exact S | exact L].
Defined.
